(** * RNA-Seq annotator: ontology parser, loader, annotation engine, validator

    A shallow embedding of [rna-seq-annotator.py].  Python values are
    modelled as follows.

    - [str] is [string]; characters are 8-bit code points.
    - [float] confidence values are modelled by exact rationals [Q] in the
      engine and the validator, where they are compared and carried
      around; NaN is a cell value of its own.  The matching step, the one
      place that computes with them, is embedded a second time over
      IEEE doubles in module [Doubles].
    - an insertion-ordered [dict] is an association list whose keys are
      kept unique by [dict_set] (overwrite in place, otherwise append).
    - a raised exception is the [Raise] branch of [result].
    - a [DataFrame] is the list of its rows, a row an association list
      from column name to cell. *)

From Stdlib Require Import String Ascii List Bool Arith ZArith QArith Lia.
From Stdlib Require Import PrimFloat.
From Stdlib Require Uint63.
Import ListNotations.

Close Scope Q_scope.
Open Scope string_scope.
Open Scope list_scope.

(** ** Python-level vocabulary *)

Module Py.

Inductive exn : Type :=
| KeyError (key : string)
| ValueError (msg : string)
| TypeError (msg : string)
| AttributeError (attr : string)
| IOError (path : string)
| ConnectionError (key : string)
| JSONDecodeError
| ScoringError (msg : string).

Inductive result (A : Type) : Type :=
| Ok (a : A)
| Raise (e : exn).

Arguments Ok {A} a.
Arguments Raise {A} e.

Definition bind {A B : Type} (m : result A) (k : A -> result B) : result B :=
  match m with
  | Ok a => k a
  | Raise e => Raise e
  end.

Definition is_ok {A : Type} (m : result A) : bool :=
  match m with Ok _ => true | Raise _ => false end.

(** *** Strings *)

(** [str.isspace] on one character, for code points below 256. *)
Definition isspace (c : ascii) : bool :=
  let n := nat_of_ascii c in
  (((9 <=? n) && (n <=? 13)) || ((28 <=? n) && (n <=? 32))
   || (n =? 133) || (n =? 160))%nat.

Fixpoint lstrip (s : string) : string :=
  match s with
  | EmptyString => EmptyString
  | String c s' => if isspace c then lstrip s' else s
  end.

Fixpoint rstrip (s : string) : string :=
  match s with
  | EmptyString => EmptyString
  | String c s' =>
      match rstrip s' with
      | EmptyString => if isspace c then EmptyString else String c EmptyString
      | r => String c r
      end
  end.

(** [s.strip()] *)
Definition strip (s : string) : string := rstrip (lstrip s).

(** [s.startswith(p)] *)
Fixpoint startswith (p s : string) : bool :=
  match p, s with
  | EmptyString, _ => true
  | String a p', String b s' => if Ascii.eqb a b then startswith p' s' else false
  | String _ _, EmptyString => false
  end.

(** [s.split(c, 1)]: [None] when [c] does not occur (the list has one
    element), otherwise the text before and after the first [c]. *)
Fixpoint split_once (c : ascii) (s : string) : option (string * string) :=
  match s with
  | EmptyString => None
  | String a s' =>
      if Ascii.eqb a c then Some (EmptyString, s')
      else match split_once c s' with
           | Some (l, r) => Some (String a l, r)
           | None => None
           end
  end.

(** [s.split(c)[0]] *)
Definition before (c : ascii) (s : string) : string :=
  match split_once c s with
  | Some (l, _) => l
  | None => s
  end.

(** [not s] for a string. *)
Definition str_empty (s : string) : bool :=
  match s with EmptyString => true | _ => false end.

(** *** Insertion-ordered dictionaries with string keys *)

Definition dict (V : Type) : Type := list (string * V).

Fixpoint dict_get {V : Type} (k : string) (d : dict V) : option V :=
  match d with
  | [] => None
  | (k', v) :: d' => if String.eqb k k' then Some v else dict_get k d'
  end.

(** [d[k] = v] *)
Fixpoint dict_set {V : Type} (k : string) (v : V) (d : dict V) : dict V :=
  match d with
  | [] => [(k, v)]
  | (k', v') :: d' =>
      if String.eqb k k' then (k, v) :: d' else (k', v') :: dict_set k v d'
  end.

(** [k in d] *)
Definition dict_mem {V : Type} (k : string) (d : dict V) : bool :=
  match dict_get k d with Some _ => true | None => false end.

End Py.

Import Py.

Notation "x <- m ;; k" := (bind m (fun x => k))
  (at level 61, m at next level, right associativity).

(** ** OntologyStore: the term-block parser *)

Module Obo.

(** The dictionary built for one [[Term]] block.  The three list-valued
    entries and [properties] exist from the start; [id], [name] and
    [definition] exist only once a line has set them. *)
Record term : Type := mkTerm {
  term_id : option string;
  term_name : option string;
  term_definition : option string;
  relationships : list (string * string);
  synonyms : list string;
  xrefs : list string;
  properties : dict string
}.

Definition new_term : term :=
  mkTerm None None None [] [] [] [].

Definition graph : Type := dict term.

(** Parser state: [terms] and [current_term]. *)
Definition pstate : Type := (graph * option term)%type.

Definition init : pstate := ([], None).

(** [terms[current_term['id']] = current_term] *)
Definition store (terms : graph) (t : term) : result graph :=
  match term_id t with
  | Some i => Ok (dict_set i t terms)
  | None => Raise (KeyError "id")
  end.

(** The chain of [if key == ...] branches. *)
Definition set_field (t : term) (key value : string) : result term :=
  if String.eqb key "id" then
    Ok (mkTerm (Some value) (term_name t) (term_definition t)
               (relationships t) (synonyms t) (xrefs t) (properties t))
  else if String.eqb key "name" then
    Ok (mkTerm (term_id t) (Some value) (term_definition t)
               (relationships t) (synonyms t) (xrefs t) (properties t))
  else if String.eqb key "def" then
    Ok (mkTerm (term_id t) (term_name t) (Some value)
               (relationships t) (synonyms t) (xrefs t) (properties t))
  else if String.eqb key "synonym" then
    Ok (mkTerm (term_id t) (term_name t) (term_definition t)
               (relationships t) (synonyms t ++ [value]) (xrefs t) (properties t))
  else if String.eqb key "xref" then
    Ok (mkTerm (term_id t) (term_name t) (term_definition t)
               (relationships t) (synonyms t) (xrefs t ++ [value]) (properties t))
  else if String.eqb key "is_a" then
    Ok (mkTerm (term_id t) (term_name t) (term_definition t)
               (relationships t ++ [("is_a", strip (before "!" value))])
               (synonyms t) (xrefs t) (properties t))
  else if String.eqb key "relationship" then
    match split_once " " value with
    | Some (rel_type, target) =>
        Ok (mkTerm (term_id t) (term_name t) (term_definition t)
                   (relationships t ++ [(rel_type, strip (before "!" target))])
                   (synonyms t) (xrefs t) (properties t))
    | None => Raise (ValueError "not enough values to unpack")
    end
  else
    Ok (mkTerm (term_id t) (term_name t) (term_definition t)
               (relationships t) (synonyms t) (xrefs t)
               (dict_set key value (properties t))).

(** A line read while a block is open and that is not a marker. *)
Definition block_line (t : term) (line : string) : result term :=
  if str_empty line then Ok t
  else match split_once ":" line with
       | Some (key, value) => set_field t key (strip value)
       | None => Ok t
       end.

(** One iteration of [for line in f]. *)
Definition parse_line (st : pstate) (raw : string) : result pstate :=
  let '(terms, current_term) := st in
  let line := strip raw in
  if startswith "[Term]" line then
    terms' <- match current_term with
              | Some t => store terms t
              | None => Ok terms
              end ;;
    Ok (terms', Some new_term)
  else
    match current_term with
    | None => Ok st
    | Some t => t' <- block_line t line ;; Ok (terms, Some t')
    end.

Fixpoint parse_from (st : pstate) (lines : list string) : result pstate :=
  match lines with
  | [] => Ok st
  | l :: ls => st' <- parse_line st l ;; parse_from st' ls
  end.

(** The statements after the loop. *)
Definition finish (st : pstate) : result graph :=
  match snd st with
  | Some t => store (fst st) t
  | None => Ok (fst st)
  end.

(** The body of [_parse_obo_file] on the lines of the opened file. *)
Definition parse_lines (lines : list string) : result graph :=
  st <- parse_from init lines ;; finish st.

(** A file system: the lines of each readable path. *)
Definition files : Type := string -> option (list string).

Definition _parse_obo_file (fs : files) (file_path : string) : result graph :=
  match fs file_path with
  | Some lines => parse_lines lines
  | None => Raise (IOError file_path)
  end.

End Obo.

Import Obo.

(** ** Tabular data *)

Module Frame.

(** The values a cell holds: text, a number, a list of term ids, and
    NaN, which is what a frame holds where a column has no value for a
    record. *)
Inductive cell : Type :=
| VStr (s : string)
| VNum (q : Q)
| VList (l : list string)
| VNaN.

(** A record: the cells of one row, by column name. *)
Definition row : Type := dict cell.

(** The records of a frame in row order.  pandas gives all records of a
    frame the same columns and holds [VNaN] where a column has no value
    for a record; a column is absent from a frame when no record has it. *)
Definition DataFrame : Type := list row.

(** [not v] *)
Definition falsy (v : cell) : bool :=
  match v with
  | VStr s => str_empty s
  | VNum q => Qeq_bool q 0
  | VList l => match l with [] => true | _ => false end
  | VNaN => false
  end.

(** [df[col] = values], for [len(values) == len(df)]. *)
Definition set_column (col : string) (values : list cell) (df : DataFrame)
  : DataFrame :=
  map (fun rv => dict_set col (snd rv) (fst rv)) (combine df values).

(** [df[i:j]] for [0 <= i <= j]. *)
Definition slice (i j : Z) (df : DataFrame) : DataFrame :=
  firstn (Z.to_nat (j - i)) (skipn (Z.to_nat i) df).

(** [pd.concat(frames, ignore_index=True)] *)
Definition pd_concat (frames : list DataFrame) : result DataFrame :=
  match frames with
  | [] => Raise (ValueError "No objects to concatenate")
  | _ => Ok (concat frames)
  end.

End Frame.

Import Frame.

(** ** Configuration, collaborators and the log *)

Module Env.

Record Config : Type := mkConfig {
  max_workers : Z;
  batch_size : Z;
  cache_expiry : Z;
  min_confidence : Q
}.

(** The key-value cache: its content, and which keys currently fail on
    read and on write. *)
Record Redis : Type := mkRedis {
  content : dict string;
  get_fails : string -> bool;
  setex_fails : string -> bool
}.

Definition redis_get (r : Redis) (key : string) : result (option string) :=
  if get_fails r key then Raise (ConnectionError key)
  else Ok (dict_get key (content r)).

Definition redis_setex (r : Redis) (key : string) (ttl : Z) (value : string)
  : result Redis :=
  if setex_fails r key then Raise (ConnectionError key)
  else Ok (mkRedis (dict_set key value (content r)) (get_fails r) (setex_fails r)).

(** Lines written through [self.logger]. *)
Inductive event : Type :=
| LoadedFromCache (name : string)
| LoadedFromFile (name path : string)
| LoadFailed (name : string) (e : exn)
| StartingAnnotation (n : nat)
| BatchFailed (e : exn)
| SavedToMongo
| MongoFailed (e : exn)
| SavedToFile (path : string)
| SaveFailed (e : exn).

(** [logger.error] against [logger.info]. *)
Definition is_error (ev : event) : bool :=
  match ev with
  | LoadFailed _ _ | BatchFailed _ | MongoFailed _ | SaveFailed _ => true
  | _ => false
  end.

End Env.

Import Env.

(** ** OntologyCache: [_load_ontologies] *)

Module Loader.

(** An attribute of [self] that may not have been assigned yet. *)
Definition attr (A : Type) : Type := option A.

(** The part of [self] that loading reads and writes. *)
Record loading : Type := mkLoading {
  ontologies : dict graph;
  log : list event;
  redis_client : attr (option Redis);
  config : attr Config
}.

Definition cache_key (ontology_name : string) : string :=
  "ontology:" ++ ontology_name.

Section WithCollaborators.

Variable fs : files.
Variable json_loads : string -> result graph.
Variable json_dumps : graph -> string.

Definition set_ontology (s : loading) (name : string) (g : graph) : loading :=
  mkLoading (dict_set name g (ontologies s)) (log s) (redis_client s) (config s).

Definition set_redis (s : loading) (r : Redis) : loading :=
  mkLoading (ontologies s) (log s) (Some (Some r)) (config s).

Definition add_log (s : loading) (ev : event) : loading :=
  mkLoading (ontologies s) (log s ++ [ev]) (redis_client s) (config s).

(** The first [if self.redis_client:] statement: [Ok (Some g)] when the
    cache answered with a graph. *)
Definition cache_lookup (rc : option Redis) (name : string)
  : result (option graph) :=
  match rc with
  | None => Ok None
  | Some r =>
      cached <- redis_get r (cache_key name) ;;
      match cached with
      | None => Ok None
      | Some bytes =>
          if str_empty bytes then Ok None
          else g <- json_loads bytes ;; Ok (Some g)
      end
  end.

(** The second [if self.redis_client:] statement, after the parse. *)
Definition cache_store (s : loading) (rc : option Redis) (name : string)
    (g : graph) : loading * result unit :=
  match rc with
  | None => (s, Ok tt)
  | Some r =>
      match config s with
      | None => (s, Raise (AttributeError "config"))
      | Some cfg =>
          match redis_setex r (cache_key name) (cache_expiry cfg) (json_dumps g) with
          | Ok r' => (set_redis s r', Ok tt)
          | Raise e => (s, Raise e)
          end
      end
  end.

(** The body of the [try]. *)
Definition try_load (s : loading) (name file_path : string)
  : loading * result event :=
  match redis_client s with
  | None => (s, Raise (AttributeError "redis_client"))
  | Some rc =>
      match cache_lookup rc name with
      | Raise e => (s, Raise e)
      | Ok (Some g) => (set_ontology s name g, Ok (LoadedFromCache name))
      | Ok None =>
          match _parse_obo_file fs file_path with
          | Raise e => (s, Raise e)
          | Ok g =>
              let s1 := set_ontology s name g in
              match cache_store s1 rc name g with
              | (s2, Ok _) => (s2, Ok (LoadedFromFile name file_path))
              | (s2, Raise e) => (s2, Raise e)
              end
          end
      end
  end.

(** One iteration of the loop, with its [except Exception]. *)
Definition load_one (s : loading) (entry : string * string) : loading :=
  let '(name, file_path) := entry in
  match try_load s name file_path with
  | (s', Ok ev) => add_log s' ev
  | (s', Raise e) => add_log s' (LoadFailed name e)
  end.

Definition _load_ontologies (s : loading) (ontology_files : dict string)
  : loading :=
  fold_left load_one ontology_files s.

(** The constructor up to [self.config = self._load_config()]:
    ontologies are loaded before [redis_client] and [config] are
    assigned. *)
Definition __init__ (ontology_files : dict string) (redis : option Redis)
    (cfg : Config) : loading :=
  let self := mkLoading [] [] None None in
  let self := _load_ontologies self ontology_files in
  mkLoading (ontologies self) (log self) (Some redis) (Some cfg).

End WithCollaborators.

End Loader.

(** ** AnnotationEngine *)

Module Engine.

(** [self] once constructed. *)
Record annotator : Type := mkAnnotator {
  ontologies : dict graph;
  config : Config;
  mongo_client : bool
}.

(** The placeholder scoring method of the class. *)
Definition _calculate_match_confidence (sequence : cell) (term_data : term)
  : result Q :=
  Ok 0%Q.

(** [np.mean], without the rounding of doubles (see [Doubles.np_mean]). *)
Definition np_mean (xs : list Q) : Q :=
  (fold_left Qplus xs 0 / inject_Z (Z.of_nat (length xs)))%Q.

(** [range(0, stop, step)] for [0 <= stop]. *)
Definition py_range (stop step : Z) : result (list Z) :=
  if (step =? 0)%Z then Raise (ValueError "range() arg 3 must not be zero")
  else if (step <? 0)%Z then Ok []
  else Ok (map (fun k => (Z.of_nat k * step)%Z)
               (seq 0 (Z.to_nat ((stop + step - 1) / step)))).

(** [ThreadPoolExecutor(max_workers=n)] *)
Definition ThreadPoolExecutor (n : Z) : result unit :=
  if (n <=? 0)%Z then Raise (ValueError "max_workers must be greater than 0")
  else Ok tt.

Section WithCollaborators.

(** The scoring method in force (the class's or an override's), the
    document store and the CSV writer. *)
Variable score : cell -> term -> result Q.
Variable insert_many : DataFrame -> result unit.
Variable to_csv : DataFrame -> string -> result unit.

(** The loop of [_find_matching_terms] over [ontology.items()]. *)
Fixpoint match_terms (sequence : cell) (min_conf : Q) (items : graph)
    (matches : list string) (confidence_scores : list Q)
  : result (list string * list Q) :=
  match items with
  | [] => Ok (matches, confidence_scores)
  | (term_id, term_data) :: rest =>
      confidence <- score sequence term_data ;;
      if Qle_bool min_conf confidence
      then match_terms sequence min_conf rest
             (matches ++ [term_id]) (confidence_scores ++ [confidence])
      else match_terms sequence min_conf rest matches confidence_scores
  end.

Definition _find_matching_terms (self : annotator) (r : row)
    (ontology_name : string) : result (list string * Q) :=
  match dict_get ontology_name (ontologies self) with
  | None => Raise (KeyError ontology_name)
  | Some ontology =>
      match dict_get "sequence" r with
      | None => Raise (KeyError "sequence")
      | Some sequence =>
          acc <- match_terms sequence (min_confidence (config self))
                   ontology [] [] ;;
          match fst acc with
          | [] => Ok ([], 0%Q)
          | _ => Ok (fst acc, np_mean (snd acc))
          end
      end
  end.

(** The loop over [batch.iterrows()] filling [annotations] and
    [confidences]. *)
Fixpoint annotate_rows (self : annotator) (ontology_name : string)
    (rows : DataFrame) (annotations : list cell) (confidences : list cell)
  : result (list cell * list cell) :=
  match rows with
  | [] => Ok (annotations, confidences)
  | r :: rest =>
      tc <- _find_matching_terms self r ontology_name ;;
      annotate_rows self ontology_name rest
        (annotations ++ [VList (fst tc)]) (confidences ++ [VNum (snd tc)])
  end.

(** The loop over [required_ontologies]. *)
Fixpoint annotate_ontologies (self : annotator) (batch annotated_batch : DataFrame)
    (required_ontologies : list string) : result DataFrame :=
  match required_ontologies with
  | [] => Ok annotated_batch
  | ontology_name :: rest =>
      if dict_mem ontology_name (ontologies self) then
        cols <- annotate_rows self ontology_name batch [] [] ;;
        let annotated1 :=
          set_column (ontology_name ++ "_annotation") (fst cols) annotated_batch in
        let annotated2 :=
          set_column (ontology_name ++ "_confidence") (snd cols) annotated1 in
        annotate_ontologies self batch annotated2 rest
      else annotate_ontologies self batch annotated_batch rest
  end.

Definition _annotate_batch (self : annotator) (batch : DataFrame)
    (required_ontologies : list string) : result DataFrame :=
  annotate_ontologies self batch batch required_ontologies.

(** The list comprehension building [batches]. *)
Definition make_batches (size : Z) (sequence_data : DataFrame)
  : result (list DataFrame) :=
  starts <- py_range (Z.of_nat (length sequence_data)) size ;;
  Ok (map (fun i => slice i (i + size) sequence_data) starts).

(** The worker pool.  [schedule] lists, by submission index, the order
    in which the workers finish tasks; a task is run once, and a task
    not finished when its result is asked for is waited for. *)
Fixpoint finished (self : annotator) (required : list string)
    (batches : list DataFrame) (schedule : list nat)
  : list (nat * result DataFrame) :=
  match schedule with
  | [] => []
  | i :: rest =>
      match nth_error batches i with
      | Some b => (i, _annotate_batch self b required)
                  :: finished self required batches rest
      | None => finished self required batches rest
      end
  end.

Fixpoint completed (i : nat) (done : list (nat * result DataFrame))
  : option (result DataFrame) :=
  match done with
  | [] => None
  | (j, r) :: rest => if Nat.eqb i j then Some r else completed i rest
  end.

(** [future.result()] of the future submitted at position [i]. *)
Definition future_result (self : annotator) (required : list string)
    (done : list (nat * result DataFrame)) (i : nat) (b : DataFrame)
  : result DataFrame :=
  match completed i done with
  | Some r => r
  | None => _annotate_batch self b required
  end.

(** The loop [for future in futures], from position [i] on. *)
Fixpoint gather (self : annotator) (required : list string)
    (done : list (nat * result DataFrame)) (i : nat) (futures : list DataFrame)
    (annotated_batches : list DataFrame) (log : list event)
  : list DataFrame * list event :=
  match futures with
  | [] => (annotated_batches, log)
  | b :: rest =>
      match future_result self required done i b with
      | Ok ab => gather self required done (S i) rest
                   (annotated_batches ++ [ab]) log
      | Raise e => gather self required done (S i) rest
                     annotated_batches (log ++ [BatchFailed e])
      end
  end.

(** The two best-effort saves after the merge. *)
Definition save (self : annotator) (output_file : option string)
    (annotated_data : DataFrame) (log : list event) : list event :=
  let log1 :=
    if mongo_client self then
      match insert_many annotated_data with
      | Ok _ => log ++ [SavedToMongo]
      | Raise e => log ++ [MongoFailed e]
      end
    else log in
  match output_file with
  | Some path =>
      if str_empty path then log1
      else match to_csv annotated_data path with
           | Ok _ => log1 ++ [SavedToFile path]
           | Raise e => log1 ++ [SaveFailed e]
           end
  | None => log1
  end.

(** [annotate_sequence], with the log lines it writes itself. *)
Definition annotate_sequence (self : annotator) (schedule : list nat)
    (sequence_data : DataFrame) (required_ontologies : list string)
    (output_file : option string) : list event * result DataFrame :=
  let log := [StartingAnnotation (length sequence_data)] in
  match make_batches (batch_size (config self)) sequence_data with
  | Raise e => (log, Raise e)
  | Ok batches =>
      match ThreadPoolExecutor (max_workers (config self)) with
      | Raise e => (log, Raise e)
      | Ok _ =>
          let done := finished self required_ontologies batches schedule in
          let '(annotated_batches, log1) :=
            gather self required_ontologies done 0 batches [] log in
          match pd_concat annotated_batches with
          | Raise e => (log1, Raise e)
          | Ok annotated_data =>
              (save self output_file annotated_data log1, Ok annotated_data)
          end
      end
  end.

End WithCollaborators.

End Engine.

(** ** Validator *)

Module Validator.

Inductive verdict : Type :=
| MISSING_REQUIRED_ANNOTATION
| LOW_CONFIDENCE
| PASS.

Definition verdict_str (v : verdict) : string :=
  match v with
  | MISSING_REQUIRED_ANNOTATION => "MISSING_REQUIRED_ANNOTATION"
  | LOW_CONFIDENCE => "LOW_CONFIDENCE"
  | PASS => "PASS"
  end.

(** [validation_rules]: each key may be absent. *)
Record rules : Type := mkRules {
  required_ontologies : option (list string);
  min_confidence : option Q
}.

(** [validation_rules.get('required_ontologies', [])] *)
Definition rules_required (validation_rules : rules) : list string :=
  match required_ontologies validation_rules with
  | Some l => l
  | None => []
  end.

(** [validation_rules.get('min_confidence', 0.8)] *)
Definition rules_threshold (validation_rules : rules) : Q :=
  match min_confidence validation_rules with
  | Some q => q
  | None => (8 # 10)%Q
  end.

(** [confidence < threshold] *)
Definition less_than (confidence : cell) (threshold : Q) : result bool :=
  match confidence with
  | VNum q => Ok (negb (Qle_bool threshold q))
  | VNaN => Ok false
  | _ => Raise (TypeError "'<' not supported")
  end.

(** [not row.get(col)] *)
Definition missing (r : row) (col : string) : bool :=
  match dict_get col r with
  | None => true
  | Some v => falsy v
  end.

(** [row.get(col, 0)] *)
Definition get_or_zero (r : row) (col : string) : cell :=
  match dict_get col r with
  | Some v => v
  | None => VNum 0%Q
  end.

(** The loop of [_validate_row]. *)
Fixpoint check_required (r : row) (threshold : Q) (required : list string)
  : result verdict :=
  match required with
  | [] => Ok PASS
  | ontology :: rest =>
      if missing r (ontology ++ "_annotation") then Ok MISSING_REQUIRED_ANNOTATION
      else
        low <- less_than (get_or_zero r (ontology ++ "_confidence")) threshold ;;
        if low then Ok LOW_CONFIDENCE
        else check_required r threshold rest
  end.

Definition _validate_row (r : row) (validation_rules : rules) : result verdict :=
  check_required r (rules_threshold validation_rules)
    (rules_required validation_rules).

(** [validated_data.apply(..., axis=1)] *)
Fixpoint apply_rows (rows : DataFrame) (validation_rules : rules)
  : result (list cell) :=
  match rows with
  | [] => Ok []
  | r :: rest =>
      v <- _validate_row r validation_rules ;;
      vs <- apply_rows rest validation_rules ;;
      Ok (VStr (verdict_str v) :: vs)
  end.

(** [validate_annotations], for a frame that has rows. *)
Definition validate_annotations (annotated_data : DataFrame)
    (validation_rules : rules) : result DataFrame :=
  statuses <- apply_rows annotated_data validation_rules ;;
  Ok (set_column "validation_status" statuses annotated_data).

End Validator.

(** ** The matching step over doubles *)

Module Doubles.

Definition float : Type := PrimFloat.float.

(** [x >= y]; false as soon as one of them is NaN. *)
Definition ge (x y : float) : bool := PrimFloat.leb y x.

(** An [int] count as a double. *)
Definition of_nat (n : nat) : float :=
  PrimFloat.of_uint63 (Uint63.of_Z (Z.of_nat n)).

(** *** [np.mean] on a one-dimensional array of doubles

    [np.add.reduce] adds numpy's pairwise sum of the array to the
    initial value 0.0, and [np.mean] divides by the count. *)

(** [r[j] += a[i + j]] for the eight lanes. *)
Fixpoint add_lanes (r xs : list float) : list float :=
  match r, xs with
  | a :: r', x :: xs' => PrimFloat.add a x :: add_lanes r' xs'
  | _, _ => r
  end.

(** The unrolled loop over the complete groups of eight that follow the
    first. *)
Fixpoint unrolled (groups : nat) (r xs : list float) : list float * list float :=
  match groups with
  | O => (r, xs)
  | S g => unrolled g (add_lanes r (firstn 8 xs)) (skipn 8 xs)
  end.

Definition lane (r : list float) (j : nat) : float := nth j r 0%float.

(** An array of 8 to 128 values. *)
Definition block_sum (xs : list float) : float :=
  let (r, rest) := unrolled (length xs / 8 - 1) (firstn 8 xs) (skipn 8 xs) in
  let res :=
    PrimFloat.add
      (PrimFloat.add (PrimFloat.add (lane r 0) (lane r 1))
                     (PrimFloat.add (lane r 2) (lane r 3)))
      (PrimFloat.add (PrimFloat.add (lane r 4) (lane r 5))
                     (PrimFloat.add (lane r 6) (lane r 7))) in
  fold_left PrimFloat.add rest res.

(** Fewer than 8 values are added from left to right starting from -0.0;
    more than 128 are split in two, the first part a multiple of 8. *)
Fixpoint pairwise_sum (fuel : nat) (xs : list float) : float :=
  let n := length xs in
  if (n <? 8)%nat then fold_left PrimFloat.add xs (-0)%float
  else if (n <=? 128)%nat then block_sum xs
  else match fuel with
       | O => block_sum xs
       | S fuel' =>
           let n2 := (n / 2 - (n / 2) mod 8)%nat in
           PrimFloat.add (pairwise_sum fuel' (firstn n2 xs))
                         (pairwise_sum fuel' (skipn n2 xs))
       end.

Definition np_sum (xs : list float) : float :=
  PrimFloat.add 0%float (pairwise_sum (length xs) xs).

Definition np_mean (xs : list float) : float :=
  PrimFloat.div (np_sum xs) (of_nat (length xs)).

(** *** [_find_matching_terms] *)

Section WithCollaborators.

(** The scoring method in force and [np.mean]. *)
Variable score : cell -> term -> result float.
Variable mean : list float -> float.

Fixpoint match_terms (sequence : cell) (min_conf : float) (items : graph)
    (matches : list string) (confidence_scores : list float)
  : result (list string * list float) :=
  match items with
  | [] => Ok (matches, confidence_scores)
  | (term_id, term_data) :: rest =>
      confidence <- score sequence term_data ;;
      if ge confidence min_conf
      then match_terms sequence min_conf rest
             (matches ++ [term_id]) (confidence_scores ++ [confidence])
      else match_terms sequence min_conf rest matches confidence_scores
  end.

(** [ontologies] is [self.ontologies], [min_confidence] is
    [self.config['min_confidence']]. *)
Definition _find_matching_terms (ontologies : dict graph) (min_confidence : float)
    (r : row) (ontology_name : string) : result (list string * float) :=
  match dict_get ontology_name ontologies with
  | None => Raise (KeyError ontology_name)
  | Some ontology =>
      match dict_get "sequence" r with
      | None => Raise (KeyError "sequence")
      | Some sequence =>
          acc <- match_terms sequence min_confidence ontology [] [] ;;
          match fst acc with
          | [] => Ok ([], 0%float)
          | _ => Ok (fst acc, mean (snd acc))
          end
      end
  end.

End WithCollaborators.

(** The terms of a graph whose score [sc] reaches the threshold. *)
Definition retained (min_conf : float) (sc : term -> float) (ontology : graph)
  : graph :=
  filter (fun it => PrimFloat.leb min_conf (sc (snd it))) ontology.

End Doubles.

(** ** Reading a term block as the pairs it supplies *)

Module OboSpec.

(** A line that begins a block. *)
Definition is_marker (raw : string) : bool :=
  startswith "[Term]" (strip raw).

(** The [key:value] pair a line supplies: split at the first [:], value
    trimmed. *)
Definition line_pair (raw : string) : option (string * string) :=
  match split_once ":" (strip raw) with
  | Some (key, value) => Some (key, strip value)
  | None => None
  end.

Definition pairs (body : list string) : list (string * string) :=
  flat_map (fun l => match line_pair l with Some p => [p] | None => [] end) body.

(** The values given for [key], in input order, duplicates kept. *)
Definition values_of (key : string) (ps : list (string * string)) : list string :=
  map snd (filter (fun p => String.eqb (fst p) key) ps).

(** The value of the last pair with [key]. *)
Definition last_value (key : string) (ps : list (string * string)) : option string :=
  last (map Some (values_of key ps)) None.

Definition recognized (key : string) : bool :=
  existsb (String.eqb key)
    ["id"; "name"; "def"; "synonym"; "xref"; "is_a"; "relationship"].

(** The relationship a pair contributes. *)
Definition edge_of (p : string * string) : list (string * string) :=
  if String.eqb (fst p) "is_a" then [("is_a", strip (before "!" (snd p)))]
  else if String.eqb (fst p) "relationship" then
    match split_once " " (snd p) with
    | Some (relation_type, remainder) =>
        [(relation_type, strip (before "!" remainder))]
    | None => []
    end
  else [].

Definition edges (ps : list (string * string)) : list (string * string) :=
  flat_map edge_of ps.

(** A block of the file: its marker line and the lines up to the next
    marker or the end of the file. *)
Record block : Type := mkBlock {
  marker : string;
  body : list string
}.

Definition render (b : block) : list string := marker b :: body b.

Definition block_id (b : block) : option string :=
  last_value "id" (pairs (body b)).

(** Well-formed: an [id] is given, and every [relationship] value has a
    space to split on. *)
Definition well_formed (b : block) : Prop :=
  is_marker (marker b) = true
  /\ Forall (fun l => is_marker l = false) (body b)
  /\ block_id b <> None
  /\ Forall (fun p => fst p = "relationship" -> split_once " " (snd p) <> None)
       (pairs (body b)).

(** The lines of an open block applied in turn. *)
Fixpoint fold_block (t : term) (body : list string) : result term :=
  match body with
  | [] => Ok t
  | l :: ls => t' <- block_line t (strip l) ;; fold_block t' ls
  end.

Fixpoint fold_fields (t : term) (ps : list (string * string)) : result term :=
  match ps with
  | [] => Ok t
  | (key, value) :: rest => t' <- set_field t key value ;; fold_fields t' rest
  end.

(** What a block stores when it is finalized. *)
Definition entry (b : block) : list (string * term) :=
  match fold_block new_term (body b) with
  | Ok t => match term_id t with Some i => [(i, t)] | None => [] end
  | Raise _ => []
  end.

Definition or_else {A : Type} (o d : option A) : option A :=
  match o with Some v => Some v | None => d end.

(** [t'] is [t] with the pairs [ps] applied: scalar fields take the last
    value given, list fields grow in input order, unrecognized keys go
    to [properties], last write winning. *)
Definition extends (t : term) (ps : list (string * string)) (t' : term) : Prop :=
  term_id t' = or_else (last_value "id" ps) (term_id t)
  /\ term_name t' = or_else (last_value "name" ps) (term_name t)
  /\ term_definition t' = or_else (last_value "def" ps) (term_definition t)
  /\ synonyms t' = synonyms t ++ values_of "synonym" ps
  /\ xrefs t' = xrefs t ++ values_of "xref" ps
  /\ relationships t' = relationships t ++ edges ps
  /\ forall k,
       dict_get k (properties t')
       = if recognized k then dict_get k (properties t)
         else or_else (last_value k ps) (dict_get k (properties t)).

Definition store_all (entries : list (string * term)) (terms : graph) : graph :=
  fold_left (fun acc it => dict_set (fst it) (snd it) acc) entries terms.

End OboSpec.

(** ** Reading the engine record by record *)

Module EngineSpec.

Import Engine.

(** Contiguous batches of at most [n] records, [n > 0]. *)
Fixpoint chunks_fuel {A : Type} (fuel n : nat) (l : list A) : list (list A) :=
  match fuel with
  | O => []
  | S fuel' =>
      match l with
      | [] => []
      | _ => firstn n l :: chunks_fuel fuel' n (skipn n l)
      end
  end.

Definition chunks {A : Type} (n : nat) (l : list A) : list (list A) :=
  chunks_fuel (length l) n l.

(** The number of starting indices [range(0, len, n)] yields. *)
Definition count (n len : nat) : nat :=
  Z.to_nat ((Z.of_nat len + Z.of_nat n - 1) / Z.of_nat n).

(** The sum of a list of scores. *)
Definition total (xs : list Q) : Q := fold_right Qplus 0%Q xs.

(** The terms of a graph whose score [sc] reaches the threshold. *)
Definition retained (min_conf : Q) (sc : term -> Q) (ontology : graph) : graph :=
  filter (fun it => Qle_bool min_conf (sc (snd it))) ontology.

(** The same annotator with another worker count. *)
Definition with_workers (self : annotator) (workers : Z) : annotator :=
  mkAnnotator (ontologies self)
    (mkConfig workers (batch_size (config self)) (cache_expiry (config self))
       (min_confidence (config self)))
    (mongo_client self).

(** The columns annotation writes: two per requested ontology that is
    loaded. *)
Definition annotation_columns (self : annotator) (required : list string)
  : list string :=
  flat_map (fun o => if dict_mem o (ontologies self)
                     then [(o ++ "_annotation")%string; (o ++ "_confidence")%string]
                     else [])
           required.

Section WithScore.

Variable score : cell -> term -> result Q.

(** The annotation of one record: for each requested ontology that is
    loaded, in order, the two cells computed from the record as it
    came in. *)
Fixpoint row_loop (self : annotator) (r0 r : row) (required : list string)
  : result row :=
  match required with
  | [] => Ok r
  | o :: rest =>
      if dict_mem o (ontologies self) then
        tc <- _find_matching_terms score self r0 o ;;
        row_loop self r0
          (dict_set (o ++ "_confidence") (VNum (snd tc))
             (dict_set (o ++ "_annotation") (VList (fst tc)) r))
          rest
      else row_loop self r0 r rest
  end.

Definition annotate_row (self : annotator) (required : list string) (r : row)
  : result row :=
  row_loop self r r required.

(** The annotated batches that come back, in submission order. *)
Definition survivors (self : annotator) (required : list string)
    (batches : list DataFrame) : list DataFrame :=
  flat_map (fun b => match _annotate_batch score self b required with
                     | Ok ab => [ab]
                     | Raise _ => []
                     end) batches.

(** The failures logged, in submission order. *)
Definition failures (self : annotator) (required : list string)
    (batches : list DataFrame) : list event :=
  flat_map (fun b => match _annotate_batch score self b required with
                     | Ok _ => []
                     | Raise e => [BatchFailed e]
                     end) batches.

(** The input records of the batches that come back. *)
Definition kept_records (self : annotator) (required : list string)
    (sequence_data : DataFrame) : DataFrame :=
  match make_batches (batch_size (config self)) sequence_data with
  | Ok batches =>
      concat (filter (fun b => is_ok (_annotate_batch score self b required))
                     batches)
  | Raise _ => []
  end.

End WithScore.

End EngineSpec.

(** ** Reading the validator check by check *)

Module ValidatorSpec.

Import Validator.

(** The record passes both checks for [ontology]. *)
Definition passes (r : row) (threshold : Q) (ontology : string) : Prop :=
  missing r (ontology ++ "_annotation") = false
  /\ exists q, get_or_zero r (ontology ++ "_confidence") = VNum q
               /\ (threshold <= q)%Q.

(** The annotation of [ontology] is empty or absent. *)
Definition fails_missing (r : row) (ontology : string) : Prop :=
  missing r (ontology ++ "_annotation") = true.

(** The annotation is there and the confidence is below the threshold. *)
Definition fails_low (r : row) (threshold : Q) (ontology : string) : Prop :=
  missing r (ontology ++ "_annotation") = false
  /\ exists q, get_or_zero r (ontology ++ "_confidence") = VNum q
               /\ (q < threshold)%Q.

(** *** The checks in terms of the cells of the record *)

(** The annotation of [ontology] is absent from the record, or is an empty
    list, an empty text or zero.  A NaN cell is neither. *)
Definition annotation_empty_or_absent (r : row) (ontology : string) : Prop :=
  match dict_get (ontology ++ "_annotation") r with
  | None => True
  | Some (VList l) => l = []
  | Some (VStr s) => s = EmptyString
  | Some (VNum q) => (q == 0)%Q
  | Some VNaN => False
  end.

(** The confidence of [ontology], 0 when the record has no such cell, is
    a number below the threshold.  A NaN cell is not below anything. *)
Definition confidence_below (r : row) (threshold : Q) (ontology : string) : Prop :=
  match dict_get (ontology ++ "_confidence") r with
  | None => (0 < threshold)%Q
  | Some (VNum q) => (q < threshold)%Q
  | Some _ => False
  end.

(** The confidence cell is a number, NaN or absent: it can be compared
    with the threshold. *)
Definition confidence_comparable (r : row) (ontology : string) : Prop :=
  match dict_get (ontology ++ "_confidence") r with
  | Some (VStr _) | Some (VList _) => False
  | _ => True
  end.

(** Neither check fails for [ontology]. *)
Definition passes_both (r : row) (threshold : Q) (ontology : string) : Prop :=
  ~ annotation_empty_or_absent r ontology
  /\ ~ confidence_below r threshold ontology.

End ValidatorSpec.

(** ** Sample data *)

Module Demo.

Import OboSpec.

Definition header : list string := ["format-version: 1.2"; ""].

Definition block1 : block :=
  mkBlock "[Term]"
    ["id: GO:0000001";
     "name: mitochondrion inheritance";
     "synonym: first";
     "synonym: first";
     "is_a: GO:0048308 ! organelle inheritance";
     "relationship: part_of GO:0005739 ! mitochondrion";
     "comment: a";
     "comment: b";
     ""].

Definition block2 : block :=
  mkBlock "[Term]" ["id: GO:0000002"; "def: second"; "xref: X:1"].

Definition fs : files :=
  fun file_path =>
    if String.eqb file_path "gene_ontology.obo"
    then Some (header ++ flat_map render [block1; block2])
    else None.

Definition json_loads (text : string) : result graph := Raise JSONDecodeError.

Definition json_dumps (g : graph) : string := "{}".

Definition settings : Config := mkConfig 4 2 3600 (8 # 10).

(** A cache that cannot be reached, and one that only refuses writes. *)
Definition cache_down : Redis := mkRedis [] (fun _ => true) (fun _ => true).

Definition cache_read_only : Redis := mkRedis [] (fun _ => false) (fun _ => true).

(** Two terms, scored 0.9 and 0.5; the sequence [bad] cannot be scored. *)
Definition go : graph :=
  [("T1", mkTerm (Some "T1") (Some "high") None [] [] [] []);
   ("T2", mkTerm (Some "T2") (Some "low") None [] [] [] [])].

Definition score (sequence : cell) (term_data : term) : result Q :=
  match sequence with
  | VStr s =>
      if String.eqb s "bad" then Raise (ScoringError "bad sequence")
      else match term_name term_data with
           | Some n => if String.eqb n "high" then Ok (9 # 10) else Ok (5 # 10)
           | None => Ok 0
           end
  | _ => Raise (TypeError "sequence is not text")
  end%Q.

Definition insert_many (records : DataFrame) : result unit := Ok tt.

Definition to_csv (records : DataFrame) (path : string) : result unit := Ok tt.

Definition sample_annotator : Engine.annotator :=
  Engine.mkAnnotator [("GO", go)] settings false.

Definition record (sample sequence : string) : row :=
  [("sample", VStr sample); ("sequence", VStr sequence)].

Definition records : DataFrame :=
  [record "s1" "ACGU"; record "s2" "GGCA"; record "s3" "UUAC"].

(** A record without [GO] terms whose [SO] confidence is low as well. *)
Definition unmatched : row :=
  [("sequence", VStr "ACGU");
   ("GO_annotation", VList []); ("GO_confidence", VNum 0);
   ("SO_annotation", VList ["S1"]); ("SO_confidence", VNum (5 # 10))].

Definition sample_rules : Validator.rules :=
  Validator.mkRules (Some ["GO"; "SO"]) (Some (8 # 10)%Q).

Definition records_one_bad : DataFrame :=
  [record "s1" "ACGU"; record "s2" "GGCA"; record "s3" "bad"].

End Demo.

(** ** Invariants and the command line *)

Module Invariants.

(** Keys are unique and every entry sits under its own [id]. *)
Definition keyed (terms : graph) : Prop :=
  NoDup (map fst terms)
  /\ Forall (fun kt => term_id (snd kt) = Some (fst kt)) terms.

(** The same annotator with or without a document store. *)
Definition with_mongo (self : Engine.annotator) (configured : bool)
  : Engine.annotator :=
  Engine.mkAnnotator (Engine.ontologies self) (Engine.config self) configured.

End Invariants.

(** ** The command line: [main] *)

Module Cli.

(** The parsed arguments. *)
Record args : Type := mkArgs {
  input : string;
  output : string;
  ontology_dir : string;
  mongodb_uri : option string;
  redis_url : option string
}.

Section WithCollaborators.

Variable fs : files.
Variable json_loads : string -> result graph.
Variable json_dumps : graph -> string.
Variable insert_many : DataFrame -> result unit.
Variable to_csv : DataFrame -> string -> result unit.

(** [_setup_logger], [MongoClient], [redis.from_url], [_load_config],
    [os.path.join] and [pd.read_csv]; each may raise. *)
Variable _setup_logger : result unit.
Variable MongoClient : string -> result unit.
Variable from_url : string -> result Redis.
Variable _load_config : result Config.
Variable path_join : string -> string -> string.
Variable read_csv : string -> result DataFrame.

(** [X(uri) if uri else None] *)
Definition connect {A : Type} (make : string -> result A) (uri : option string)
  : result (option A) :=
  match uri with
  | None => Ok None
  | Some u => if str_empty u then Ok None else c <- make u ;; Ok (Some c)
  end.

(** The constructor: the annotator it builds and the lines it logged. *)
Definition RNASeqAnnotator (ontology_files : dict string)
    (mongodb_uri redis_url : option string)
  : result (Engine.annotator * list event) :=
  _ <- _setup_logger ;;
  let self :=
    Loader._load_ontologies fs json_loads json_dumps
      (Loader.mkLoading [] [] None None) ontology_files in
  mongo_client <- connect MongoClient mongodb_uri ;;
  redis_client <- connect from_url redis_url ;;
  config <- _load_config ;;
  Ok (Engine.mkAnnotator (Loader.ontologies self) config
        (match mongo_client with Some _ => true | None => false end),
      Loader.log self).

(** [main] after argument parsing; the value is [validated_data]. *)
Definition main (a : args) (schedule : list nat) : result DataFrame :=
  let ontology_files :=
    [("GO", path_join (ontology_dir a) "gene_ontology.obo");
     ("SO", path_join (ontology_dir a) "sequence_ontology.obo")] in
  built <- RNASeqAnnotator ontology_files (mongodb_uri a) (redis_url a) ;;
  sequence_data <- read_csv (input a) ;;
  annotated_data <-
    snd (Engine.annotate_sequence Engine._calculate_match_confidence
           insert_many to_csv (fst built) schedule sequence_data
           ["GO"; "SO"] (Some (output a))) ;;
  Validator.validate_annotations annotated_data
    (Validator.mkRules (Some ["GO"; "SO"]) (Some (8 # 10)%Q)).

End WithCollaborators.

End Cli.

(** ** Sample data for the matching step over doubles *)

Module DoublesDemo.

(** 0.7, 0.8 and 0.9 as the doubles Python reads them. *)
Definition d07 : Doubles.float := 0x1.6666666666666p-1%float.
Definition d08 : Doubles.float := 0x1.999999999999ap-1%float.
Definition d09 : Doubles.float := 0x1.ccccccccccccdp-1%float.

(** Terms named [high] score 0.9, terms named [low] 0.5, all others 0.7. *)
Definition score (sequence : cell) (term_data : term) : result Doubles.float :=
  match term_name term_data with
  | Some n =>
      if String.eqb n "high" then Ok d09
      else if String.eqb n "low" then Ok 0.5%float
      else Ok d07
  | None => Ok d07
  end.

(** Three terms that all score 0.7. *)
Definition three : graph :=
  [("T1", mkTerm (Some "T1") None None [] [] [] []);
   ("T2", mkTerm (Some "T2") None None [] [] [] []);
   ("T3", mkTerm (Some "T3") None None [] [] [] [])].

End DoublesDemo.

(** * Properties *)

(** ** Dictionaries and the error monad *)

Module PyFacts.

Lemma dict_get_set_same {V : Type} (k : string) (v : V) (d : dict V) :
  dict_get k (dict_set k v d) = Some v.
Proof.
  induction d as [|[k' v'] d IH]; simpl.
  - now rewrite String.eqb_refl.
  - destruct (String.eqb k k') eqn:E; simpl.
    + now rewrite String.eqb_refl.
    + now rewrite E.
Qed.

Lemma dict_get_set_other {V : Type} (k k0 : string) (v : V) (d : dict V) :
  k <> k0 -> dict_get k (dict_set k0 v d) = dict_get k d.
Proof.
  intros Hne. induction d as [|[k' v'] d IH]; simpl.
  - destruct (String.eqb k k0) eqn:E; [apply String.eqb_eq in E; contradiction | reflexivity].
  - destruct (String.eqb k0 k') eqn:E0; simpl.
    + apply String.eqb_eq in E0. subst k'.
      destruct (String.eqb k k0) eqn:E; [apply String.eqb_eq in E; contradiction | reflexivity].
    + destruct (String.eqb k k'); [reflexivity | exact IH].
Qed.

Lemma bind_ok {A B : Type} (m : result A) (k : A -> result B) (b : B) :
  bind m k = Ok b -> exists a, m = Ok a /\ k a = Ok b.
Proof.
  destruct m as [a|e]; simpl; intros H; [eauto | discriminate].
Qed.

End PyFacts.

Import PyFacts.

(** ** The parser *)

Module OboFacts.

Import OboSpec.

Lemma parse_from_app (l1 l2 : list string) (st : pstate) :
  parse_from st (l1 ++ l2) = (st' <- parse_from st l1 ;; parse_from st' l2).
Proof.
  revert st. induction l1 as [|l l1 IH]; intros st; simpl.
  - reflexivity.
  - destruct (parse_line st l) as [st1|e]; simpl; [apply IH | reflexivity].
Qed.

Lemma parse_line_marker (terms : graph) (cur : option term) (raw : string) :
  is_marker raw = true ->
  parse_line (terms, cur) raw =
    (terms' <- match cur with Some t => store terms t | None => Ok terms end ;;
     Ok (terms', Some new_term)).
Proof.
  unfold is_marker, parse_line. intros ->. reflexivity.
Qed.

Lemma parse_line_closed (terms : graph) (raw : string) :
  is_marker raw = false -> parse_line (terms, None) raw = Ok (terms, None).
Proof.
  unfold is_marker, parse_line. intros ->. reflexivity.
Qed.

Lemma parse_line_open (terms : graph) (t : term) (raw : string) :
  is_marker raw = false ->
  parse_line (terms, Some t) raw =
    (t' <- block_line t (strip raw) ;; Ok (terms, Some t')).
Proof.
  unfold is_marker, parse_line. intros ->. reflexivity.
Qed.

(** Lines read before any marker leave the parser as it is. *)
Lemma parse_header (header : list string) (terms : graph) :
  Forall (fun l => is_marker l = false) header ->
  parse_from (terms, None) header = Ok (terms, None).
Proof.
  induction 1 as [|l ls Hl _ IH]; cbn [parse_from].
  - reflexivity.
  - rewrite (parse_line_closed _ _ Hl). exact IH.
Qed.

(** Lines read after a marker and before the next one all go to the
    open block. *)
Lemma parse_body (body : list string) (terms : graph) (t : term) :
  Forall (fun l => is_marker l = false) body ->
  parse_from (terms, Some t) body =
    (t' <- fold_block t body ;; Ok (terms, Some t')).
Proof.
  intros H. revert t. induction H as [|l ls Hl _ IH]; intros t; cbn [parse_from fold_block].
  - reflexivity.
  - rewrite (parse_line_open _ _ _ Hl).
    destruct (block_line t (strip l)) as [t1|e]; simpl; [apply IH | reflexivity].
Qed.

(** C1 (as amended).  When a term block without an [id] is finalized, at
    the next marker or at the end of the input, the parse raises
    [KeyError] on ['id'] and no mapping is returned for the file; whenever
    the loader parses such a file, with no cache configured or after a
    cache miss, it registers nothing for the ontology and logs the load as
    failed with that error. *)
Theorem missing_id_aborts_file
    (pre rest : list string) (terms : graph) (t : term) :
  parse_from init pre = Ok (terms, Some t) ->
  term_id t = None ->
  (rest = [] \/ exists m rest', rest = m :: rest' /\ is_marker m = true) ->
  parse_lines (pre ++ rest) = Raise (KeyError "id")
  /\ forall fs json_loads json_dumps s rc name file_path,
       fs file_path = Some (pre ++ rest) ->
       Loader.redis_client s = Some rc ->
       Loader.cache_lookup json_loads rc name = Ok None ->
       Loader.load_one fs json_loads json_dumps s (name, file_path)
       = Loader.add_log s (LoadFailed name (KeyError "id")).
Proof.
  intros Hpre Hid Hrest.
  assert (Hparse : parse_lines (pre ++ rest) = Raise (KeyError "id")).
  { unfold parse_lines. rewrite parse_from_app, Hpre. simpl.
    destruct Hrest as [-> | (m & rest' & -> & Hm)]; cbn [parse_from].
    - unfold finish, store. simpl. now rewrite Hid.
    - rewrite (parse_line_marker _ _ _ Hm). unfold store. now rewrite Hid. }
  split; [exact Hparse|].
  intros fs jl jd s rc name file_path Hfs Hrc Hmiss.
  unfold Loader.load_one, Loader.try_load, _parse_obo_file.
  rewrite Hrc, Hmiss, Hfs, Hparse. reflexivity.
Qed.

Lemma missing_id_aborts_file_witness :
  parse_from init ["[Term]"; "name: orphan"]
  = Ok ([], Some (mkTerm None (Some "orphan") None [] [] [] []))
  /\ term_id (mkTerm None (Some "orphan") None [] [] [] []) = None
  /\ parse_lines (["[Term]"; "name: orphan"] ++ ["[Term]"; "id: GO:2"])
     = Raise (KeyError "id")
  /\ Loader.load_one
       (fun _ => Some (["[Term]"; "name: orphan"] ++ ["[Term]"; "id: GO:2"]))
       Demo.json_loads Demo.json_dumps
       (Loader.mkLoading [("SO", [])] []
          (Some (Some (mkRedis [] (fun _ => false) (fun _ => false))))
          (Some Demo.settings))
       ("GO", "gene_ontology.obo")
     = Loader.add_log
         (Loader.mkLoading [("SO", [])] []
            (Some (Some (mkRedis [] (fun _ => false) (fun _ => false))))
            (Some Demo.settings))
         (LoadFailed "GO" (KeyError "id")).
Proof.
  split; [reflexivity|]. split; [reflexivity|].
  destruct (missing_id_aborts_file
              ["[Term]"; "name: orphan"] ["[Term]"; "id: GO:2"] []
              (mkTerm None (Some "orphan") None [] [] [] []))
    as (Hparse & Hload).
  - reflexivity.
  - reflexivity.
  - right. exists "[Term]", ["id: GO:2"]. split; reflexivity.
  - split; [exact Hparse|].
    apply (Hload (fun _ => Some (["[Term]"; "name: orphan"] ++ ["[Term]"; "id: GO:2"]))
             Demo.json_loads Demo.json_dumps _
             (Some (mkRedis [] (fun _ => false) (fun _ => false)))
             "GO" "gene_ontology.obo"); reflexivity.
Defined.

(** C1 fails as stated: a block without [id] is not skipped; the
    well-formed block after it is never parsed into a mapping. *)
Lemma missing_id_block_not_skipped :
  parse_lines ["[Term]"; "name: orphan"; "[Term]"; "id: GO:2"; "name: kept"]
  = Raise (KeyError "id")
  /\ ~ (exists terms,
          parse_lines ["[Term]"; "name: orphan"; "[Term]"; "id: GO:2"; "name: kept"]
          = Ok terms
          /\ dict_get "GO:2" terms <> None).
Proof.
  split; [reflexivity|].
  intros (terms & H & _). vm_compute in H. discriminate.
Qed.

(** C7 (as amended).  A block is started by every line that, once
    trimmed, begins with [[Term]], and by no other line.  Lines read
    before the first such line are ignored; such a line read with a
    block open that has an [id] stores the block under that [id] and
    opens a fresh one; all other lines read with a block open go to
    that block. *)
Theorem marker_prefix_starts_block
    (header : list string) (m : string) (rest : list string) :
  Forall (fun l => is_marker l = false) header ->
  is_marker m = true ->
  (forall terms,
      parse_from (terms, None) (header ++ m :: rest)
      = parse_from (terms, Some new_term) rest)
  /\ (forall terms t i,
        term_id t = Some i ->
        parse_from (terms, Some t) (m :: rest)
        = parse_from (dict_set i t terms, Some new_term) rest)
  /\ (forall terms, parse_from (terms, None) header = Ok (terms, None))
  /\ (forall terms t,
        parse_from (terms, Some t) header
        = (t' <- fold_block t header ;; Ok (terms, Some t'))).
Proof.
  intros Hh Hm. repeat split.
  - intros terms. rewrite parse_from_app, (parse_header _ _ Hh).
    cbn [bind parse_from]. now rewrite (parse_line_marker _ _ _ Hm).
  - intros terms t i Hi. cbn [parse_from].
    rewrite (parse_line_marker _ _ _ Hm). unfold store. now rewrite Hi.
  - intros terms. now apply parse_header.
  - intros terms t. now apply parse_body.
Qed.

Lemma marker_prefix_starts_block_witness :
  Forall (fun l => is_marker l = false) ["format-version: 1.2"; ""]
  /\ is_marker "  [Term] ! first" = true
  /\ parse_from ([], None) (["format-version: 1.2"; ""] ++ "  [Term] ! first" :: ["id: GO:1"])
     = parse_from ([], Some new_term) ["id: GO:1"].
Proof.
  split; [repeat constructor|]. split; [reflexivity|].
  apply (marker_prefix_starts_block
           ["format-version: 1.2"; ""] "  [Term] ! first" ["id: GO:1"]).
  - repeat constructor.
  - reflexivity.
Defined.

(** C7 fails as stated: a line that is not the literal marker, only
    begins with it, starts a block too. *)
Lemma marker_with_suffix_starts_block :
  strip "[Term]junk" <> "[Term]"
  /\ parse_line ([], None) "[Term]junk" = Ok ([], Some new_term)
  /\ parse_lines ["[Term]junk"; "id: A"]
     = Ok [("A", mkTerm (Some "A") None None [] [] [] [])].
Proof.
  split; [discriminate|]. split; reflexivity.
Qed.

(** *** Well-formed blocks *)

Lemma block_line_pair (t : term) (l : string) :
  block_line t (strip l)
  = match line_pair l with
    | Some (key, value) => set_field t key value
    | None => Ok t
    end.
Proof.
  unfold block_line, line_pair.
  destruct (strip l) as [|c s]; simpl; [reflexivity|].
  destruct (if Ascii.eqb c ":" then _ else _) as [[k v]|]; reflexivity.
Qed.

Lemma fold_block_pairs (body : list string) (t : term) :
  fold_block t body = fold_fields t (pairs body).
Proof.
  revert t. induction body as [|l ls IH]; intros t; cbn [fold_block]; [reflexivity|].
  rewrite block_line_pair. unfold pairs. cbn [flat_map]. fold (pairs ls).
  destruct (line_pair l) as [[k v]|]; cbn [app fold_fields bind].
  - destruct (set_field t k v); simpl; [apply IH | reflexivity].
  - apply IH.
Qed.

Lemma values_of_cons (k key value : string) (ps : list (string * string)) :
  values_of k ((key, value) :: ps)
  = (if String.eqb key k then [value] else []) ++ values_of k ps.
Proof.
  unfold values_of. simpl. destruct (String.eqb key k); reflexivity.
Qed.

Lemma last_value_cons (k key value : string) (ps : list (string * string)) :
  last_value k ((key, value) :: ps)
  = match last_value k ps with
    | Some v => Some v
    | None => if String.eqb key k then Some value else None
    end.
Proof.
  unfold last_value. rewrite values_of_cons.
  assert (Hl : forall l : list string,
             last (map Some l) None = None -> l = []).
  { induction l as [|x l IHl]; [reflexivity|]. simpl.
    destruct l as [|y l]; [discriminate|]. intros H. specialize (IHl H). discriminate. }
  destruct (String.eqb key k); simpl.
  - destruct (values_of k ps) as [|x l] eqn:E; [reflexivity|].
    destruct (last (map Some (x :: l)) None) eqn:E2; [reflexivity|].
    apply Hl in E2. discriminate.
  - destruct (last (map Some (values_of k ps)) None); reflexivity.
Qed.

(** What one [key:value] pair does to the open block. *)
Lemma set_field_spec (t : term) (key value : string) :
  (key = "relationship" -> split_once " " value <> None) ->
  exists t',
    set_field t key value = Ok t'
    /\ term_id t' = (if String.eqb key "id" then Some value else term_id t)
    /\ term_name t' = (if String.eqb key "name" then Some value else term_name t)
    /\ term_definition t'
       = (if String.eqb key "def" then Some value else term_definition t)
    /\ synonyms t' = synonyms t ++ (if String.eqb key "synonym" then [value] else [])
    /\ xrefs t' = xrefs t ++ (if String.eqb key "xref" then [value] else [])
    /\ relationships t' = relationships t ++ edge_of (key, value)
    /\ properties t'
       = (if recognized key then properties t else dict_set key value (properties t)).
Proof.
  intros Hrel. unfold set_field, edge_of, recognized. cbn [fst snd existsb].
  destruct (String.eqb key "id") eqn:E1;
    [apply String.eqb_eq in E1; subst key; eexists; split; [reflexivity|];
     cbn; rewrite ?app_nil_r; repeat split; reflexivity|].
  destruct (String.eqb key "name") eqn:E2;
    [apply String.eqb_eq in E2; subst key; eexists; split; [reflexivity|];
     cbn; rewrite ?app_nil_r; repeat split; reflexivity|].
  destruct (String.eqb key "def") eqn:E3;
    [apply String.eqb_eq in E3; subst key; eexists; split; [reflexivity|];
     cbn; rewrite ?app_nil_r; repeat split; reflexivity|].
  destruct (String.eqb key "synonym") eqn:E4;
    [apply String.eqb_eq in E4; subst key; eexists; split; [reflexivity|];
     cbn; rewrite ?app_nil_r; repeat split; reflexivity|].
  destruct (String.eqb key "xref") eqn:E5;
    [apply String.eqb_eq in E5; subst key; eexists; split; [reflexivity|];
     cbn; rewrite ?app_nil_r; repeat split; reflexivity|].
  destruct (String.eqb key "is_a") eqn:E6;
    [apply String.eqb_eq in E6; subst key; eexists; split; [reflexivity|];
     cbn; rewrite ?app_nil_r; repeat split; reflexivity|].
  destruct (String.eqb key "relationship") eqn:E7.
  - apply String.eqb_eq in E7. specialize (Hrel E7).
    destruct (split_once " " value) as [[rel_type target]|]; [|contradiction].
    eexists; split; [reflexivity|].
    cbn; rewrite ?app_nil_r; repeat split; reflexivity.
  - eexists; split; [reflexivity|].
    cbn; rewrite ?app_nil_r; repeat split; reflexivity.
Qed.

Lemma fold_fields_spec (ps : list (string * string)) (t : term) :
  Forall (fun p => fst p = "relationship" -> split_once " " (snd p) <> None) ps ->
  exists t', fold_fields t ps = Ok t' /\ extends t ps t'.
Proof.
  intros H. revert t. induction H as [|[key value] ps Hp _ IH]; intros t.
  - exists t. split; [reflexivity|]. unfold extends, edges, values_of, last_value.
    simpl. rewrite !app_nil_r. repeat split; try reflexivity.
    intros k. destruct (recognized k); reflexivity.
  - destruct (set_field_spec t key value Hp)
      as (t1 & Hset & Hid & Hname & Hdef & Hsyn & Hx & Hrel & Hprops).
    destruct (IH t1) as (t' & Hfold & Jid & Jname & Jdef & Jsyn & Jx & Jrel & Jprops).
    exists t'. split; [cbn [fold_fields]; rewrite Hset; exact Hfold|].
    unfold extends. rewrite !last_value_cons, !values_of_cons.
    repeat split.
    + rewrite Jid, Hid. unfold or_else.
      destruct (last_value "id" ps); [reflexivity|]. now destruct (String.eqb key "id").
    + rewrite Jname, Hname. unfold or_else.
      destruct (last_value "name" ps); [reflexivity|]. now destruct (String.eqb key "name").
    + rewrite Jdef, Hdef. unfold or_else.
      destruct (last_value "def" ps); [reflexivity|]. now destruct (String.eqb key "def").
    + rewrite Jsyn, Hsyn. now rewrite app_assoc.
    + rewrite Jx, Hx. now rewrite app_assoc.
    + rewrite Jrel, Hrel. unfold edges. cbn [flat_map]. now rewrite app_assoc.
    + intros k. rewrite Jprops, Hprops, last_value_cons. unfold or_else.
      destruct (recognized k) eqn:Rk.
      * destruct (recognized key) eqn:Rkey; [reflexivity|].
        apply dict_get_set_other. intros ->. congruence.
      * destruct (last_value k ps); [reflexivity|].
        destruct (String.eqb key k) eqn:E.
        -- apply String.eqb_eq in E. subst key. rewrite Rk.
           apply dict_get_set_same.
        -- destruct (recognized key); [reflexivity|].
           apply dict_get_set_other. intros ->. now rewrite String.eqb_refl in E.
Qed.

(** A well-formed block stores one entry, under the [id] it gives. *)
Lemma entry_well_formed (b : block) :
  well_formed b ->
  exists i t,
    block_id b = Some i
    /\ fold_block new_term (body b) = Ok t
    /\ entry b = [(i, t)]
    /\ extends new_term (pairs (body b)) t.
Proof.
  intros (_ & _ & Hid & Hrel).
  destruct (fold_fields_spec _ new_term Hrel) as (t & Hfold & Hext).
  destruct (block_id b) as [i|] eqn:Ei; [|contradiction].
  exists i, t. rewrite fold_block_pairs. split; [reflexivity|]. split; [exact Hfold|].
  split; [|exact Hext].
  unfold entry. rewrite fold_block_pairs, Hfold.
  destruct Hext as (Jid & _). unfold block_id in Ei. rewrite Ei in Jid. simpl in Jid.
  now rewrite Jid.
Qed.

Lemma store_all_app (e1 e2 : list (string * term)) (terms : graph) :
  store_all (e1 ++ e2) terms = store_all e2 (store_all e1 terms).
Proof. unfold store_all. apply fold_left_app. Qed.

Lemma store_all_keeps (es : list (string * term)) (terms : graph) (i : string) :
  Forall (fun e => fst e <> i) es ->
  dict_get i (store_all es terms) = dict_get i terms.
Proof.
  intros H. revert terms. induction H as [|[k v] es Hk _ IH]; intros terms.
  - reflexivity.
  - cbn [store_all fold_left fst snd]. fold (store_all es (dict_set k v terms)).
    rewrite IH. apply dict_get_set_other. intros ->. now apply Hk.
Qed.

(** Blocks read with a block open that has an [id]. *)
Lemma parse_blocks (blocks : list block) (terms : graph) (t : term) (i : string) :
  Forall well_formed blocks ->
  term_id t = Some i ->
  (st <- parse_from (terms, Some t) (flat_map render blocks) ;; finish st)
  = Ok (store_all (flat_map entry blocks) (dict_set i t terms)).
Proof.
  intros H. revert terms t i. induction H as [|b bs Hb _ IH]; intros terms t i Hi.
  - cbn. unfold store. now rewrite Hi.
  - cbn [flat_map]. unfold render at 1. rewrite <- app_comm_cons.
    cbn [parse_from].
    destruct (entry_well_formed b Hb) as (ib & tb & Hbid & Hfold & Hentry & Hext).
    destruct Hb as (Hm & Hbody & _).
    rewrite (parse_line_marker _ _ _ Hm). unfold store at 1. rewrite Hi.
    cbn [bind]. rewrite parse_from_app, (parse_body _ _ _ Hbody), Hfold.
    cbn [bind]. rewrite Hentry. cbn [app].
    assert (Htb : term_id tb = Some ib).
    { destruct Hext as (Jid & _). unfold block_id in Hbid. now rewrite Hbid in Jid. }
    rewrite (IH _ _ _ Htb). reflexivity.
Qed.

(** A file of well-formed blocks parses, to the entries of its blocks
    stored in file order. *)
Lemma parse_file (header : list string) (blocks : list block) :
  Forall (fun l => is_marker l = false) header ->
  Forall well_formed blocks ->
  parse_lines (header ++ flat_map render blocks)
  = Ok (store_all (flat_map entry blocks) []).
Proof.
  intros Hh Hb. unfold parse_lines, init.
  rewrite parse_from_app, (parse_header _ _ Hh). cbn [bind].
  destruct Hb as [|b bs Hb Hbs]; [reflexivity|].
  cbn [flat_map]. unfold render at 1. rewrite <- app_comm_cons. cbn [parse_from].
  destruct (entry_well_formed b Hb) as (ib & tb & Hbid & Hfold & Hentry & Hext).
  destruct Hb as (Hm & Hbody & _).
  rewrite (parse_line_marker _ _ _ Hm). cbn [bind].
  rewrite parse_from_app, (parse_body _ _ _ Hbody), Hfold. cbn [bind].
  assert (Htb : term_id tb = Some ib).
  { destruct Hext as (Jid & _). unfold block_id in Hbid. now rewrite Hbid in Jid. }
  rewrite (parse_blocks bs [] tb ib Hbs Htb), Hentry. reflexivity.
Qed.

(** C6 (as amended).  A file made only of well-formed term blocks parses,
    and looking up the [id] of a block that no later block repeats returns a
    record holding exactly the pairs the block supplies, values trimmed:
    [synonym] and [xref] values in input order with duplicates, one
    relationship per [is_a] and per [relationship] line with the target
    cut at the first [!] and trimmed, and every unrecognized key in
    [properties], last write winning. *)
Theorem well_formed_block_lookup (header : list string) (blocks : list block) :
  Forall (fun l => is_marker l = false) header ->
  Forall well_formed blocks ->
  exists terms,
    parse_lines (header ++ flat_map render blocks) = Ok terms
    /\ forall before b after i,
         blocks = before ++ b :: after ->
         block_id b = Some i ->
         Forall (fun b' => block_id b' <> Some i) after ->
         exists t,
           dict_get i terms = Some t
           /\ term_id t = Some i
           /\ term_name t = last_value "name" (pairs (body b))
           /\ term_definition t = last_value "def" (pairs (body b))
           /\ synonyms t = values_of "synonym" (pairs (body b))
           /\ xrefs t = values_of "xref" (pairs (body b))
           /\ relationships t = edges (pairs (body b))
           /\ forall k,
                dict_get k (properties t)
                = if recognized k then None else last_value k (pairs (body b)).
Proof.
  intros Hh Hb. eexists. split; [apply (parse_file _ _ Hh Hb)|].
  intros before b after i -> Hi Hafter.
  apply Forall_app in Hb. destruct Hb as (_ & Hb).
  inversion Hb as [|b0 bs Hwf Hrest]; subst.
  destruct (entry_well_formed b Hwf) as (ib & tb & Hbid & _ & Hentry & Hext).
  assert (ib = i) by congruence. subst ib.
  exists tb. split.
  - rewrite flat_map_app. cbn [flat_map]. rewrite Hentry.
    rewrite store_all_app. cbn [app]. change ((i, tb) :: flat_map entry after)
      with ([(i, tb)] ++ flat_map entry after).
    rewrite store_all_app, store_all_keeps.
    + cbn. apply dict_get_set_same.
    + clear - Hafter Hrest. induction after as [|b' after IH]; [constructor|].
      inversion Hafter; inversion Hrest; subst. cbn [flat_map].
      apply Forall_app. split; [|now apply IH].
      destruct (entry_well_formed b') as (i' & t' & Hi' & _ & He' & _); [assumption|].
      rewrite He'. constructor; [|constructor]. cbn. congruence.
  - destruct Hext as (Jid & Jname & Jdef & Jsyn & Jx & Jrel & Jprops).
    unfold block_id in Hi. rewrite Hi in Jid.
    repeat split; try assumption.
    + rewrite Jname. now destruct (last_value "name" _).
    + rewrite Jdef. now destruct (last_value "def" _).
    + intros k. rewrite Jprops. destruct (recognized k); [reflexivity|].
      now destruct (last_value k _).
Qed.

Lemma well_formed_block_lookup_witness :
  Forall (fun l => is_marker l = false) Demo.header
  /\ Forall well_formed [Demo.block1; Demo.block2]
  /\ exists terms,
       parse_lines (Demo.header ++ flat_map render [Demo.block1; Demo.block2])
       = Ok terms
       /\ exists t,
            dict_get "GO:0000001" terms = Some t
            /\ synonyms t = ["first"; "first"]
            /\ relationships t
               = [("is_a", "GO:0048308"); ("part_of", "GO:0005739")]
            /\ dict_get "comment" (properties t) = Some "b".
Proof.
  assert (H1 : Forall (fun l => is_marker l = false) Demo.header)
    by (repeat constructor).
  assert (H2 : Forall well_formed [Demo.block1; Demo.block2]).
  { repeat constructor; try (vm_compute; discriminate);
      try (intros H; vm_compute in H; discriminate H). }
  split; [exact H1|]. split; [exact H2|].
  destruct (well_formed_block_lookup Demo.header [Demo.block1; Demo.block2] H1 H2)
    as (terms & Hparse & Hlook).
  exists terms. split; [exact Hparse|].
  destruct (Hlook [] Demo.block1 [Demo.block2] "GO:0000001")
    as (t & Hget & _ & _ & _ & Hsyn & _ & Hrel & Hprops).
  - reflexivity.
  - reflexivity.
  - repeat constructor. vm_compute. discriminate.
  - exists t. split; [exact Hget|]. split; [exact Hsyn|]. split; [exact Hrel|].
    exact (Hprops "comment").
Defined.

(** C6 fails as stated: a well-formed block is lost when a block without
    [id] follows it, since the whole parse raises, and looking up its [id]
    returns the fields of another block when a later block repeats the
    [id]. *)
Lemma well_formed_block_can_be_lost :
  well_formed (mkBlock "[Term]" ["id: A"; "name: first"])
  /\ parse_lines (render (mkBlock "[Term]" ["id: A"; "name: first"])
                  ++ ["[Term]"; "name: orphan"])
     = Raise (KeyError "id")
  /\ parse_lines (render (mkBlock "[Term]" ["id: A"; "name: first"])
                  ++ render (mkBlock "[Term]" ["id: A"; "name: second"]))
     = Ok [("A", mkTerm (Some "A") (Some "second") None [] [] [] [])].
Proof.
  split; [|split; reflexivity].
  repeat split; try reflexivity.
  - repeat constructor.
  - vm_compute. discriminate.
  - repeat constructor; intros H; vm_compute in H; discriminate H.
Qed.

End OboFacts.

(** ** The loader *)

Module LoaderFacts.

Import Loader.

Section WithCollaborators.

Variable fs : files.
Variable json_loads : string -> result graph.
Variable json_dumps : graph -> string.

Lemma cache_store_ontologies (s : loading) (rc : option Redis)
    (name : string) (g : graph) :
  ontologies (fst (cache_store json_dumps s rc name g)) = ontologies s.
Proof.
  unfold cache_store. destruct rc as [r|]; [|reflexivity].
  destruct (config s) as [cfg|]; [|reflexivity].
  destruct (redis_setex r _ _ _); reflexivity.
Qed.

(** After a cache miss the registered graph does not depend on what
    the write to the cache does. *)
Lemma miss_registers_parse (s : loading) (rc : option Redis)
    (name file_path : string) :
  redis_client s = Some rc ->
  cache_lookup json_loads rc name = Ok None ->
  ontologies (load_one fs json_loads json_dumps s (name, file_path))
  = match _parse_obo_file fs file_path with
    | Ok g => dict_set name g (ontologies s)
    | Raise _ => ontologies s
    end.
Proof.
  intros Hrc Hmiss. unfold load_one, try_load. rewrite Hrc, Hmiss.
  destruct (_parse_obo_file fs file_path) as [g|e]; [|reflexivity].
  pose proof (cache_store_ontologies (set_ontology s name g) rc name g) as H.
  destruct (cache_store json_dumps (set_ontology s name g) rc name g) as [s2 [u|e]];
    simpl in *; exact H.
Qed.

(** The constructor calls [_load_ontologies] before [redis_client] is
    assigned: every load ends in the [except] branch. *)
Remark constructor_registers_nothing (ontology_files : dict string)
    (redis : option Redis) (cfg : Config) :
  ontologies (__init__ fs json_loads json_dumps ontology_files redis cfg) = [].
Proof.
  unfold __init__, _load_ontologies. simpl.
  assert (H : forall l s, redis_client s = None ->
              ontologies (fold_left (load_one fs json_loads json_dumps) l s)
              = ontologies s).
  { induction l as [|[n f] l IH]; intros s Hs; [reflexivity|].
    cbn [fold_left]. rewrite IH.
    - unfold load_one, try_load. now rewrite Hs.
    - unfold load_one, try_load. now rewrite Hs. }
  now rewrite H.
Qed.

(** C3 (as amended).  With a cache configured: after a cache miss, a
    failing cache write leaves the graph parsed from the source file
    registered exactly as when no cache is configured, and the load is
    logged as failed with the error of the write; a failing cache read
    makes the load of that ontology fail: the file is not parsed, nothing
    is registered for it and the failure is logged. *)
Theorem cache_failure_behaviour (s : loading) (r : Redis)
    (name file_path : string) :
  redis_client s = Some (Some r) ->
  (cache_lookup json_loads (Some r) name = Ok None ->
   setex_fails r (cache_key name) = true ->
   ontologies (load_one fs json_loads json_dumps s (name, file_path))
   = ontologies (load_one fs json_loads json_dumps
                   (mkLoading (ontologies s) (log s) (Some None) (config s))
                   (name, file_path))
   /\ forall g,
        _parse_obo_file fs file_path = Ok g ->
        load_one fs json_loads json_dumps s (name, file_path)
        = add_log (set_ontology s name g)
            (LoadFailed name
               (match config s with
                | Some _ => ConnectionError (cache_key name)
                | None => AttributeError "config"
                end))
        /\ ontologies (load_one fs json_loads json_dumps
                         (mkLoading (ontologies s) (log s) (Some None) (config s))
                         (name, file_path))
           = dict_set name g (ontologies s))
  /\ (get_fails r (cache_key name) = true ->
      load_one fs json_loads json_dumps s (name, file_path)
      = add_log s (LoadFailed name (ConnectionError (cache_key name)))).
Proof.
  intros Hrc. split.
  - intros Hmiss Hset. split.
    + rewrite (miss_registers_parse s (Some r) name file_path Hrc Hmiss).
      rewrite (miss_registers_parse
                 (mkLoading (ontologies s) (log s) (Some None) (config s))
                 None name file_path eq_refl eq_refl).
      reflexivity.
    + intros g Hparse. split.
      * unfold load_one, try_load. rewrite Hrc, Hmiss, Hparse.
        unfold cache_store, redis_setex. cbn [config set_ontology].
        destruct (config s) as [cfg|]; [|reflexivity].
        now rewrite Hset.
      * rewrite (miss_registers_parse
                   (mkLoading (ontologies s) (log s) (Some None) (config s))
                   None name file_path eq_refl eq_refl).
        now rewrite Hparse.
  - intros Hfail. unfold load_one, try_load, cache_lookup, redis_get.
    now rewrite Hrc, Hfail.
Qed.

End WithCollaborators.

Lemma cache_failure_behaviour_witness :
  redis_client (mkLoading [] [] (Some (Some Demo.cache_read_only)) (Some Demo.settings))
  = Some (Some Demo.cache_read_only)
  /\ load_one Demo.fs Demo.json_loads Demo.json_dumps
       (mkLoading [] [] (Some (Some Demo.cache_read_only)) (Some Demo.settings))
       ("GO", "gene_ontology.obo")
     = add_log
         (set_ontology
            (mkLoading [] [] (Some (Some Demo.cache_read_only)) (Some Demo.settings))
            "GO"
            (OboSpec.store_all
               (flat_map OboSpec.entry [Demo.block1; Demo.block2]) []))
         (LoadFailed "GO" (ConnectionError "ontology:GO")).
Proof.
  split; [reflexivity|].
  destruct (cache_failure_behaviour Demo.fs Demo.json_loads Demo.json_dumps
              (mkLoading [] [] (Some (Some Demo.cache_read_only)) (Some Demo.settings))
              Demo.cache_read_only "GO" "gene_ontology.obo" eq_refl)
    as (Hwrite & _).
  destruct (Hwrite eq_refl eq_refl) as (_ & Hstate).
  destruct (Hstate (OboSpec.store_all
                      (flat_map OboSpec.entry [Demo.block1; Demo.block2]) [])
                   eq_refl) as (Hload & _).
  exact Hload.
Defined.

(** C3 fails as stated: when the cache read fails the ontology is not
    parsed from its file and is not registered, although the same load
    without a cache registers it. *)
Lemma cache_read_failure_loses_ontology :
  ontologies
    (_load_ontologies Demo.fs Demo.json_loads Demo.json_dumps
       (mkLoading [] [] (Some (Some Demo.cache_down)) (Some Demo.settings))
       [("GO", "gene_ontology.obo")])
  = []
  /\ dict_mem "GO"
       (ontologies
          (_load_ontologies Demo.fs Demo.json_loads Demo.json_dumps
             (mkLoading [] [] (Some None) (Some Demo.settings))
             [("GO", "gene_ontology.obo")]))
     = true.
Proof.
  split; reflexivity.
Qed.

End LoaderFacts.

(** ** The annotation engine *)

Module EngineFacts.

Import Engine EngineSpec.

Lemma fold_left_Qplus (xs : list Q) (a : Q) :
  (fold_left Qplus xs a == a + total xs)%Q.
Proof.
  revert a. induction xs as [|x xs IH]; intros a; simpl.
  - ring.
  - rewrite IH. ring.
Qed.

Lemma length_append (s1 s2 : string) :
  String.length (s1 ++ s2) = (String.length s1 + String.length s2)%nat.
Proof.
  induction s1 as [|c s1 IH]; simpl; [reflexivity | now rewrite IH].
Qed.

(** No annotation column is called [sequence]. *)
Lemma sequence_not_annotation_column (self : annotator) (required : list string) :
  ~ In "sequence" (annotation_columns self required).
Proof.
  unfold annotation_columns. rewrite in_flat_map. intros (o & _ & Hin).
  destruct (dict_mem o (ontologies self)); [|contradiction].
  destruct Hin as [H|[H|[]]]; apply (f_equal String.length) in H;
    rewrite length_append in H; simpl in H; lia.
Qed.

(** *** Batches *)

Lemma chunks_fuel_concat {A : Type} (n fuel : nat) (l : list A) :
  (0 < n)%nat -> (length l <= fuel)%nat -> concat (chunks_fuel fuel n l) = l.
Proof.
  intros Hn. revert l. induction fuel as [|fuel IH]; intros l Hl.
  - destruct l; [reflexivity | simpl in Hl; lia].
  - destruct l as [|x l']; [reflexivity|].
    cbn [chunks_fuel concat]. rewrite IH.
    + apply firstn_skipn.
    + rewrite length_skipn. simpl length in *. lia.
Qed.

Lemma chunks_fuel_sizes {A : Type} (n fuel : nat) (l : list A) :
  (0 < n)%nat ->
  Forall (fun b => (0 < length b <= n)%nat) (chunks_fuel fuel n l).
Proof.
  intros Hn. revert l. induction fuel as [|fuel IH]; intros l; [constructor|].
  destruct l as [|x l']; [constructor|].
  cbn [chunks_fuel]. constructor; [|apply IH].
  rewrite length_firstn. simpl length. lia.
Qed.

Lemma chunks_fuel_full {A : Type} (n fuel : nat) (l : list A)
    (pre : list (list A)) (b : list A) (post : list (list A)) :
  chunks_fuel fuel n l = pre ++ b :: post -> post <> [] -> length b = n.
Proof.
  revert l pre. induction fuel as [|fuel IH]; intros l pre H Hpost.
  - destruct pre; discriminate.
  - destruct l as [|x l']; [destruct pre; discriminate|].
    cbn [chunks_fuel] in H. destruct pre as [|p pre].
    + simpl in H. injection H as Hb Hrest. subst b.
      rewrite length_firstn. apply Nat.min_l.
      destruct (Nat.le_gt_cases n (length (x :: l'))) as [Hle|Hgt]; [exact Hle|].
      exfalso. apply Hpost. rewrite <- Hrest.
      rewrite skipn_all2 by lia. now destruct fuel.
    + simpl in H. injection H as _ Hrest. now apply (IH _ _ Hrest).
Qed.

Lemma count_zero (n : nat) : (0 < n)%nat -> count n 0 = 0%nat.
Proof.
  intros Hn. unfold count. rewrite Z.div_small; [reflexivity | lia].
Qed.

Lemma count_step (n len : nat) :
  (0 < n)%nat -> (0 < len)%nat -> count n len = S (count n (len - n)).
Proof.
  intros Hn Hlen. unfold count.
  destruct (Nat.le_gt_cases len n) as [Hle|Hgt].
  - replace (len - n)%nat with 0%nat by lia.
    replace (Z.of_nat len + Z.of_nat n - 1)%Z
      with ((Z.of_nat len - 1) + 1 * Z.of_nat n)%Z by lia.
    rewrite Z.div_add by lia.
    rewrite (Z.div_small (Z.of_nat len - 1)) by lia.
    rewrite (Z.div_small (Z.of_nat 0 + Z.of_nat n - 1)) by lia. reflexivity.
  - replace (Z.of_nat len + Z.of_nat n - 1)%Z
      with ((Z.of_nat (len - n) + Z.of_nat n - 1) + 1 * Z.of_nat n)%Z by lia.
    rewrite Z.div_add by lia.
    rewrite Z2Nat.inj_add; [lia| |lia].
    apply Z.div_pos; lia.
Qed.

Lemma index_chunks {A : Type} (n fuel : nat) (l : list A) :
  (0 < n)%nat -> (length l <= fuel)%nat ->
  map (fun k => firstn n (skipn (k * n) l)) (seq 0 (count n (length l)))
  = chunks_fuel fuel n l.
Proof.
  intros Hn. revert l. induction fuel as [|fuel IH]; intros l Hl.
  - destruct l; [|simpl in Hl; lia]. simpl length. now rewrite count_zero.
  - destruct l as [|x l']; [simpl length; now rewrite count_zero|].
    rewrite count_step by (simpl; lia).
    cbn [seq map chunks_fuel]. rewrite Nat.mul_0_l, skipn_0. f_equal.
    rewrite <- seq_shift, map_map.
    rewrite <- (IH (skipn n (x :: l'))) by (rewrite length_skipn; simpl length in *; lia).
    rewrite length_skipn. apply map_ext. intros k.
    rewrite skipn_skipn. f_equal. f_equal. lia.
Qed.

Lemma make_batches_chunks (n : nat) (sequence_data : DataFrame) :
  (0 < n)%nat ->
  make_batches (Z.of_nat n) sequence_data = Ok (chunks n sequence_data).
Proof.
  intros Hn. unfold make_batches, py_range.
  destruct (Z.eqb_spec (Z.of_nat n) 0) as [H0|_]; [lia|].
  destruct (Z.ltb_spec (Z.of_nat n) 0) as [H0|_]; [lia|].
  cbn [bind]. f_equal. rewrite map_map.
  unfold chunks. rewrite <- (index_chunks n _ _ Hn (Nat.le_refl _)).
  apply map_ext. intros k. unfold slice.
  replace (Z.of_nat k * Z.of_nat n + Z.of_nat n - Z.of_nat k * Z.of_nat n)%Z
    with (Z.of_nat n) by lia.
  rewrite Nat2Z.id. f_equal. f_equal. lia.
Qed.

Section WithCollaborators.

Variable score : cell -> term -> result Q.
Variable insert_many : DataFrame -> result unit.
Variable to_csv : DataFrame -> string -> result unit.

(** The loop keeps, in graph order, the terms that reach the
    threshold, and their scores. *)
Lemma match_terms_retained (sequence : cell) (min_conf : Q) (sc : term -> Q)
    (items : graph) (matches : list string) (scores : list Q) :
  Forall (fun it => score sequence (snd it) = Ok (sc (snd it))) items ->
  match_terms score sequence min_conf items matches scores
  = Ok (matches ++ map fst (retained min_conf sc items),
        scores ++ map (fun it => sc (snd it)) (retained min_conf sc items)).
Proof.
  intros H. revert matches scores.
  induction H as [|[i t] items Hs _ IH]; intros matches scores.
  - simpl. now rewrite !app_nil_r.
  - cbn [match_terms]. simpl in Hs. rewrite Hs. cbn [bind].
    unfold retained. cbn [filter snd].
    destruct (Qle_bool min_conf (sc t)); fold (retained min_conf sc items).
    + rewrite IH. cbn [map fst snd]. now rewrite <- !app_assoc.
    + apply IH.
Qed.

(** *** The worker pool *)

(** Whatever the workers have finished, it is the result of the
    batch submitted at that position. *)
Lemma completed_finished (self : annotator) (required : list string)
    (batches : list DataFrame) (schedule : list nat) (i : nat)
    (r : result DataFrame) :
  completed i (finished score self required batches schedule) = Some r ->
  exists b, nth_error batches i = Some b
            /\ r = _annotate_batch score self b required.
Proof.
  induction schedule as [|j schedule IH]; cbn [finished]; [discriminate|].
  destruct (nth_error batches j) as [b|] eqn:Ej; [|exact IH].
  cbn [completed]. destruct (Nat.eqb_spec i j) as [->|_]; [|exact IH].
  intros [= <-]. now exists b.
Qed.

Lemma future_result_eq (self : annotator) (required : list string)
    (batches : list DataFrame) (schedule : list nat) (i : nat) (b : DataFrame) :
  nth_error batches i = Some b ->
  future_result score self required
    (finished score self required batches schedule) i b
  = _annotate_batch score self b required.
Proof.
  intros Hb. unfold future_result.
  destruct (completed i _) as [r|] eqn:E; [|reflexivity].
  destruct (completed_finished _ _ _ _ _ _ E) as (b' & Hb' & ->). congruence.
Qed.

(** Results are collected by submission position, not by completion. *)
Lemma gather_spec (self : annotator) (required : list string)
    (batches : list DataFrame) (schedule : list nat)
    (futures : list DataFrame) (i : nat)
    (acc : list DataFrame) (log : list event) :
  (forall k b, nth_error futures k = Some b ->
               nth_error batches (i + k) = Some b) ->
  gather score self required (finished score self required batches schedule)
    i futures acc log
  = (acc ++ survivors score self required futures,
     log ++ failures score self required futures).
Proof.
  revert i acc log. induction futures as [|b futures IH]; intros i acc log H.
  - simpl. now rewrite !app_nil_r.
  - cbn [gather]. rewrite future_result_eq
      by (rewrite <- (Nat.add_0_r i); apply (H 0%nat); reflexivity).
    unfold survivors, failures. cbn [flat_map].
    fold (survivors score self required futures).
    fold (failures score self required futures).
    assert (H' : forall k b', nth_error futures k = Some b' ->
                              nth_error batches (S i + k) = Some b').
    { intros k b' Hk. replace (S i + k)%nat with (i + S k)%nat by lia.
      now apply H. }
    destruct (_annotate_batch score self b required) as [ab|e];
      rewrite (IH _ _ _ H'); cbn [app]; now rewrite <- !app_assoc.
Qed.

(** [annotate_sequence] once the batches exist and the pool is up: the
    surviving batches are merged in submission order. *)
Lemma annotate_sequence_merge (self : annotator) (schedule : list nat)
    (sequence_data : DataFrame) (required : list string)
    (output_file : option string) (batches : list DataFrame) :
  make_batches (batch_size (config self)) sequence_data = Ok batches ->
  (0 < max_workers (config self))%Z ->
  annotate_sequence score insert_many to_csv self schedule sequence_data
    required output_file
  = let log1 := [StartingAnnotation (length sequence_data)]
                ++ failures score self required batches in
    match pd_concat (survivors score self required batches) with
    | Raise e => (log1, Raise e)
    | Ok annotated_data =>
        (save insert_many to_csv self output_file annotated_data log1,
         Ok annotated_data)
    end.
Proof.
  intros Hb Hw. unfold annotate_sequence, ThreadPoolExecutor. rewrite Hb.
  destruct (Z.leb_spec (max_workers (config self)) 0) as [H0|_]; [lia|].
  rewrite (gather_spec self required batches schedule batches 0 [] _)
    by (intros k b Hk; exact Hk).
  reflexivity.
Qed.

Lemma survivors_app (self : annotator) (required : list string)
    (l1 l2 : list DataFrame) :
  survivors score self required (l1 ++ l2)
  = survivors score self required l1 ++ survivors score self required l2.
Proof. unfold survivors. apply flat_map_app. Qed.

Lemma failures_app (self : annotator) (required : list string)
    (l1 l2 : list DataFrame) :
  failures score self required (l1 ++ l2)
  = failures score self required l1 ++ failures score self required l2.
Proof. unfold failures. apply flat_map_app. Qed.


Lemma save_keeps (self : annotator) (output_file : option string)
    (annotated_data : DataFrame) (log : list event) (ev : event) :
  In ev log -> In ev (save insert_many to_csv self output_file annotated_data log).
Proof.
  intros H. unfold save.
  assert (H1 : In ev (if mongo_client self
                      then match insert_many annotated_data with
                           | Ok _ => log ++ [SavedToMongo]
                           | Raise e => log ++ [MongoFailed e]
                           end
                      else log)).
  { destruct (mongo_client self); [|exact H].
    destruct (insert_many annotated_data); apply in_or_app; now left. }
  destruct output_file as [path|]; [|exact H1].
  destruct (str_empty path); [exact H1|].
  destruct (to_csv annotated_data path); apply in_or_app; now left.
Qed.




(** C8 (as amended).  A batch that raises is left out of the merged
    output and its failure is logged; provided at least one sibling
    batch comes back, the run returns the surviving batches merged in
    submission order. *)
Theorem failed_batch_is_dropped (self : annotator) (schedule : list nat)
    (sequence_data : DataFrame) (required : list string)
    (output_file : option string)
    (pre : list DataFrame) (b : DataFrame) (post : list DataFrame) (e : exn) :
  (0 < max_workers (config self))%Z ->
  make_batches (batch_size (config self)) sequence_data = Ok (pre ++ b :: post) ->
  _annotate_batch score self b required = Raise e ->
  survivors score self required (pre ++ post) <> [] ->
  snd (annotate_sequence score insert_many to_csv self schedule
         sequence_data required output_file)
  = Ok (concat (survivors score self required pre)
        ++ concat (survivors score self required post))
  /\ In (BatchFailed e)
        (fst (annotate_sequence score insert_many to_csv self schedule
                sequence_data required output_file)).
Proof.
  intros Hw Hb He Hsome.
  rewrite (annotate_sequence_merge _ _ _ _ _ _ Hb Hw).
  assert (Hs : survivors score self required (pre ++ b :: post)
               = survivors score self required (pre ++ post)).
  { rewrite !survivors_app. f_equal. unfold survivors at 1. cbn [flat_map].
    now rewrite He. }
  assert (Hf : In (BatchFailed e) (failures score self required (pre ++ b :: post))).
  { rewrite failures_app. apply in_or_app. right.
    unfold failures. cbn [flat_map]. rewrite He. now left. }
  cbv zeta. rewrite Hs.
  destruct (survivors score self required (pre ++ post)) as [|s0 ss] eqn:E;
    [contradiction|].
  cbn [pd_concat snd fst]. split.
  - rewrite <- E, survivors_app. now rewrite concat_app.
  - apply save_keeps. apply in_or_app. now right.
Qed.

(** *** Batches, record by record *)

Lemma annotate_rows_acc (self : annotator) (name : string) (rows : DataFrame)
    (annotations confidences : list cell) :
  annotate_rows score self name rows annotations confidences
  = (res <- annotate_rows score self name rows [] [] ;;
     Ok (annotations ++ fst res, confidences ++ snd res)).
Proof.
  revert annotations confidences.
  induction rows as [|r rows IH]; intros annotations confidences.
  - simpl. now rewrite !app_nil_r.
  - cbn [annotate_rows].
    destruct (_find_matching_terms score self r name) as [tc|e]; [|reflexivity].
    cbn [bind app]. rewrite IH. rewrite (IH [VList (fst tc)] [VNum (snd tc)]).
    destruct (annotate_rows score self name rows [] []) as [res|e]; [|reflexivity].
    cbn [bind fst snd]. now rewrite <- !app_assoc.
Qed.

Lemma annotate_ontologies_nil (self : annotator) (required : list string) :
  annotate_ontologies score self [] [] required = Ok [].
Proof.
  induction required as [|o rest IH]; [reflexivity|].
  cbn [annotate_ontologies annotate_rows bind fst snd].
  destruct (dict_mem o (ontologies self)); exact IH.
Qed.

(** The column-wise loops, read on the first record of a batch. *)
Lemma annotate_ontologies_cons (self : annotator) (required : list string)
    (r ra : row) (batch annotated out : DataFrame) :
  annotate_ontologies score self (r :: batch) (ra :: annotated) required = Ok out ->
  exists r' out',
    out = r' :: out'
    /\ row_loop score self r ra required = Ok r'
    /\ annotate_ontologies score self batch annotated required = Ok out'.
Proof.
  revert ra annotated. induction required as [|o rest IH]; intros ra annotated.
  - cbn. intros [= <-]. now exists ra, annotated.
  - cbn [annotate_ontologies row_loop].
    destruct (dict_mem o (ontologies self)); [|apply IH].
    rewrite annotate_rows_acc. cbn [annotate_rows].
    destruct (_find_matching_terms score self r o) as [tc|e]; [|discriminate].
    cbn [bind]. rewrite annotate_rows_acc.
    destruct (annotate_rows score self o batch [] []) as [res|e]; [|discriminate].
    cbn [bind fst snd app]. intros H. apply IH in H. exact H.
Qed.

Lemma annotate_batch_rows (self : annotator) (required : list string)
    (batch out : DataFrame) :
  _annotate_batch score self batch required = Ok out ->
  Forall2 (fun r r' => annotate_row score self required r = Ok r') batch out.
Proof.
  unfold _annotate_batch. revert out.
  induction batch as [|r batch IH]; intros out H.
  - rewrite annotate_ontologies_nil in H. injection H as <-. constructor.
  - apply annotate_ontologies_cons in H.
    destruct H as (r' & out' & -> & Hr & Hrest).
    constructor; [exact Hr | now apply IH].
Qed.

(** The surviving output is the row-wise annotation of the records
    of the surviving batches, in order. *)
Lemma survivors_rows (self : annotator) (required : list string)
    (batches : list DataFrame) :
  Forall2 (fun r r' => annotate_row score self required r = Ok r')
    (concat (filter (fun b => is_ok (_annotate_batch score self b required))
                    batches))
    (concat (survivors score self required batches)).
Proof.
  induction batches as [|b bs IH]; [constructor|].
  unfold survivors. cbn [filter flat_map].
  fold (survivors score self required bs).
  destruct (_annotate_batch score self b required) as [ab|e] eqn:E; cbn [is_ok].
  - cbn [concat app]. apply Forall2_app; [|exact IH].
    now apply annotate_batch_rows.
  - exact IH.
Qed.

Lemma filter_all_ok (self : annotator) (required : list string)
    (batches : list DataFrame) :
  Forall (fun b => is_ok (_annotate_batch score self b required) = true) batches ->
  filter (fun b => is_ok (_annotate_batch score self b required)) batches = batches.
Proof.
  induction 1 as [|b bs Hb _ IH]; [reflexivity|].
  cbn [filter]. now rewrite Hb, IH.
Qed.

Lemma survivors_length (self : annotator) (required : list string)
    (batches : list DataFrame) :
  Forall (fun b => is_ok (_annotate_batch score self b required) = true) batches ->
  length (survivors score self required batches) = length batches.
Proof.
  induction 1 as [|b bs Hb _ IH]; [reflexivity|].
  unfold survivors. cbn [flat_map]. fold (survivors score self required bs).
  destruct (_annotate_batch score self b required); [|discriminate].
  simpl. now rewrite IH.
Qed.

(** The worker count is read by the pool only. *)
Lemma annotate_batch_workers (self : annotator) (workers : Z)
    (required : list string) (batch : DataFrame) :
  _annotate_batch score (with_workers self workers) batch required
  = _annotate_batch score self batch required.
Proof.
  unfold _annotate_batch.
  assert (Hrows : forall o rows a c,
             annotate_rows score (with_workers self workers) o rows a c
             = annotate_rows score self o rows a c).
  { intros o rows. induction rows as [|r rows IH]; intros a c; [reflexivity|].
    cbn [annotate_rows].
    change (_find_matching_terms score (with_workers self workers) r o)
      with (_find_matching_terms score self r o).
    destruct (_find_matching_terms score self r o); [apply IH | reflexivity]. }
  generalize batch at 2 4. intros annotated. revert annotated.
  induction required as [|o rest IH]; intros annotated; [reflexivity|].
  cbn [annotate_ontologies]. rewrite Hrows.
  change (ontologies (with_workers self workers)) with (ontologies self).
  destruct (dict_mem o (ontologies self)); [|apply IH].
  destruct (annotate_rows score self o batch [] []); [apply IH | reflexivity].
Qed.

Lemma survivors_workers (self : annotator) (workers : Z)
    (required : list string) (batches : list DataFrame) :
  survivors score (with_workers self workers) required batches
  = survivors score self required batches.
Proof.
  unfold survivors. apply flat_map_ext. intros b.
  now rewrite annotate_batch_workers.
Qed.

Lemma chunks_nonempty {A : Type} (n : nat) (l : list A) :
  l <> [] -> chunks n l <> [].
Proof.
  destruct l as [|x l]; [contradiction|]. intros _. unfold chunks. simpl.
  discriminate.
Qed.

(** C2 (as amended).  For a positive batch size, a positive worker
    count and a non-empty input, the records are split into contiguous
    batches of at most the batch size, all full except possibly the
    last; and when no batch fails the output is the input records,
    each annotated, in input order, whatever the order in which the
    workers finish and whatever the worker count. *)
Theorem batches_merge_in_input_order (self : annotator) (schedule : list nat)
    (sequence_data : DataFrame) (required : list string)
    (output_file : option string) :
  (0 < batch_size (config self))%Z ->
  (0 < max_workers (config self))%Z ->
  sequence_data <> [] ->
  Forall (fun b => is_ok (_annotate_batch score self b required) = true)
         (chunks (Z.to_nat (batch_size (config self))) sequence_data) ->
  make_batches (batch_size (config self)) sequence_data
  = Ok (chunks (Z.to_nat (batch_size (config self))) sequence_data)
  /\ concat (chunks (Z.to_nat (batch_size (config self))) sequence_data)
     = sequence_data
  /\ Forall (fun b => (0 < length b <= Z.to_nat (batch_size (config self)))%nat)
            (chunks (Z.to_nat (batch_size (config self))) sequence_data)
  /\ (forall pre b post,
        chunks (Z.to_nat (batch_size (config self))) sequence_data
        = pre ++ b :: post ->
        post <> [] ->
        length b = Z.to_nat (batch_size (config self)))
  /\ exists out,
       snd (annotate_sequence score insert_many to_csv self schedule
              sequence_data required output_file) = Ok out
       /\ Forall2 (fun r r' => annotate_row score self required r = Ok r')
                  sequence_data out
       /\ forall schedule' workers',
            (0 < workers')%Z ->
            snd (annotate_sequence score insert_many to_csv
                   (with_workers self workers') schedule'
                   sequence_data required output_file) = Ok out.
Proof.
  intros Hsize Hw Hne Hok.
  set (n := Z.to_nat (batch_size (config self))) in *.
  assert (Hn : (0 < n)%nat) by (unfold n; lia).
  assert (Hb : make_batches (batch_size (config self)) sequence_data
               = Ok (chunks n sequence_data)).
  { rewrite <- (make_batches_chunks n sequence_data Hn). unfold n.
    now rewrite Z2Nat.id by lia. }
  assert (Hcat : concat (chunks n sequence_data) = sequence_data)
    by (apply chunks_fuel_concat; [exact Hn | apply Nat.le_refl]).
  split; [exact Hb|]. split; [exact Hcat|].
  split; [now apply chunks_fuel_sizes|].
  split; [intros pre b post; apply chunks_fuel_full|].
  assert (Hsome : survivors score self required (chunks n sequence_data) <> []).
  { intros E. apply (chunks_nonempty n _ Hne).
    apply length_zero_iff_nil.
    pose proof (survivors_length _ _ _ Hok) as HL. rewrite E in HL.
    symmetry. exact HL. }
  exists (concat (survivors score self required (chunks n sequence_data))).
  assert (Hres : forall slf sch,
             (0 < max_workers (config slf))%Z ->
             batch_size (config slf) = batch_size (config self) ->
             survivors score slf required (chunks n sequence_data)
             = survivors score self required (chunks n sequence_data) ->
             snd (annotate_sequence score insert_many to_csv slf sch
                    sequence_data required output_file)
             = Ok (concat (survivors score self required (chunks n sequence_data)))).
  { intros slf sch Hw' Hsz Hsv.
    rewrite (annotate_sequence_merge slf sch _ _ _ (chunks n sequence_data))
      by (rewrite ?Hsz; assumption).
    cbv zeta. rewrite Hsv.
    destruct (survivors score self required (chunks n sequence_data));
      [contradiction | reflexivity]. }
  split; [now apply Hres|]. split.
  - pose proof (survivors_rows self required (chunks n sequence_data)) as H.
    rewrite (filter_all_ok _ _ _ Hok), Hcat in H. exact H.
  - intros schedule' workers' Hw'. apply Hres;
      [exact Hw' | reflexivity | apply survivors_workers].
Qed.

(** *** What annotation leaves alone *)

Lemma row_loop_frame (self : annotator) (required : list string)
    (r0 r r' : row) (c : string) :
  row_loop score self r0 r required = Ok r' ->
  ~ In c (annotation_columns self required) ->
  dict_get c r' = dict_get c r.
Proof.
  revert r. induction required as [|o rest IH]; intros r H Hc.
  - injection H as <-. reflexivity.
  - cbn [row_loop] in H. unfold annotation_columns in Hc. cbn [flat_map] in Hc.
    fold (annotation_columns self rest) in Hc.
    destruct (dict_mem o (ontologies self)).
    + destruct (_find_matching_terms score self r0 o) as [tc|e]; [|discriminate].
      cbn [bind] in H. apply IH in H.
      * rewrite H. rewrite !dict_get_set_other; [reflexivity| |].
        -- intros ->. apply Hc. left. reflexivity.
        -- intros ->. apply Hc. right. left. reflexivity.
      * intros Hin. apply Hc. right. right. exact Hin.
    + apply IH; assumption.
Qed.

Lemma annotate_sequence_ok (self : annotator) (schedule : list nat)
    (sequence_data : DataFrame) (required : list string)
    (output_file : option string) (out : DataFrame) :
  snd (annotate_sequence score insert_many to_csv self schedule
         sequence_data required output_file) = Ok out ->
  exists batches,
    make_batches (batch_size (config self)) sequence_data = Ok batches
    /\ out = concat (survivors score self required batches).
Proof.
  destruct (make_batches (batch_size (config self)) sequence_data)
    as [batches|e] eqn:Hb.
  - destruct (Z.leb_spec (max_workers (config self)) 0) as [Hw|Hw].
    + unfold annotate_sequence, ThreadPoolExecutor. rewrite Hb.
      apply Z.leb_le in Hw. rewrite Hw. discriminate.
    + rewrite (annotate_sequence_merge _ _ _ _ _ _ Hb Hw). cbv zeta.
      destruct (survivors score self required batches) as [|s0 ss] eqn:E;
        [discriminate|].
      cbn [pd_concat snd]. intros [= <-]. exists batches.
      split; [reflexivity | now rewrite E].
  - unfold annotate_sequence. rewrite Hb. discriminate.
Qed.

End WithCollaborators.


Lemma failed_batch_is_dropped_witness :
  (0 < max_workers (config Demo.sample_annotator))%Z
  /\ make_batches (batch_size (config Demo.sample_annotator)) Demo.records_one_bad
     = Ok ([[Demo.record "s1" "ACGU"; Demo.record "s2" "GGCA"]]
           ++ [Demo.record "s3" "bad"] :: [])
  /\ _annotate_batch Demo.score Demo.sample_annotator [Demo.record "s3" "bad"] ["GO"]
     = Raise (ScoringError "bad sequence")
  /\ snd (annotate_sequence Demo.score Demo.insert_many Demo.to_csv Demo.sample_annotator
            [1%nat; 0%nat] Demo.records_one_bad ["GO"] None)
     = Ok (concat (survivors Demo.score Demo.sample_annotator ["GO"]
                     [[Demo.record "s1" "ACGU"; Demo.record "s2" "GGCA"]])
           ++ concat (survivors Demo.score Demo.sample_annotator ["GO"] [])).
Proof.
  split; [reflexivity|]. split; [reflexivity|]. split; [reflexivity|].
  apply (failed_batch_is_dropped Demo.score Demo.insert_many Demo.to_csv
           Demo.sample_annotator [1%nat; 0%nat] Demo.records_one_bad ["GO"] None
           [[Demo.record "s1" "ACGU"; Demo.record "s2" "GGCA"]]
           [Demo.record "s3" "bad"] [] (ScoringError "bad sequence")).
  - reflexivity.
  - reflexivity.
  - reflexivity.
  - vm_compute. discriminate.
Defined.

(** C8 fails as stated: when the failing batch is the only one, the run
    is aborted at the merge. *)
Lemma only_batch_failing_aborts :
  make_batches (batch_size (config Demo.sample_annotator)) [Demo.record "s3" "bad"]
  = Ok [[Demo.record "s3" "bad"]]
  /\ _annotate_batch Demo.score Demo.sample_annotator [Demo.record "s3" "bad"] ["GO"]
     = Raise (ScoringError "bad sequence")
  /\ snd (annotate_sequence Demo.score Demo.insert_many Demo.to_csv Demo.sample_annotator
            [0%nat] [Demo.record "s3" "bad"] ["GO"] None)
     = Raise (ValueError "No objects to concatenate").
Proof.
  split; [reflexivity|]. split; reflexivity.
Qed.

Lemma batches_merge_in_input_order_witness :
  (0 < batch_size (config Demo.sample_annotator))%Z
  /\ (0 < max_workers (config Demo.sample_annotator))%Z
  /\ Demo.records <> []
  /\ exists out,
       snd (annotate_sequence Demo.score Demo.insert_many Demo.to_csv
              Demo.sample_annotator [1%nat; 0%nat] Demo.records ["GO"] None) = Ok out
       /\ Forall2 (fun r r' => annotate_row Demo.score Demo.sample_annotator ["GO"] r = Ok r')
                  Demo.records out.
Proof.
  split; [reflexivity|]. split; [reflexivity|]. split; [discriminate|].
  destruct (batches_merge_in_input_order Demo.score Demo.insert_many Demo.to_csv
              Demo.sample_annotator [1%nat; 0%nat] Demo.records ["GO"] None)
    as (_ & _ & _ & _ & out & Hout & Hrows & _).
  - reflexivity.
  - reflexivity.
  - discriminate.
  - repeat constructor.
  - exists out. split; [exact Hout | exact Hrows].
Defined.

(** C2 fails as stated: with no batch failing, an empty input and a
    batch size of zero both make [annotate_sequence] raise. *)
Lemma empty_input_or_zero_batch_size_raises :
  snd (annotate_sequence Demo.score Demo.insert_many Demo.to_csv Demo.sample_annotator
         [] [] ["GO"] None)
  = Raise (ValueError "No objects to concatenate")
  /\ snd (annotate_sequence Demo.score Demo.insert_many Demo.to_csv
            (mkAnnotator [("GO", Demo.go)] (mkConfig 4 0 3600 (8 # 10)) false)
            [] Demo.records ["GO"] None)
     = Raise (ValueError "range() arg 3 must not be zero").
Proof.
  split; reflexivity.
Qed.

End EngineFacts.

(** ** The validator *)

Module ValidatorFacts.

Import Validator ValidatorSpec.

Lemma check_required_first_failure (r : row) (threshold : Q)
    (required : list string) :
  (forall o, In o required ->
             missing r (o ++ "_annotation") = false ->
             exists q, get_or_zero r (o ++ "_confidence") = VNum q) ->
  (exists pre o post,
      required = pre ++ o :: post
      /\ Forall (passes r threshold) pre
      /\ fails_missing r o
      /\ check_required r threshold required = Ok MISSING_REQUIRED_ANNOTATION)
  \/ (exists pre o post,
         required = pre ++ o :: post
         /\ Forall (passes r threshold) pre
         /\ fails_low r threshold o
         /\ check_required r threshold required = Ok LOW_CONFIDENCE)
  \/ (Forall (passes r threshold) required
      /\ check_required r threshold required = Ok PASS).
Proof.
  induction required as [|o rest IH]; intros Hnum.
  - right. right. split; [constructor | reflexivity].
  - cbn [check_required].
    destruct (missing r (o ++ "_annotation")) eqn:Em.
    + left. exists [], o, rest. repeat split; [constructor | exact Em].
    + destruct (Hnum o (or_introl eq_refl) Em) as (q & Hq).
      rewrite Hq. cbn [less_than bind].
      destruct (Qle_bool threshold q) eqn:Eq; cbn [negb].
      * assert (Hpass : passes r threshold o).
        { split; [exact Em|]. exists q. split; [exact Hq|]. now apply Qle_bool_iff. }
        assert (Hrest : forall o', In o' rest ->
                   missing r (o' ++ "_annotation") = false ->
                   exists q', get_or_zero r (o' ++ "_confidence") = VNum q')
          by (intros o' Ho'; apply Hnum; now right).
        destruct (IH Hrest) as [(pre & o' & post & -> & Hpre & Hf & Hv)
                               |[(pre & o' & post & -> & Hpre & Hf & Hv)
                                |(Hall & Hv)]].
        -- left. exists (o :: pre), o', post.
           split; [reflexivity|]. split; [now constructor|]. now split.
        -- right. left. exists (o :: pre), o', post.
           split; [reflexivity|]. split; [now constructor|]. now split.
        -- right. right. split; [constructor|]; assumption.
      * right. left. exists [], o, rest. repeat split; [constructor | exact Em |].
        exists q. split; [exact Hq|]. apply Qnot_le_lt. intros Hle.
        apply Qle_bool_iff in Hle. congruence.
Qed.

Lemma missing_iff (r : row) (o : string) :
  missing r (o ++ "_annotation") = true <-> annotation_empty_or_absent r o.
Proof.
  unfold missing, annotation_empty_or_absent.
  destruct (dict_get (o ++ "_annotation") r) as [[s|q|l|]|]; cbn [falsy].
  - destruct s; cbn; split; intros H; (reflexivity || discriminate).
  - apply Qeq_bool_iff.
  - destruct l; split; intros H; (reflexivity || discriminate).
  - split; [discriminate | contradiction].
  - split; trivial.
Qed.

Lemma less_than_iff (r : row) (threshold : Q) (o : string) :
  confidence_comparable r o ->
  exists low,
    less_than (get_or_zero r (o ++ "_confidence")) threshold = Ok low
    /\ (low = true <-> confidence_below r threshold o).
Proof.
  unfold confidence_comparable, confidence_below, get_or_zero.
  assert (Hq : forall q, negb (Qle_bool threshold q) = true <-> (q < threshold)%Q).
  { intros q. rewrite negb_true_iff. split.
    - intros E. apply Qnot_le_lt. intros Hle. apply Qle_bool_iff in Hle. congruence.
    - intros Hlt. destruct (Qle_bool threshold q) eqn:E; [|reflexivity].
      apply Qle_bool_iff in E. exfalso. apply (Qlt_not_le _ _ Hlt E). }
  destruct (dict_get (o ++ "_confidence") r) as [[s|q|l|]|]; cbn [less_than];
    intros Hc; try contradiction.
  - eexists. split; [reflexivity | apply Hq].
  - exists false. split; [reflexivity|]. split; [discriminate | contradiction].
  - eexists. split; [reflexivity | apply Hq].
Qed.

Lemma check_required_pinned (r : row) (threshold : Q) (required : list string) :
  (forall o, In o required ->
             ~ annotation_empty_or_absent r o -> confidence_comparable r o) ->
  (exists pre o post,
      required = pre ++ o :: post
      /\ Forall (passes_both r threshold) pre
      /\ annotation_empty_or_absent r o
      /\ check_required r threshold required = Ok MISSING_REQUIRED_ANNOTATION)
  \/ (exists pre o post,
         required = pre ++ o :: post
         /\ Forall (passes_both r threshold) pre
         /\ ~ annotation_empty_or_absent r o
         /\ confidence_below r threshold o
         /\ check_required r threshold required = Ok LOW_CONFIDENCE)
  \/ (Forall (passes_both r threshold) required
      /\ check_required r threshold required = Ok PASS).
Proof.
  induction required as [|o rest IH]; intros Hcmp.
  - right. right. split; [constructor | reflexivity].
  - cbn [check_required].
    destruct (missing r (o ++ "_annotation")) eqn:Em.
    + left. exists [], o, rest.
      split; [reflexivity|]. split; [constructor|].
      split; [now apply missing_iff | reflexivity].
    + assert (Hpresent : ~ annotation_empty_or_absent r o).
      { intros Ha. apply missing_iff in Ha. congruence. }
      destruct (less_than_iff r threshold o (Hcmp o (or_introl eq_refl) Hpresent))
        as (low & Hlow & Hiff).
      rewrite Hlow. cbn [bind]. destruct low.
      * right. left. exists [], o, rest.
        split; [reflexivity|]. split; [constructor|].
        split; [exact Hpresent|]. split; [now apply Hiff | reflexivity].
      * assert (Hpass : passes_both r threshold o).
        { split; [exact Hpresent|]. intros Hb. apply Hiff in Hb. discriminate. }
        assert (Hrest : forall o', In o' rest ->
                   ~ annotation_empty_or_absent r o' -> confidence_comparable r o')
          by (intros o' Ho'; apply Hcmp; now right).
        destruct (IH Hrest) as [(pre & o' & post & -> & Hpre & Hf & Hv)
                               |[(pre & o' & post & -> & Hpre & Hp & Hf & Hv)
                                |(Hall & Hv)]].
        -- left. exists (o :: pre), o', post.
           split; [reflexivity|]. split; [now constructor|]. now split.
        -- right. left. exists (o :: pre), o', post.
           split; [reflexivity|]. split; [now constructor|]. now repeat split.
        -- right. right. split; [constructor|]; assumption.
Qed.

(** C5 (as amended).  The required ontologies are checked in list order
    and the first failing check gives the verdict: missing annotation if
    the annotation cell is absent from the record or holds an empty list,
    an empty text or zero; otherwise low confidence if the confidence, 0
    when the record has no such cell, is a number below the threshold;
    [PASS] exactly when no check fails.  A NaN cell fails neither check. *)
Theorem first_failing_check_decides (r : row) (validation_rules : rules) :
  (forall o, In o (rules_required validation_rules) ->
             ~ annotation_empty_or_absent r o -> confidence_comparable r o) ->
  (exists pre o post,
      rules_required validation_rules = pre ++ o :: post
      /\ Forall (passes_both r (rules_threshold validation_rules)) pre
      /\ annotation_empty_or_absent r o
      /\ _validate_row r validation_rules = Ok MISSING_REQUIRED_ANNOTATION)
  \/ (exists pre o post,
         rules_required validation_rules = pre ++ o :: post
         /\ Forall (passes_both r (rules_threshold validation_rules)) pre
         /\ ~ annotation_empty_or_absent r o
         /\ confidence_below r (rules_threshold validation_rules) o
         /\ _validate_row r validation_rules = Ok LOW_CONFIDENCE)
  \/ (Forall (passes_both r (rules_threshold validation_rules))
             (rules_required validation_rules)
      /\ _validate_row r validation_rules = Ok PASS).
Proof.
  intros H. unfold _validate_row. now apply check_required_pinned.
Qed.

Lemma first_failing_check_decides_witness :
  (forall o, In o (rules_required Demo.sample_rules) ->
             ~ annotation_empty_or_absent Demo.unmatched o ->
             confidence_comparable Demo.unmatched o)
  /\ _validate_row Demo.unmatched Demo.sample_rules = Ok MISSING_REQUIRED_ANNOTATION.
Proof.
  assert (H : forall o, In o (rules_required Demo.sample_rules) ->
                ~ annotation_empty_or_absent Demo.unmatched o ->
                confidence_comparable Demo.unmatched o).
  { intros o [<-|[<-|[]]] _; exact I. }
  split; [exact H|].
  destruct (first_failing_check_decides Demo.unmatched Demo.sample_rules H)
    as [(_ & _ & _ & _ & _ & _ & Hv)
       |[(_ & _ & _ & _ & _ & _ & _ & Hv)
        |(_ & Hv)]].
  - exact Hv.
  - vm_compute in Hv. discriminate Hv.
  - vm_compute in Hv. discriminate Hv.
Defined.

(** C5 fails as stated: where the annotation of a required ontology is
    absent and the frame holds NaN for it, the verdict is not the missing
    annotation; it is [PASS] when the confidence is NaN as well, and low
    confidence when a confidence below the threshold stands beside it. *)
Lemma nan_annotation_is_not_missing :
  _validate_row
    [("sequence", VStr "ACGU"); ("GO_annotation", VNaN); ("GO_confidence", VNaN)]
    (mkRules (Some ["GO"]) (Some (8 # 10)%Q))
  = Ok PASS
  /\ _validate_row
       [("sequence", VStr "ACGU"); ("GO_annotation", VNaN);
        ("GO_confidence", VNum (5 # 10))]
       (mkRules (Some ["GO"]) (Some (8 # 10)%Q))
     = Ok LOW_CONFIDENCE.
Proof.
  split; reflexivity.
Qed.

(** *** The status column *)

Lemma apply_rows_length (rows : DataFrame) (validation_rules : rules)
    (statuses : list cell) :
  apply_rows rows validation_rules = Ok statuses ->
  length statuses = length rows.
Proof.
  revert statuses. induction rows as [|r rows IH]; intros statuses.
  - intros [= <-]. reflexivity.
  - cbn [apply_rows].
    destruct (_validate_row r validation_rules) as [v|e]; [|discriminate].
    cbn [bind].
    destruct (apply_rows rows validation_rules) as [vs|e]; [|discriminate].
    cbn [bind]. intros [= <-]. simpl. f_equal. now apply IH.
Qed.

Lemma set_column_rows (col : string) (values : list cell) (df : DataFrame) :
  length values = length df ->
  Forall2 (fun r r' => exists v, r' = dict_set col v r) df (set_column col values df).
Proof.
  revert values. induction df as [|r df IH]; intros values Hlen.
  - constructor.
  - destruct values as [|v values]; [discriminate|].
    unfold set_column. cbn [combine map fst snd].
    constructor; [now exists v|]. apply IH. simpl in Hlen. lia.
Qed.

(** Validation only writes the [validation_status] column. *)
Lemma validate_annotations_frame (annotated_data validated : DataFrame)
    (validation_rules : rules) :
  validate_annotations annotated_data validation_rules = Ok validated ->
  Forall2 (fun r r' => forall c, c <> "validation_status" ->
                                 dict_get c r' = dict_get c r)
          annotated_data validated.
Proof.
  unfold validate_annotations.
  destruct (apply_rows annotated_data validation_rules) as [statuses|e] eqn:E;
    [|discriminate].
  cbn [bind]. intros [= <-].
  pose proof (set_column_rows "validation_status" statuses annotated_data
                (apply_rows_length _ _ _ E)) as H.
  eapply Forall2_impl; [|exact H].
  intros r r' (v & ->) c Hc. now apply dict_get_set_other.
Qed.

End ValidatorFacts.

(** ** Annotation followed by validation *)

Module PipelineFacts.

Import Engine EngineSpec Validator.

Lemma Forall2_compose {A B C : Type} (R : A -> B -> Prop) (S : B -> C -> Prop)
    (T : A -> C -> Prop) (l1 : list A) (l2 : list B) (l3 : list C) :
  (forall a b c, R a b -> S b c -> T a c) ->
  Forall2 R l1 l2 -> Forall2 S l2 l3 -> Forall2 T l1 l3.
Proof.
  intros HT H12. revert l3. induction H12 as [|a b l1 l2 Hab _ IH]; intros l3 H23.
  - inversion H23. constructor.
  - inversion H23 as [|b' c l2' l3' Hbc Hrest]; subst.
    constructor; [now apply (HT a b c) | now apply IH].
Qed.

Section WithCollaborators.

Variable score : cell -> term -> result Q.
Variable insert_many : DataFrame -> result unit.
Variable to_csv : DataFrame -> string -> result unit.

(** C9.  Every record that reaches the validated output is an input
    record, in input order, whose columns are unchanged except for the
    annotation and confidence columns of the requested ontologies and
    [validation_status]; [sequence] is never among those.  When no
    batch fails these are all the input records. *)
Theorem caller_columns_preserved (self : annotator) (schedule : list nat)
    (sequence_data : DataFrame) (required : list string)
    (output_file : option string) (validation_rules : rules)
    (out validated : DataFrame) :
  snd (annotate_sequence score insert_many to_csv self schedule
         sequence_data required output_file) = Ok out ->
  validate_annotations out validation_rules = Ok validated ->
  Forall2 (fun r r' =>
             (forall c, ~ In c (annotation_columns self required) ->
                        c <> "validation_status" ->
                        dict_get c r' = dict_get c r)
             /\ dict_get "sequence" r' = dict_get "sequence" r)
          (kept_records score self required sequence_data) validated
  /\ (Forall (fun b => is_ok (_annotate_batch score self b required) = true)
             (chunks (Z.to_nat (batch_size (config self))) sequence_data) ->
      (0 < batch_size (config self))%Z ->
      kept_records score self required sequence_data = sequence_data).
Proof.
  intros Hout Hval. split.
  - destruct (EngineFacts.annotate_sequence_ok score insert_many to_csv
                _ _ _ _ _ _ Hout) as (batches & Hb & ->).
    unfold kept_records. rewrite Hb.
    eapply Forall2_compose;
      [| apply (EngineFacts.survivors_rows score self required batches)
       | apply (ValidatorFacts.validate_annotations_frame _ _ _ Hval)].
    intros r r1 r2 Hr Hv. cbv beta in Hr, Hv.
    assert (Hframe : forall c, ~ In c (annotation_columns self required) ->
                               c <> "validation_status" ->
                               dict_get c r2 = dict_get c r).
    { intros c Hc Hs. rewrite (Hv c Hs).
      now apply (EngineFacts.row_loop_frame score self required r r r1 c). }
    split; [exact Hframe|].
    apply Hframe; [apply EngineFacts.sequence_not_annotation_column | discriminate].
  - intros Hok Hsize. unfold kept_records.
    set (n := Z.to_nat (batch_size (config self))) in *.
    assert (Hn : (0 < n)%nat) by (unfold n; lia).
    replace (batch_size (config self)) with (Z.of_nat n)
      by (unfold n; now rewrite Z2Nat.id by lia).
    rewrite (EngineFacts.make_batches_chunks n _ Hn).
    rewrite (EngineFacts.filter_all_ok score _ _ _ Hok).
    apply EngineFacts.chunks_fuel_concat; [exact Hn | apply Nat.le_refl].
Qed.

End WithCollaborators.

Lemma caller_columns_preserved_witness :
  exists out validated,
    snd (annotate_sequence Demo.score Demo.insert_many Demo.to_csv Demo.sample_annotator
           [1%nat; 0%nat] Demo.records_one_bad ["GO"; "SO"] None) = Ok out
    /\ validate_annotations out Demo.sample_rules = Ok validated
    /\ Forall2 (fun r r' =>
                  (forall c, ~ In c (annotation_columns Demo.sample_annotator ["GO"; "SO"]) ->
                             c <> "validation_status" ->
                             dict_get c r' = dict_get c r)
                  /\ dict_get "sequence" r' = dict_get "sequence" r)
               (kept_records Demo.score Demo.sample_annotator ["GO"; "SO"]
                  Demo.records_one_bad)
               validated.
Proof.
  eexists. eexists.
  assert (H1 : snd (annotate_sequence Demo.score Demo.insert_many Demo.to_csv
                      Demo.sample_annotator [1%nat; 0%nat] Demo.records_one_bad
                      ["GO"; "SO"] None)
               = Ok (concat (survivors Demo.score Demo.sample_annotator ["GO"; "SO"]
                               (chunks 2 Demo.records_one_bad))))
    by reflexivity.
  assert (H2 : validate_annotations
                 (concat (survivors Demo.score Demo.sample_annotator ["GO"; "SO"]
                            (chunks 2 Demo.records_one_bad)))
                 Demo.sample_rules
               = Ok (set_column "validation_status"
                       [VStr "MISSING_REQUIRED_ANNOTATION";
                        VStr "MISSING_REQUIRED_ANNOTATION"]
                       (concat (survivors Demo.score Demo.sample_annotator ["GO"; "SO"]
                                  (chunks 2 Demo.records_one_bad)))))
    by reflexivity.
  split; [exact H1|]. split; [exact H2|].
  apply (caller_columns_preserved Demo.score Demo.insert_many Demo.to_csv
           Demo.sample_annotator [1%nat; 0%nat] Demo.records_one_bad ["GO"; "SO"] None
           Demo.sample_rules _ _ H1 H2).
Defined.

End PipelineFacts.


(** ** More on the parser *)

Module ParserProps.

Import OboSpec Invariants.

(** *** Keys of the mapping *)

Lemma dict_set_keys {V : Type} (k : string) (v : V) (d : dict V) :
  map fst (dict_set k v d)
  = if dict_mem k d then map fst d else map fst d ++ [k].
Proof.
  unfold dict_mem. induction d as [|[k' v'] d IH]; simpl; [reflexivity|].
  destruct (String.eqb_spec k k') as [->|Hne]; simpl; [reflexivity|].
  rewrite IH. now destruct (dict_get k d).
Qed.

Lemma dict_get_none_keys {V : Type} (k : string) (d : dict V) :
  dict_get k d = None -> ~ In k (map fst d).
Proof.
  induction d as [|[k' v'] d IH]; simpl; [tauto|].
  destruct (String.eqb_spec k k') as [->|Hne]; [discriminate|].
  intros H [E|Hin]; [congruence | now apply IH].
Qed.

Lemma dict_set_nodup {V : Type} (k : string) (v : V) (d : dict V) :
  NoDup (map fst d) -> NoDup (map fst (dict_set k v d)).
Proof.
  intros H. rewrite dict_set_keys. unfold dict_mem.
  destruct (dict_get k d) eqn:E; [exact H|].
  apply NoDup_app; [exact H | repeat constructor; intros [] |].
  intros x Hx [<-|[]]. now apply (dict_get_none_keys _ _ E).
Qed.

Lemma dict_set_forall {V : Type} (P : string * V -> Prop)
    (k : string) (v : V) (d : dict V) :
  P (k, v) -> Forall P d -> Forall P (dict_set k v d).
Proof.
  intros Hk H. induction H as [|[k' v'] d Hx Hd IH]; simpl.
  - now constructor.
  - destruct (String.eqb k k'); constructor; assumption.
Qed.

Lemma store_keyed (terms terms' : graph) (t : term) :
  keyed terms -> store terms t = Ok terms' -> keyed terms'.
Proof.
  intros (Hn & Hf). unfold store.
  destruct (term_id t) as [i|] eqn:Ei; [|discriminate].
  intros [= <-]. split; [now apply dict_set_nodup|].
  apply dict_set_forall; [exact Ei | exact Hf].
Qed.

Lemma parse_line_keyed (st st' : pstate) (raw : string) :
  keyed (fst st) -> parse_line st raw = Ok st' -> keyed (fst st').
Proof.
  destruct st as [terms cur]. cbn [fst]. intros Hk. unfold parse_line.
  destruct (startswith "[Term]" (strip raw)).
  - destruct cur as [t|]; cbn [bind].
    + destruct (store terms t) as [terms'|e] eqn:Es; [|discriminate].
      cbn [bind]. intros [= <-]. cbn [fst]. now apply (store_keyed terms terms' t).
    + intros [= <-]. exact Hk.
  - destruct cur as [t|]; [|now intros [= <-]].
    destruct (block_line t (strip raw)); [|discriminate].
    cbn [bind]. now intros [= <-].
Qed.

Lemma parse_from_keyed (lines : list string) (st st' : pstate) :
  keyed (fst st) -> parse_from st lines = Ok st' -> keyed (fst st').
Proof.
  revert st. induction lines as [|l ls IH]; intros st Hk; cbn [parse_from].
  - now intros [= <-].
  - destruct (parse_line st l) as [st1|e] eqn:E; [|discriminate].
    cbn [bind]. apply IH. now apply (parse_line_keyed st st1 l).
Qed.

(** Whenever a file parses, the keys of the mapping are pairwise
    different and each record is stored under the [id] it holds. *)
Theorem parsed_graph_keyed_by_id (fs : files) (file_path : string) (terms : graph) :
  _parse_obo_file fs file_path = Ok terms ->
  NoDup (map fst terms)
  /\ Forall (fun kt => term_id (snd kt) = Some (fst kt)) terms.
Proof.
  unfold _parse_obo_file. destruct (fs file_path) as [lines|]; [|discriminate].
  unfold parse_lines.
  destruct (parse_from init lines) as [[terms1 cur]|e] eqn:E; [|discriminate].
  cbn [bind]. intros Hfin.
  assert (Hk : keyed terms1).
  { apply (parse_from_keyed lines init (terms1, cur)); [|exact E].
    split; constructor. }
  unfold finish in Hfin. cbn [fst snd] in Hfin. destruct cur as [t|].
  - now apply (store_keyed terms1 terms t).
  - injection Hfin as <-. exact Hk.
Qed.

Lemma parsed_graph_keyed_by_id_witness :
  _parse_obo_file Demo.fs "gene_ontology.obo"
  = Ok (store_all (flat_map entry [Demo.block1; Demo.block2]) [])
  /\ NoDup (map fst (store_all (flat_map entry [Demo.block1; Demo.block2]) [])).
Proof.
  assert (H : _parse_obo_file Demo.fs "gene_ontology.obo"
              = Ok (store_all (flat_map entry [Demo.block1; Demo.block2]) []))
    by reflexivity.
  split; [exact H|].
  apply (parsed_graph_keyed_by_id Demo.fs "gene_ontology.obo" _ H).
Defined.

(** *** Lines that carry nothing *)

Lemma noise_line_step (st : pstate) (junk : string) :
  is_marker junk = false ->
  split_once ":" (strip junk) = None ->
  parse_line st junk = Ok st.
Proof.
  intros Hm Hc. destruct st as [terms [t|]].
  - rewrite (OboFacts.parse_line_open _ _ _ Hm), OboFacts.block_line_pair.
    unfold line_pair. now rewrite Hc.
  - now apply OboFacts.parse_line_closed.
Qed.

(** A line that is not a marker and has no colon (a blank line, a
    comment, a stanza header such as [[Typedef]]) can be inserted or
    removed anywhere without changing what the file parses to. *)
Theorem colonless_line_is_ignored (l1 : list string) (junk : string)
    (l2 : list string) :
  is_marker junk = false ->
  split_once ":" (strip junk) = None ->
  parse_lines (l1 ++ junk :: l2) = parse_lines (l1 ++ l2).
Proof.
  intros Hm Hc. unfold parse_lines. rewrite !OboFacts.parse_from_app.
  destruct (parse_from init l1) as [st|e]; [|reflexivity].
  cbn [bind parse_from]. now rewrite (noise_line_step st junk Hm Hc).
Qed.

Lemma colonless_line_is_ignored_witness :
  is_marker "[Typedef]" = false
  /\ split_once ":" (strip "[Typedef]") = None
  /\ parse_lines (["[Term]"; "id: GO:1"] ++ "[Typedef]" :: ["name: kept"])
     = parse_lines (["[Term]"; "id: GO:1"] ++ ["name: kept"]).
Proof.
  split; [reflexivity|]. split; [reflexivity|].
  apply (colonless_line_is_ignored ["[Term]"; "id: GO:1"] "[Typedef]" ["name: kept"]);
    reflexivity.
Defined.

(** *** Surrounding whitespace *)

Lemma rstrip_idempotent (s : string) : rstrip (rstrip s) = rstrip s.
Proof.
  induction s as [|c s IH]; [reflexivity|]. cbn [rstrip].
  destruct (rstrip s) as [|a r] eqn:E.
  - destruct (isspace c) eqn:Ec; [reflexivity|]. cbn [rstrip]. now rewrite Ec.
  - cbn [rstrip]. cbn [rstrip] in IH. rewrite IH. reflexivity.
Qed.

Lemma lstrip_head (s : string) :
  lstrip s = EmptyString
  \/ exists c t, lstrip s = String c t /\ isspace c = false.
Proof.
  induction s as [|c s IH]; [now left|]. cbn [lstrip].
  destruct (isspace c) eqn:Ec; [exact IH|]. right. now exists c, s.
Qed.

Lemma rstrip_head (c : ascii) (t : string) :
  isspace c = false -> exists t', rstrip (String c t) = String c t'.
Proof.
  intros Ec. cbn [rstrip]. destruct (rstrip t) as [|a r].
  - rewrite Ec. now exists EmptyString.
  - now exists (String a r).
Qed.

Lemma strip_idempotent (s : string) : strip (strip s) = strip s.
Proof.
  unfold strip. destruct (lstrip_head s) as [-> | (c & t & -> & Ec)]; [reflexivity|].
  destruct (rstrip_head c t Ec) as (t' & Ht). rewrite Ht. cbn [lstrip].
  rewrite Ec, <- Ht. apply rstrip_idempotent.
Qed.

(** Surrounding whitespace never matters: two files whose lines agree
    once trimmed parse alike, and so does a file and its trimmed copy. *)
Theorem surrounding_whitespace_is_irrelevant (lines lines' : list string) :
  map strip lines = map strip lines' ->
  parse_lines lines = parse_lines lines'
  /\ parse_lines (map strip lines) = parse_lines lines.
Proof.
  assert (Hline : forall st a b, strip a = strip b -> parse_line st a = parse_line st b).
  { intros [terms cur] a b E. unfold parse_line. now rewrite E. }
  assert (Hfrom : forall l l' st, map strip l = map strip l' ->
                                  parse_from st l = parse_from st l').
  { induction l as [|a l IH]; intros [|b l'] st E; try discriminate; [reflexivity|].
    injection E as Ea El. cbn [parse_from]. rewrite (Hline st a b Ea).
    destruct (parse_line st b); [now apply IH | reflexivity]. }
  intros E. unfold parse_lines. split.
  - now rewrite (Hfrom lines lines' init E).
  - rewrite (Hfrom (map strip lines) lines init); [reflexivity|].
    rewrite map_map. apply map_ext. intros a. apply strip_idempotent.
Qed.

Lemma surrounding_whitespace_is_irrelevant_witness :
  map strip ["  [Term]"; "id: GO:1   "] = map strip ["[Term]"; "   id: GO:1"]
  /\ parse_lines ["  [Term]"; "id: GO:1   "] = parse_lines ["[Term]"; "   id: GO:1"].
Proof.
  split; [reflexivity|].
  apply (surrounding_whitespace_is_irrelevant
           ["  [Term]"; "id: GO:1   "] ["[Term]"; "   id: GO:1"]).
  reflexivity.
Defined.

(** *** A relationship without a target *)

(** A [relationship] line whose value has no space to split on, read with
    a block open, makes the whole parse raise [ValueError], whatever
    follows it. *)
Theorem relationship_without_space_aborts (pre : list string) (terms : graph)
    (t : term) (raw : string) (rest : list string) (value : string) :
  parse_from init pre = Ok (terms, Some t) ->
  is_marker raw = false ->
  line_pair raw = Some ("relationship", value) ->
  split_once " " value = None ->
  parse_lines (pre ++ raw :: rest)
  = Raise (ValueError "not enough values to unpack").
Proof.
  intros Hpre Hm Hp Hs. unfold parse_lines.
  rewrite OboFacts.parse_from_app, Hpre. cbn [bind parse_from].
  rewrite (OboFacts.parse_line_open _ _ _ Hm), OboFacts.block_line_pair, Hp.
  unfold set_field. cbn. now rewrite Hs.
Qed.

Lemma relationship_without_space_aborts_witness :
  parse_from init ["[Term]"; "id: GO:1"]
  = Ok ([], Some (mkTerm (Some "GO:1") None None [] [] [] []))
  /\ is_marker "relationship: part_of" = false
  /\ line_pair "relationship: part_of" = Some ("relationship", "part_of")
  /\ split_once " " "part_of" = None
  /\ parse_lines (["[Term]"; "id: GO:1"] ++ "relationship: part_of" :: ["name: x"])
     = Raise (ValueError "not enough values to unpack").
Proof.
  split; [reflexivity|]. split; [reflexivity|]. split; [reflexivity|].
  split; [reflexivity|].
  apply (relationship_without_space_aborts ["[Term]"; "id: GO:1"] []
           (mkTerm (Some "GO:1") None None [] [] [] [])
           "relationship: part_of" ["name: x"] "part_of"); reflexivity.
Defined.

End ParserProps.

(** ** More on the loader *)

Module LoaderProps.

Import Loader OboSpec.

Section WithCollaborators.

Variable fs : files.
Variable json_loads : string -> result graph.
Variable json_dumps : graph -> string.

(** The constructor loads before [redis_client] exists: no ontology is
    registered, and each file is logged as failed on that attribute, in
    the order of [ontology_files]. *)
Theorem constructor_fails_every_load (ontology_files : dict string)
    (redis : option Redis) (cfg : Config) :
  ontologies (__init__ fs json_loads json_dumps ontology_files redis cfg) = []
  /\ log (__init__ fs json_loads json_dumps ontology_files redis cfg)
     = map (fun entry => LoadFailed (fst entry) (AttributeError "redis_client"))
           ontology_files.
Proof.
  unfold __init__, _load_ontologies. cbn [ontologies log].
  assert (H : forall l s,
             redis_client s = None ->
             ontologies (fold_left (load_one fs json_loads json_dumps) l s)
             = ontologies s
             /\ log (fold_left (load_one fs json_loads json_dumps) l s)
                = log s ++ map (fun entry =>
                                  LoadFailed (fst entry) (AttributeError "redis_client")) l).
  { induction l as [|[n f] l IH]; intros s Hs.
    - cbn. now rewrite app_nil_r.
    - cbn [fold_left map fst].
      assert (E : load_one fs json_loads json_dumps s (n, f)
                  = add_log s (LoadFailed n (AttributeError "redis_client"))).
      { unfold load_one, try_load. now rewrite Hs. }
      rewrite E. destruct (IH (add_log s (LoadFailed n (AttributeError "redis_client"))) Hs)
        as (Ho & Hl).
      split; [exact Ho|]. rewrite Hl. cbn [add_log log]. now rewrite <- app_assoc. }
  destruct (H ontology_files (mkLoading [] [] None None) eq_refl) as (Ho & Hl).
  split; [exact Ho | exact Hl].
Qed.

(** On a cache hit the cached graph is registered and the source file is
    never opened: the outcome is the same for every file system. *)
Theorem cache_hit_skips_file (s : loading) (r : Redis) (name file_path : string)
    (bytes : string) (g : graph) :
  redis_client s = Some (Some r) ->
  redis_get r (cache_key name) = Ok (Some bytes) ->
  str_empty bytes = false ->
  json_loads bytes = Ok g ->
  load_one fs json_loads json_dumps s (name, file_path)
  = add_log (set_ontology s name g) (LoadedFromCache name)
  /\ forall fs',
       load_one fs' json_loads json_dumps s (name, file_path)
       = load_one fs json_loads json_dumps s (name, file_path).
Proof.
  intros Hrc Hget Hne Hjs.
  assert (H : forall fs0, load_one fs0 json_loads json_dumps s (name, file_path)
                          = add_log (set_ontology s name g) (LoadedFromCache name)).
  { intros fs0. unfold load_one, try_load, cache_lookup.
    rewrite Hrc, Hget. cbn [bind]. rewrite Hne, Hjs. reflexivity. }
  split; [apply H|]. intros fs'. now rewrite !H.
Qed.

(** Cache round trip: after a miss on a working cache the parsed graph is
    registered and written to the cache; loading the same ontology again
    takes what the cache gives back, without the file. *)
Theorem cache_round_trip (s : loading) (r : Redis) (cfg : Config)
    (name file_path : string) (g g' : graph) :
  redis_client s = Some (Some r) ->
  config s = Some cfg ->
  get_fails r (cache_key name) = false ->
  dict_get (cache_key name) (content r) = None ->
  setex_fails r (cache_key name) = false ->
  _parse_obo_file fs file_path = Ok g ->
  str_empty (json_dumps g) = false ->
  json_loads (json_dumps g) = Ok g' ->
  ontologies (load_one fs json_loads json_dumps s (name, file_path))
  = dict_set name g (ontologies s)
  /\ forall fs',
       ontologies
         (load_one fs' json_loads json_dumps
            (load_one fs json_loads json_dumps s (name, file_path))
            (name, file_path))
       = dict_set name g' (dict_set name g (ontologies s))
       /\ log (load_one fs' json_loads json_dumps
                 (load_one fs json_loads json_dumps s (name, file_path))
                 (name, file_path))
          = log s ++ [LoadedFromFile name file_path; LoadedFromCache name].
Proof.
  intros Hrc Hcfg Hget Hmiss Hset Hparse Hne Hjs.
  assert (E1 : load_one fs json_loads json_dumps s (name, file_path)
               = add_log
                   (set_redis (set_ontology s name g)
                      (mkRedis (dict_set (cache_key name) (json_dumps g) (content r))
                         (get_fails r) (setex_fails r)))
                   (LoadedFromFile name file_path)).
  { unfold load_one, try_load, cache_lookup, redis_get.
    rewrite Hrc, Hget, Hmiss. cbn [bind]. rewrite Hparse.
    unfold cache_store, redis_setex. cbn [config set_ontology].
    rewrite Hcfg, Hset. reflexivity. }
  rewrite E1. split; [reflexivity|]. intros fs'.
  unfold load_one, try_load, cache_lookup, redis_get.
  cbn [add_log set_redis set_ontology redis_client get_fails content].
  rewrite Hget, dict_get_set_same. cbn [bind]. rewrite Hne, Hjs. cbn [bind].
  cbn [ontologies log add_log set_ontology set_redis]. split; [reflexivity|].
  now rewrite <- app_assoc.
Qed.

(** A file without any marker line is not an error: without a cache it
    registers an empty graph and is logged as loaded. *)
Theorem markerless_file_registers_empty_graph (s : loading)
    (name file_path : string) (lines : list string) :
  redis_client s = Some None ->
  fs file_path = Some lines ->
  Forall (fun l => is_marker l = false) lines ->
  load_one fs json_loads json_dumps s (name, file_path)
  = add_log (set_ontology s name []) (LoadedFromFile name file_path).
Proof.
  intros Hrc Hfs Hl. unfold load_one, try_load, _parse_obo_file, parse_lines.
  rewrite Hrc. cbn [cache_lookup]. rewrite Hfs.
  unfold init. rewrite (OboFacts.parse_header _ _ Hl). reflexivity.
Qed.

Lemma load_one_shape (s : loading) (name file_path : string) :
  (exists ev, log (load_one fs json_loads json_dumps s (name, file_path))
              = log s ++ [ev])
  /\ (ontologies (load_one fs json_loads json_dumps s (name, file_path))
      = ontologies s
      \/ exists g, ontologies (load_one fs json_loads json_dumps s (name, file_path))
                   = dict_set name g (ontologies s)).
Proof.
  unfold load_one, try_load.
  destruct (redis_client s) as [rc|]; [|split; [eexists; reflexivity | now left]].
  destruct (cache_lookup json_loads rc name) as [[g|]|e];
    [split; [eexists; reflexivity | right; now exists g]
    | | split; [eexists; reflexivity | now left]].
  destruct (_parse_obo_file fs file_path) as [g|e];
    [|split; [eexists; reflexivity | now left]].
  pose proof (LoaderFacts.cache_store_ontologies json_dumps
                (set_ontology s name g) rc name g) as Ho.
  assert (Hl : log (fst (cache_store json_dumps (set_ontology s name g) rc name g))
               = log s).
  { unfold cache_store. destruct rc as [r|]; [|reflexivity].
    cbn [config set_ontology]. destruct (config s); [|reflexivity].
    destruct (redis_setex r _ _ _); reflexivity. }
  destruct (cache_store json_dumps (set_ontology s name g) rc name g) as [s2 [u|e]];
    cbn [fst] in Ho, Hl; cbn [add_log log ontologies]; rewrite Ho, Hl;
    (split; [eexists; reflexivity | right; now exists g]).
Qed.

(** No load aborts the loop: every file of [ontology_files] gets exactly
    one log line, and ontologies not named in [ontology_files] keep what
    was registered for them. *)
Theorem each_file_is_handled_alone (s : loading) (ontology_files : dict string) :
  length (log (_load_ontologies fs json_loads json_dumps s ontology_files))
  = (length (log s) + length ontology_files)%nat
  /\ forall k,
       ~ In k (map fst ontology_files) ->
       dict_get k (ontologies (_load_ontologies fs json_loads json_dumps s ontology_files))
       = dict_get k (ontologies s).
Proof.
  unfold _load_ontologies. revert s.
  induction ontology_files as [|[n f] l IH]; intros s.
  - cbn. split; [lia | reflexivity].
  - cbn [fold_left map fst length].
    destruct (IH (load_one fs json_loads json_dumps s (n, f))) as (Hlen & Hget).
    destruct (load_one_shape s n f) as ((ev & Hlog) & Hont).
    split.
    + rewrite Hlen, Hlog, length_app. simpl. lia.
    + intros k Hk. rewrite Hget by (intros Hin; apply Hk; now right).
      destruct Hont as [-> | (g & ->)]; [reflexivity|].
      apply dict_get_set_other. intros ->. apply Hk. now left.
Qed.

End WithCollaborators.

Lemma cache_hit_skips_file_witness :
  redis_get (mkRedis [("ontology:GO", "cached")] (fun _ => false) (fun _ => false))
    (cache_key "GO")
  = Ok (Some "cached")
  /\ load_one (fun _ => None) (fun _ => Ok Demo.go) Demo.json_dumps
       (mkLoading [] []
          (Some (Some (mkRedis [("ontology:GO", "cached")]
                         (fun _ => false) (fun _ => false))))
          (Some Demo.settings))
       ("GO", "missing.obo")
     = add_log
         (set_ontology
            (mkLoading [] []
               (Some (Some (mkRedis [("ontology:GO", "cached")]
                              (fun _ => false) (fun _ => false))))
               (Some Demo.settings))
            "GO" Demo.go)
         (LoadedFromCache "GO").
Proof.
  split; [reflexivity|].
  apply (cache_hit_skips_file (fun _ => None) (fun _ => Ok Demo.go) Demo.json_dumps
           (mkLoading [] []
              (Some (Some (mkRedis [("ontology:GO", "cached")]
                             (fun _ => false) (fun _ => false))))
              (Some Demo.settings))
           (mkRedis [("ontology:GO", "cached")] (fun _ => false) (fun _ => false))
           "GO" "missing.obo" "cached" Demo.go); reflexivity.
Defined.

Lemma cache_round_trip_witness :
  _parse_obo_file Demo.fs "gene_ontology.obo"
  = Ok (store_all (flat_map entry [Demo.block1; Demo.block2]) [])
  /\ dict_mem "GO"
       (ontologies
          (load_one (fun _ => None)
             (fun _ => Ok (store_all (flat_map entry [Demo.block1; Demo.block2]) []))
             Demo.json_dumps
             (load_one Demo.fs
                (fun _ => Ok (store_all (flat_map entry [Demo.block1; Demo.block2]) []))
                Demo.json_dumps
                (mkLoading [] []
                   (Some (Some (mkRedis [] (fun _ => false) (fun _ => false))))
                   (Some Demo.settings))
                ("GO", "gene_ontology.obo"))
             ("GO", "gene_ontology.obo")))
     = true.
Proof.
  split; [reflexivity|].
  destruct (cache_round_trip Demo.fs
              (fun _ => Ok (store_all (flat_map entry [Demo.block1; Demo.block2]) []))
              Demo.json_dumps
              (mkLoading [] []
                 (Some (Some (mkRedis [] (fun _ => false) (fun _ => false))))
                 (Some Demo.settings))
              (mkRedis [] (fun _ => false) (fun _ => false)) Demo.settings
              "GO" "gene_ontology.obo"
              (store_all (flat_map entry [Demo.block1; Demo.block2]) [])
              (store_all (flat_map entry [Demo.block1; Demo.block2]) []))
    as (_ & H2); [reflexivity .. |].
  destruct (H2 (fun _ => None)) as (Ho & _). rewrite Ho. reflexivity.
Defined.

Lemma markerless_file_registers_empty_graph_witness :
  Forall (fun l => is_marker l = false) ["just text"; "key: value"]
  /\ load_one (fun _ => Some ["just text"; "key: value"]) Demo.json_loads
       Demo.json_dumps (mkLoading [] [] (Some None) (Some Demo.settings))
       ("GO", "notes.txt")
     = add_log
         (set_ontology (mkLoading [] [] (Some None) (Some Demo.settings)) "GO" [])
         (LoadedFromFile "GO" "notes.txt").
Proof.
  split; [repeat constructor|].
  apply (markerless_file_registers_empty_graph
           (fun _ => Some ["just text"; "key: value"]) Demo.json_loads Demo.json_dumps
           (mkLoading [] [] (Some None) (Some Demo.settings))
           "GO" "notes.txt" ["just text"; "key: value"]);
    [reflexivity | reflexivity | repeat constructor].
Defined.

End LoaderProps.

(** ** More on the engine *)

Module EngineProps.

Import Engine EngineSpec Invariants.

(** *** Column names *)

Lemma append_same_length (s1 s2 a b : string) :
  String.length a = String.length b ->
  (s1 ++ a)%string = (s2 ++ b)%string -> s1 = s2 /\ a = b.
Proof.
  intros Hlen. revert s2. induction s1 as [|c s1 IH]; intros s2 H.
  - destruct s2 as [|c2 s2]; [now split|]. exfalso.
    apply (f_equal String.length) in H. simpl in H.
    rewrite EngineFacts.length_append in H. lia.
  - destruct s2 as [|c2 s2].
    + exfalso. apply (f_equal String.length) in H. simpl in H.
      rewrite EngineFacts.length_append in H. lia.
    + simpl in H. injection H as -> H. destruct (IH s2 H) as (-> & ->). now split.
Qed.

Lemma annotation_column_inj (o1 o2 : string) :
  (o1 ++ "_annotation")%string = (o2 ++ "_annotation")%string -> o1 = o2.
Proof. intros H. now destruct (append_same_length o1 o2 _ _ eq_refl H). Qed.

Lemma confidence_column_inj (o1 o2 : string) :
  (o1 ++ "_confidence")%string = (o2 ++ "_confidence")%string -> o1 = o2.
Proof. intros H. now destruct (append_same_length o1 o2 _ _ eq_refl H). Qed.

Lemma annotation_not_confidence (o1 o2 : string) :
  (o1 ++ "_annotation")%string <> (o2 ++ "_confidence")%string.
Proof.
  intros H.
  destruct (append_same_length o1 o2 "_annotation" "_confidence" eq_refl H) as (_ & E).
  discriminate E.
Qed.

Lemma column_of_other_ontology (self : annotator) (required : list string)
    (o : string) :
  ~ In o required ->
  ~ In (o ++ "_annotation")%string (annotation_columns self required)
  /\ ~ In (o ++ "_confidence")%string (annotation_columns self required).
Proof.
  intros Ho. unfold annotation_columns. rewrite !in_flat_map.
  split; intros (o' & Hin & Hc); destruct (dict_mem o' (ontologies self));
    try contradiction; destruct Hc as [E|[E|[]]].
  - apply annotation_column_inj in E. congruence.
  - symmetry in E. now apply annotation_not_confidence in E.
  - now apply annotation_not_confidence in E.
  - apply confidence_column_inj in E. congruence.
Qed.

Section WithCollaborators.

Variable score : cell -> term -> result Q.
Variable insert_many : DataFrame -> result unit.
Variable to_csv : DataFrame -> string -> result unit.

(** *** What a batch depends on *)

(** A batch reads the loaded graphs and the confidence threshold of
    [self], nothing else. *)
Lemma annotate_batch_ext (self self' : annotator) (required : list string)
    (batch : DataFrame) :
  ontologies self' = ontologies self ->
  min_confidence (config self') = min_confidence (config self) ->
  _annotate_batch score self' batch required
  = _annotate_batch score self batch required.
Proof.
  intros Ho Hm. unfold _annotate_batch.
  assert (Hfind : forall r o, _find_matching_terms score self' r o
                              = _find_matching_terms score self r o).
  { intros r o. unfold _find_matching_terms. now rewrite Ho, Hm. }
  assert (Hrows : forall o rows a c,
             annotate_rows score self' o rows a c
             = annotate_rows score self o rows a c).
  { intros o rows. induction rows as [|r rows IH]; intros a c; [reflexivity|].
    cbn [annotate_rows]. rewrite Hfind.
    destruct (_find_matching_terms score self r o); [apply IH | reflexivity]. }
  generalize batch at 2 4. intros annotated. revert annotated.
  induction required as [|o rest IH]; intros annotated; [reflexivity|].
  cbn [annotate_ontologies]. rewrite Hrows, Ho.
  destruct (dict_mem o (ontologies self)); [|apply IH].
  destruct (annotate_rows score self o batch [] []); [apply IH | reflexivity].
Qed.

Lemma survivors_ext (self self' : annotator) (required : list string)
    (batches : list DataFrame) :
  ontologies self' = ontologies self ->
  min_confidence (config self') = min_confidence (config self) ->
  survivors score self' required batches = survivors score self required batches.
Proof.
  intros Ho Hm. unfold survivors. apply flat_map_ext. intros b.
  now rewrite (annotate_batch_ext self self' required b Ho Hm).
Qed.

Lemma failures_ext (self self' : annotator) (required : list string)
    (batches : list DataFrame) :
  ontologies self' = ontologies self ->
  min_confidence (config self') = min_confidence (config self) ->
  failures score self' required batches = failures score self required batches.
Proof.
  intros Ho Hm. unfold failures. apply flat_map_ext. intros b.
  now rewrite (annotate_batch_ext self self' required b Ho Hm).
Qed.

(** [annotate_sequence] in all its branches. *)
Lemma annotate_sequence_shape (im : DataFrame -> result unit)
    (csv : DataFrame -> string -> result unit)
    (self : annotator) (schedule : list nat)
    (sequence_data : DataFrame) (required : list string)
    (output_file : option string) :
  annotate_sequence score im csv self schedule sequence_data required output_file
  = match make_batches (batch_size (config self)) sequence_data with
    | Raise e => ([StartingAnnotation (length sequence_data)], Raise e)
    | Ok batches =>
        match ThreadPoolExecutor (max_workers (config self)) with
        | Raise e => ([StartingAnnotation (length sequence_data)], Raise e)
        | Ok _ =>
            match pd_concat (survivors score self required batches) with
            | Raise e =>
                ([StartingAnnotation (length sequence_data)]
                 ++ failures score self required batches, Raise e)
            | Ok annotated_data =>
                (save im csv self output_file annotated_data
                   ([StartingAnnotation (length sequence_data)]
                    ++ failures score self required batches),
                 Ok annotated_data)
            end
        end
    end.
Proof.
  unfold annotate_sequence.
  destruct (make_batches (batch_size (config self)) sequence_data) as [batches|e];
    [|reflexivity].
  destruct (ThreadPoolExecutor (max_workers (config self))) as [u|e]; [|reflexivity].
  rewrite (EngineFacts.gather_spec score self required batches schedule batches 0 [] _)
    by (intros k b Hk; exact Hk).
  reflexivity.
Qed.

(** *** Scheduling *)

(** Neither the order in which workers finish nor the (positive) worker
    count changes what [annotate_sequence] returns or what it logs
    itself, whether batches fail or not. *)
Theorem scheduling_changes_nothing (self : annotator) (schedule schedule' : list nat)
    (workers' : Z) (sequence_data : DataFrame) (required : list string)
    (output_file : option string) :
  (0 < max_workers (config self))%Z ->
  (0 < workers')%Z ->
  annotate_sequence score insert_many to_csv (with_workers self workers') schedule'
    sequence_data required output_file
  = annotate_sequence score insert_many to_csv self schedule
      sequence_data required output_file.
Proof.
  intros Hw Hw'. rewrite !annotate_sequence_shape.
  change (batch_size (config (with_workers self workers')))
    with (batch_size (config self)).
  change (max_workers (config (with_workers self workers'))) with workers'.
  destruct (make_batches (batch_size (config self)) sequence_data) as [batches|e];
    [|reflexivity].
  unfold ThreadPoolExecutor.
  destruct (Z.leb_spec workers' 0) as [H0|_]; [lia|].
  destruct (Z.leb_spec (max_workers (config self)) 0) as [H0|_]; [lia|].
  rewrite (survivors_ext self (with_workers self workers') required batches eq_refl eq_refl).
  rewrite (failures_ext self (with_workers self workers') required batches eq_refl eq_refl).
  reflexivity.
Qed.

(** *** Persistence *)

(** The returned data does not depend on the document store, on the
    output file, or on whether writing to them succeeds. *)
Theorem persistence_never_changes_result
    (im im' : DataFrame -> result unit) (csv csv' : DataFrame -> string -> result unit)
    (self : annotator) (configured' : bool) (schedule : list nat)
    (sequence_data : DataFrame) (required : list string)
    (output_file output_file' : option string) :
  snd (annotate_sequence score im' csv' (with_mongo self configured') schedule
         sequence_data required output_file')
  = snd (annotate_sequence score im csv self schedule
           sequence_data required output_file).
Proof.
  rewrite !annotate_sequence_shape.
  change (config (with_mongo self configured')) with (config self).
  destruct (make_batches (batch_size (config self)) sequence_data) as [batches|e];
    [|reflexivity].
  destruct (ThreadPoolExecutor (max_workers (config self))) as [u|e]; [|reflexivity].
  rewrite (survivors_ext self (with_mongo self configured') required batches
             eq_refl eq_refl).
  destruct (pd_concat (survivors score self required batches)); reflexivity.
Qed.

(** *** Configuration out of range *)

(** A batch size of zero, a negative batch size and a worker count that
    is not positive each make every run raise [ValueError], whatever the
    input. *)
Theorem invalid_configuration_raises (self : annotator) (schedule : list nat)
    (sequence_data : DataFrame) (required : list string)
    (output_file : option string) :
  (batch_size (config self) = 0%Z ->
   snd (annotate_sequence score insert_many to_csv self schedule
          sequence_data required output_file)
   = Raise (ValueError "range() arg 3 must not be zero"))
  /\ ((batch_size (config self) < 0)%Z ->
      (0 < max_workers (config self))%Z ->
      snd (annotate_sequence score insert_many to_csv self schedule
             sequence_data required output_file)
      = Raise (ValueError "No objects to concatenate"))
  /\ (batch_size (config self) <> 0%Z ->
      (max_workers (config self) <= 0)%Z ->
      snd (annotate_sequence score insert_many to_csv self schedule
             sequence_data required output_file)
      = Raise (ValueError "max_workers must be greater than 0")).
Proof.
  rewrite annotate_sequence_shape. unfold make_batches, py_range, ThreadPoolExecutor.
  repeat split.
  - intros ->. reflexivity.
  - intros Hb Hw.
    destruct (Z.eqb_spec (batch_size (config self)) 0) as [H0|_]; [lia|].
    destruct (Z.ltb_spec (batch_size (config self)) 0) as [_|H0]; [|lia].
    cbn [bind map]. destruct (Z.leb_spec (max_workers (config self)) 0); [lia|].
    reflexivity.
  - intros Hb Hw.
    destruct (Z.eqb_spec (batch_size (config self)) 0) as [H0|_]; [contradiction|].
    apply Z.leb_le in Hw.
    destruct (batch_size (config self) <? 0)%Z; cbn [bind]; now rewrite Hw.
Qed.

(** *** What annotation writes *)

Lemma row_loop_columns (self : annotator) (o : string) (required : list string)
    (r0 r r' : row) :
  row_loop score self r0 r required = Ok r' ->
  In o required ->
  dict_mem o (ontologies self) = true ->
  exists tc,
    _find_matching_terms score self r0 o = Ok tc
    /\ dict_get (o ++ "_annotation") r' = Some (VList (fst tc))
    /\ dict_get (o ++ "_confidence") r' = Some (VNum (snd tc)).
Proof.
  intros H Hin Hloaded. revert r H Hin.
  induction required as [|o' rest IH]; intros r H Hin; [contradiction|].
  cbn [row_loop] in H.
  destruct (in_dec string_dec o rest) as [Hrest|Hrest].
  - destruct (dict_mem o' (ontologies self)); [|now apply (IH r)].
    destruct (_find_matching_terms score self r0 o') as [tc'|e]; [|discriminate].
    cbn [bind] in H. now apply (IH _ H).
  - destruct Hin as [->|Hin]; [|contradiction].
    rewrite Hloaded in H.
    destruct (_find_matching_terms score self r0 o) as [tc|e]; [|discriminate].
    cbn [bind] in H. exists tc. split; [reflexivity|].
    destruct (column_of_other_ontology self rest o Hrest) as (Ha & Hc).
    rewrite (EngineFacts.row_loop_frame score self rest r0 _ r' _ H Ha).
    rewrite (EngineFacts.row_loop_frame score self rest r0 _ r' _ H Hc).
    split.
    + rewrite dict_get_set_other by apply annotation_not_confidence.
      apply dict_get_set_same.
    + apply dict_get_set_same.
Qed.

(** For every requested ontology that is loaded, each record of an
    annotated batch holds, in the two columns of that ontology, the terms
    and the confidence matched for the record as it came in. *)
Theorem annotation_columns_hold_matches (self : annotator) (required : list string)
    (batch out : DataFrame) (o : string) :
  _annotate_batch score self batch required = Ok out ->
  In o required ->
  dict_mem o (ontologies self) = true ->
  Forall2 (fun r r' =>
             exists tc,
               _find_matching_terms score self r o = Ok tc
               /\ dict_get (o ++ "_annotation") r' = Some (VList (fst tc))
               /\ dict_get (o ++ "_confidence") r' = Some (VNum (snd tc)))
          batch out.
Proof.
  intros H Hin Hloaded.
  eapply Forall2_impl; [|apply (EngineFacts.annotate_batch_rows score _ _ _ _ H)].
  intros r r' Hr. now apply (row_loop_columns self o required r r r').
Qed.

(** *** Ontologies that are not loaded *)

Lemma annotate_ontologies_unloaded (self : annotator) (required : list string)
    (batch annotated : DataFrame) :
  (forall o, In o required -> dict_mem o (ontologies self) = false) ->
  annotate_ontologies score self batch annotated required = Ok annotated.
Proof.
  induction required as [|o rest IH]; intros H; [reflexivity|].
  cbn [annotate_ontologies]. rewrite (H o (or_introl eq_refl)).
  apply IH. intros o' Ho'. apply H. now right.
Qed.

Lemma run_without_loaded_ontologies (self : annotator) (schedule : list nat)
    (sequence_data : DataFrame) (required : list string)
    (output_file : option string) :
  (forall o, In o required -> dict_mem o (ontologies self) = false) ->
  (0 < batch_size (config self))%Z ->
  (0 < max_workers (config self))%Z ->
  sequence_data <> [] ->
  snd (annotate_sequence score insert_many to_csv self schedule
         sequence_data required output_file)
  = Ok sequence_data.
Proof.
  intros Hun Hsize Hw Hne.
  assert (Hb : forall batch, _annotate_batch score self batch required = Ok batch)
    by (intros batch; now apply annotate_ontologies_unloaded).
  set (n := Z.to_nat (batch_size (config self))).
  assert (Hn : (0 < n)%nat) by (unfold n; lia).
  rewrite annotate_sequence_shape.
  replace (batch_size (config self)) with (Z.of_nat n)
    by (unfold n; now rewrite Z2Nat.id by lia).
  rewrite (EngineFacts.make_batches_chunks n _ Hn).
  unfold ThreadPoolExecutor.
  destruct (Z.leb_spec (max_workers (config self)) 0) as [H0|_]; [lia|].
  assert (Hs : forall bs, survivors score self required bs = bs).
  { induction bs as [|b bs IH]; [reflexivity|].
    unfold survivors. cbn [flat_map]. fold (survivors score self required bs).
    now rewrite Hb, IH. }
  rewrite Hs.
  pose proof (EngineFacts.chunks_nonempty n sequence_data Hne) as Hc.
  destruct (chunks n sequence_data) as [|c cs] eqn:E; [contradiction|].
  cbn [pd_concat snd]. rewrite <- E. f_equal.
  apply EngineFacts.chunks_fuel_concat; [exact Hn | apply Nat.le_refl].
Qed.

(** When none of the requested ontologies is loaded, a batch comes back
    as it went in and never fails, and a run on a non-empty input with a
    valid configuration returns the input unchanged. *)
Theorem unloaded_ontologies_change_nothing (self : annotator) (schedule : list nat)
    (sequence_data : DataFrame) (required : list string)
    (output_file : option string) :
  (forall o, In o required -> dict_mem o (ontologies self) = false) ->
  (forall batch, _annotate_batch score self batch required = Ok batch)
  /\ ((0 < batch_size (config self))%Z ->
      (0 < max_workers (config self))%Z ->
      sequence_data <> [] ->
      snd (annotate_sequence score insert_many to_csv self schedule
             sequence_data required output_file)
      = Ok sequence_data).
Proof.
  intros Hun. split.
  - intros batch. now apply annotate_ontologies_unloaded.
  - now apply run_without_loaded_ontologies.
Qed.

(** *** Records without a sequence *)

Lemma first_record_without_sequence (self : annotator) (required : list string)
    (r : row) (rest : DataFrame) :
  dict_get "sequence" r = None ->
  (exists o, In o required /\ dict_mem o (ontologies self) = true) ->
  _annotate_batch score self (r :: rest) required = Raise (KeyError "sequence").
Proof.
  intros Hseq. unfold _annotate_batch. generalize (r :: rest) at 2.
  induction required as [|o' req IH]; intros annotated (o & Hin & Hloaded);
    [contradiction|].
  cbn [annotate_ontologies]. destruct (dict_mem o' (ontologies self)) eqn:E.
  - cbn [annotate_rows]. unfold _find_matching_terms at 1.
    unfold dict_mem in E. destruct (dict_get o' (ontologies self)); [|discriminate].
    now rewrite Hseq.
  - apply IH. exists o. split; [|exact Hloaded].
    destruct Hin as [->|Hin]; [congruence | exact Hin].
Qed.

Lemma chunks_fuel_rows {A : Type} (P : A -> Prop) (n fuel : nat) (l : list A) :
  Forall P l -> Forall (Forall P) (chunks_fuel fuel n l).
Proof.
  revert l. induction fuel as [|fuel IH]; intros l H; [constructor|].
  destruct l as [|x l']; [constructor|]. cbn [chunks_fuel].
  rewrite <- (firstn_skipn n (x :: l')) in H. apply Forall_app in H.
  destruct H as (H1 & H2). constructor; [exact H1 | now apply IH].
Qed.

(** A frame without a [sequence] column cannot be annotated as soon as
    one requested ontology is loaded: every batch raises [KeyError] on
    ['sequence'], one failure is logged per batch, and the run raises at
    the merge. *)
Theorem frame_without_sequence_fails (self : annotator) (schedule : list nat)
    (sequence_data : DataFrame) (required : list string)
    (output_file : option string) :
  Forall (fun r => dict_get "sequence" r = None) sequence_data ->
  (exists o, In o required /\ dict_mem o (ontologies self) = true) ->
  (0 < batch_size (config self))%Z ->
  (0 < max_workers (config self))%Z ->
  Forall (fun b => _annotate_batch score self b required = Raise (KeyError "sequence"))
         (chunks (Z.to_nat (batch_size (config self))) sequence_data)
  /\ annotate_sequence score insert_many to_csv self schedule
       sequence_data required output_file
     = ([StartingAnnotation (length sequence_data)]
        ++ map (fun _ => BatchFailed (KeyError "sequence"))
               (chunks (Z.to_nat (batch_size (config self))) sequence_data),
        Raise (ValueError "No objects to concatenate")).
Proof.
  intros Hcols Hloaded Hsize Hw.
  set (n := Z.to_nat (batch_size (config self))).
  assert (Hn : (0 < n)%nat) by (unfold n; lia).
  assert (Hall : Forall (fun b => _annotate_batch score self b required
                                  = Raise (KeyError "sequence"))
                        (chunks n sequence_data)).
  { pose proof (EngineFacts.chunks_fuel_sizes n (length sequence_data)
                  sequence_data Hn) as Hsz.
    pose proof (chunks_fuel_rows _ n (length sequence_data) sequence_data Hcols) as Hr.
    fold (chunks n sequence_data) in Hsz, Hr.
    induction (chunks n sequence_data) as [|b bs IH]; [constructor|].
    inversion Hsz as [|? ? Hb Hbs]; inversion Hr as [|? ? Hrb Hrbs]; subst.
    constructor; [|now apply IH].
    destruct b as [|r rest]; [simpl in Hb; lia|].
    inversion Hrb; subst. now apply first_record_without_sequence. }
  split; [exact Hall|].
  rewrite annotate_sequence_shape.
  replace (batch_size (config self)) with (Z.of_nat n)
    by (unfold n; now rewrite Z2Nat.id by lia).
  rewrite (EngineFacts.make_batches_chunks n _ Hn).
  unfold ThreadPoolExecutor.
  destruct (Z.leb_spec (max_workers (config self)) 0) as [H0|_]; [lia|].
  assert (Hs : survivors score self required (chunks n sequence_data) = []
               /\ failures score self required (chunks n sequence_data)
                  = map (fun _ => BatchFailed (KeyError "sequence"))
                        (chunks n sequence_data)).
  { induction Hall as [|b bs Hb _ (IHs & IHf)]; [now split|].
    unfold survivors, failures. cbn [flat_map map].
    fold (survivors score self required bs). fold (failures score self required bs).
    rewrite Hb, IHs, IHf. now split. }
  destruct Hs as (-> & ->). reflexivity.
Qed.

End WithCollaborators.

Lemma scheduling_changes_nothing_witness :
  (0 < max_workers (config Demo.sample_annotator))%Z
  /\ annotate_sequence Demo.score Demo.insert_many Demo.to_csv
       (with_workers Demo.sample_annotator 1) [0%nat; 1%nat]
       Demo.records_one_bad ["GO"] None
     = annotate_sequence Demo.score Demo.insert_many Demo.to_csv
         Demo.sample_annotator [1%nat; 0%nat] Demo.records_one_bad ["GO"] None.
Proof.
  split; [reflexivity|].
  apply (scheduling_changes_nothing Demo.score Demo.insert_many Demo.to_csv
           Demo.sample_annotator [1%nat; 0%nat] [0%nat; 1%nat] 1
           Demo.records_one_bad ["GO"] None); reflexivity.
Defined.

Lemma annotation_columns_hold_matches_witness :
  _annotate_batch Demo.score Demo.sample_annotator Demo.records ["GO"; "SO"]
  = Ok (set_column "GO_confidence"
          [VNum (np_mean [(9 # 10)%Q]); VNum (np_mean [(9 # 10)%Q]); VNum (np_mean [(9 # 10)%Q])]
          (set_column "GO_annotation"
             [VList ["T1"]; VList ["T1"]; VList ["T1"]] Demo.records))
  /\ In "GO" ["GO"; "SO"]
  /\ Forall2 (fun r r' =>
                exists tc,
                  _find_matching_terms Demo.score Demo.sample_annotator r "GO" = Ok tc
                  /\ dict_get "GO_annotation" r' = Some (VList (fst tc))
                  /\ dict_get "GO_confidence" r' = Some (VNum (snd tc)))
             Demo.records
             (set_column "GO_confidence"
                [VNum (np_mean [(9 # 10)%Q]); VNum (np_mean [(9 # 10)%Q]);
                 VNum (np_mean [(9 # 10)%Q])]
                (set_column "GO_annotation"
                   [VList ["T1"]; VList ["T1"]; VList ["T1"]] Demo.records)).
Proof.
  split; [reflexivity|]. split; [now left|].
  apply (annotation_columns_hold_matches Demo.score Demo.sample_annotator
           ["GO"; "SO"] Demo.records _ "GO"); [reflexivity | now left | reflexivity].
Defined.

Lemma unloaded_ontologies_change_nothing_witness :
  (forall o, In o ["SO"] -> dict_mem o (ontologies Demo.sample_annotator) = false)
  /\ snd (annotate_sequence Demo.score Demo.insert_many Demo.to_csv
            Demo.sample_annotator [] Demo.records_one_bad ["SO"] None)
     = Ok Demo.records_one_bad.
Proof.
  assert (H : forall o, In o ["SO"] ->
                        dict_mem o (ontologies Demo.sample_annotator) = false)
    by (intros o [<-|[]]; reflexivity).
  split; [exact H|].
  apply (unloaded_ontologies_change_nothing Demo.score Demo.insert_many Demo.to_csv
           Demo.sample_annotator [] Demo.records_one_bad ["SO"] None H);
    [reflexivity | reflexivity | discriminate].
Defined.

Lemma frame_without_sequence_fails_witness :
  Forall (fun r => dict_get "sequence" r = None)
         [[("sample", VStr "s1")]; [("sample", VStr "s2")]; [("sample", VStr "s3")]]
  /\ annotate_sequence Demo.score Demo.insert_many Demo.to_csv Demo.sample_annotator
       [1%nat; 0%nat]
       [[("sample", VStr "s1")]; [("sample", VStr "s2")]; [("sample", VStr "s3")]]
       ["SO"; "GO"] None
     = ([StartingAnnotation 3;
         BatchFailed (KeyError "sequence"); BatchFailed (KeyError "sequence")],
        Raise (ValueError "No objects to concatenate")).
Proof.
  split; [repeat constructor|].
  apply (frame_without_sequence_fails Demo.score Demo.insert_many Demo.to_csv
           Demo.sample_annotator [1%nat; 0%nat]
           [[("sample", VStr "s1")]; [("sample", VStr "s2")]; [("sample", VStr "s3")]]
           ["SO"; "GO"] None).
  - repeat constructor.
  - exists "GO". split; [right; now left | reflexivity].
  - reflexivity.
  - reflexivity.
Defined.

(** *** The scoring method of the class *)

Lemma filter_const {A : Type} (b : bool) (l : list A) :
  filter (fun _ => b) l = if b then l else [].
Proof.
  induction l as [|x l IH]; [now destruct b|]. cbn [filter]. rewrite IH.
  now destruct b.
Qed.

Lemma total_zeros {A : Type} (l : list A) :
  (total (map (fun _ => 0%Q) l) == 0)%Q.
Proof.
  induction l as [|x l IH]; cbn; [reflexivity|]. unfold total in IH.
  rewrite IH. reflexivity.
Qed.

(** With the scoring method the class ships, which always answers 0: a
    positive [min_confidence] matches no term for any record, and a
    [min_confidence] of zero or less matches every term of the graph,
    with confidence 0. *)
Theorem class_scoring_matches_all_or_nothing (self : annotator) (r : row)
    (ontology_name : string) (ontology : graph) (sequence : cell) :
  dict_get ontology_name (ontologies self) = Some ontology ->
  dict_get "sequence" r = Some sequence ->
  ((0 < min_confidence (config self))%Q ->
   _find_matching_terms _calculate_match_confidence self r ontology_name
   = Ok ([], 0%Q))
  /\ ((min_confidence (config self) <= 0)%Q ->
      exists confidence,
        _find_matching_terms _calculate_match_confidence self r ontology_name
        = Ok (map fst ontology, confidence)
        /\ (confidence == 0)%Q).
Proof.
  intros Hont Hseq. unfold _find_matching_terms. rewrite Hont, Hseq.
  rewrite (EngineFacts.match_terms_retained _calculate_match_confidence sequence
             (min_confidence (config self)) (fun _ => 0%Q) ontology [] [])
    by (apply Forall_forall; intros it _; reflexivity).
  cbn [bind fst snd app]. unfold retained. rewrite filter_const. split.
  - intros Hpos.
    destruct (Qle_bool (min_confidence (config self)) 0) eqn:E; [|reflexivity].
    apply Qle_bool_iff in E. exfalso. apply (Qlt_not_le _ _ Hpos E).
  - intros Hle. apply Qle_bool_iff in Hle. rewrite Hle.
    destruct ontology as [|it ontology']; [exists 0%Q; now split|].
    eexists. split; [reflexivity|].
    unfold np_mean. rewrite EngineFacts.fold_left_Qplus.
    rewrite (total_zeros (it :: ontology')). unfold Qdiv. ring.
Qed.

Lemma class_scoring_matches_all_or_nothing_witness :
  dict_get "GO" (ontologies Demo.sample_annotator) = Some Demo.go
  /\ dict_get "sequence" (Demo.record "s1" "ACGU") = Some (VStr "ACGU")
  /\ _find_matching_terms _calculate_match_confidence Demo.sample_annotator
       (Demo.record "s1" "ACGU") "GO"
     = Ok ([], 0%Q).
Proof.
  split; [reflexivity|]. split; [reflexivity|].
  apply (class_scoring_matches_all_or_nothing Demo.sample_annotator
           (Demo.record "s1" "ACGU") "GO" Demo.go (VStr "ACGU"));
    reflexivity.
Defined.

Lemma invalid_configuration_raises_witness :
  batch_size (config (mkAnnotator [("GO", Demo.go)] (mkConfig 4 0 3600 (8 # 10)) false))
  = 0%Z
  /\ snd (annotate_sequence Demo.score Demo.insert_many Demo.to_csv
            (mkAnnotator [("GO", Demo.go)] (mkConfig 4 0 3600 (8 # 10)) false)
            [] Demo.records ["GO"] None)
     = Raise (ValueError "range() arg 3 must not be zero").
Proof.
  split; [reflexivity|].
  apply (invalid_configuration_raises Demo.score Demo.insert_many Demo.to_csv
           (mkAnnotator [("GO", Demo.go)] (mkConfig 4 0 3600 (8 # 10)) false)
           [] Demo.records ["GO"] None). reflexivity.
Defined.

End EngineProps.

(** ** More on the validator *)

Module ValidatorProps.

Import Validator ValidatorSpec.

(** *** When a record passes *)

Lemma pass_iff_all (r : row) (threshold : Q) (required : list string) :
  check_required r threshold required = Ok PASS
  <-> Forall (fun o => missing r (o ++ "_annotation") = false
                       /\ less_than (get_or_zero r (o ++ "_confidence")) threshold
                          = Ok false)
             required.
Proof.
  induction required as [|o rest IH]; cbn [check_required].
  - split; [constructor | reflexivity].
  - destruct (missing r (o ++ "_annotation")) eqn:Em.
    + split; [discriminate|]. intros H. inversion H as [|? ? (Hm & _) _]. congruence.
    + destruct (less_than (get_or_zero r (o ++ "_confidence")) threshold)
        as [[|]|e] eqn:El; cbn [bind].
      * split; [discriminate|]. intros H. inversion H as [|? ? (_ & Hl) _]. congruence.
      * rewrite IH. split.
        -- intros H. constructor; [now split | exact H].
        -- intros H. now inversion H.
      * split; [discriminate|]. intros H. inversion H as [|? ? (_ & Hl) _]. congruence.
Qed.

Lemma not_low_for_lower_threshold (c : cell) (threshold threshold' : Q) :
  (threshold' <= threshold)%Q ->
  less_than c threshold = Ok false -> less_than c threshold' = Ok false.
Proof.
  intros Hle. destruct c as [s|q|l|]; cbn [less_than]; try discriminate.
  - intros [= E]. apply negb_false_iff, Qle_bool_iff in E. f_equal.
    apply negb_false_iff, Qle_bool_iff. now apply (Qle_trans _ threshold).
  - reflexivity.
Qed.

(** A record that passes still passes when the required ontologies are
    reordered, repeated or reduced, and when the threshold is lowered. *)
Theorem pass_survives_weaker_rules (r : row) (required required' : list string)
    (threshold threshold' : Q) :
  (forall o, In o required' -> In o required) ->
  (threshold' <= threshold)%Q ->
  _validate_row r (mkRules (Some required) (Some threshold)) = Ok PASS ->
  _validate_row r (mkRules (Some required') (Some threshold')) = Ok PASS.
Proof.
  unfold _validate_row, rules_threshold, rules_required.
  cbn [required_ontologies min_confidence].
  intros Hsub Hle H. apply pass_iff_all in H. apply pass_iff_all.
  rewrite Forall_forall in *. intros o Ho.
  destruct (H o (Hsub o Ho)) as (Hm & Hl).
  split; [exact Hm|]. now apply (not_low_for_lower_threshold _ threshold).
Qed.

Lemma pass_survives_weaker_rules_witness :
  (forall o, In o ["SO"; "GO"; "SO"] -> In o ["GO"; "SO"])
  /\ (5 # 10 <= 8 # 10)%Q
  /\ _validate_row
       [("GO_annotation", VList ["T1"]); ("GO_confidence", VNum (9 # 10));
        ("SO_annotation", VList ["S1"]); ("SO_confidence", VNum (8 # 10))]
       (mkRules (Some ["GO"; "SO"]) (Some (8 # 10)%Q)) = Ok PASS
  /\ _validate_row
       [("GO_annotation", VList ["T1"]); ("GO_confidence", VNum (9 # 10));
        ("SO_annotation", VList ["S1"]); ("SO_confidence", VNum (8 # 10))]
       (mkRules (Some ["SO"; "GO"; "SO"]) (Some (5 # 10)%Q)) = Ok PASS.
Proof.
  assert (H1 : forall o, In o ["SO"; "GO"; "SO"] -> In o ["GO"; "SO"]).
  { intros o [<-|[<-|[<-|[]]]]; simpl; auto. }
  assert (H2 : (5 # 10 <= 8 # 10)%Q) by (unfold Qle; simpl; lia).
  split; [exact H1|]. split; [exact H2|]. split; [reflexivity|].
  apply (pass_survives_weaker_rules _ ["GO"; "SO"] ["SO"; "GO"; "SO"]
           (8 # 10)%Q (5 # 10)%Q H1 H2). reflexivity.
Defined.

(** *** The status column *)

Lemma set_column_const (col : string) (v : cell) (df : DataFrame) :
  set_column col (map (fun _ => v) df) df = map (dict_set col v) df.
Proof.
  unfold set_column. induction df as [|r df IH]; [reflexivity|].
  cbn [map combine fst snd]. now rewrite IH.
Qed.

(** On records whose confidence cell is a number wherever the annotation
    is present, validation returns, keeps the number and order of the
    records, and sets [validation_status] of each to its own verdict. *)
Theorem validation_sets_each_verdict (annotated_data : DataFrame)
    (validation_rules : rules) :
  (forall r o, In r annotated_data ->
               In o (rules_required validation_rules) ->
               missing r (o ++ "_annotation") = false ->
               exists q, get_or_zero r (o ++ "_confidence") = VNum q) ->
  exists validated,
    validate_annotations annotated_data validation_rules = Ok validated
    /\ Forall2 (fun r r' =>
                  exists v,
                    _validate_row r validation_rules = Ok v
                    /\ r' = dict_set "validation_status" (VStr (verdict_str v)) r)
               annotated_data validated.
Proof.
  unfold validate_annotations. intros Hnum.
  assert (H : exists statuses,
             apply_rows annotated_data validation_rules = Ok statuses
             /\ Forall2 (fun r s => exists v, _validate_row r validation_rules = Ok v
                                              /\ s = VStr (verdict_str v))
                        annotated_data statuses).
  { induction annotated_data as [|r df IH].
    - exists []. split; [reflexivity | constructor].
    - destruct IH as (statuses & Hs & Hf).
      { intros r0 o Hr0. apply Hnum. now right. }
      assert (Hv : exists v, _validate_row r validation_rules = Ok v).
      { unfold _validate_row.
        destruct (ValidatorFacts.check_required_first_failure r
                    (rules_threshold validation_rules)
                    (rules_required validation_rules))
          as [(_ & _ & _ & _ & _ & _ & Hv)
             |[(_ & _ & _ & _ & _ & _ & Hv)
              |(_ & Hv)]]; [|eauto ..].
        intros o Ho. apply (Hnum r o); [now left | exact Ho]. }
      destruct Hv as (v & Hv). exists (VStr (verdict_str v) :: statuses).
      cbn [apply_rows]. rewrite Hv, Hs. split; [reflexivity|].
      constructor; [now exists v | exact Hf]. }
  destruct H as (statuses & Hs & Hf). rewrite Hs. cbn [bind].
  eexists. split; [reflexivity|].
  clear Hs Hnum. unfold set_column.
  induction Hf as [|r s df statuses (v & Hv & ->) _ IH]; [constructor|].
  cbn [combine map fst snd]. constructor; [now exists v | exact IH].
Qed.

Lemma validation_sets_each_verdict_witness :
  (forall r o, In r [Demo.unmatched] ->
               In o (rules_required Demo.sample_rules) ->
               missing r (o ++ "_annotation") = false ->
               exists q, get_or_zero r (o ++ "_confidence") = VNum q)
  /\ exists validated,
       validate_annotations [Demo.unmatched] Demo.sample_rules = Ok validated
       /\ Forall2 (fun r r' =>
                     exists v,
                       _validate_row r Demo.sample_rules = Ok v
                       /\ r' = dict_set "validation_status" (VStr (verdict_str v)) r)
                  [Demo.unmatched] validated.
Proof.
  assert (H : forall r o, In r [Demo.unmatched] ->
                In o (rules_required Demo.sample_rules) ->
                missing r (o ++ "_annotation") = false ->
                exists q, get_or_zero r (o ++ "_confidence") = VNum q).
  { intros r o [<-|[]] [<-|[<-|[]]] _; eexists; reflexivity. }
  split; [exact H|].
  apply (validation_sets_each_verdict [Demo.unmatched] Demo.sample_rules H).
Defined.

(** *** Validating twice *)

Lemma status_is_no_ontology_column (o : string) :
  (o ++ "_annotation")%string <> "validation_status"
  /\ (o ++ "_confidence")%string <> "validation_status".
Proof.
  split; intros H;
    change "validation_status" with ("valida" ++ "tion_status")%string in H.
  - destruct (EngineProps.append_same_length o "valida" "_annotation" "tion_status"
                eq_refl H) as (_ & E). discriminate E.
  - destruct (EngineProps.append_same_length o "valida" "_confidence" "tion_status"
                eq_refl H) as (_ & E). discriminate E.
Qed.

Lemma validate_row_ignores_status (r : row) (v : cell) (validation_rules : rules) :
  _validate_row (dict_set "validation_status" v r) validation_rules
  = _validate_row r validation_rules.
Proof.
  unfold _validate_row.
  induction (rules_required validation_rules) as [|o rest IH]; [reflexivity|].
  cbn [check_required]. unfold missing, get_or_zero.
  destruct (status_is_no_ontology_column o) as (Ha & Hc).
  rewrite !dict_get_set_other by assumption.
  fold (missing r (o ++ "_annotation")).
  fold (get_or_zero r (o ++ "_confidence")).
  destruct (missing r (o ++ "_annotation")); [reflexivity|].
  destruct (less_than (get_or_zero r (o ++ "_confidence"))
              (rules_threshold validation_rules)) as [[|]|e]; cbn [bind];
    [reflexivity | exact IH | reflexivity].
Qed.

Lemma dict_set_twice {V : Type} (k : string) (v : V) (d : dict V) :
  dict_set k v (dict_set k v d) = dict_set k v d.
Proof.
  induction d as [|[k' v'] d IH]; simpl.
  - now rewrite String.eqb_refl.
  - destruct (String.eqb k k') eqn:E; simpl.
    + now rewrite String.eqb_refl.
    + now rewrite E, IH.
Qed.

(** Validation is idempotent: validating a validated frame again gives
    the same frame. *)
Theorem validation_is_idempotent (annotated_data validated : DataFrame)
    (validation_rules : rules) :
  validate_annotations annotated_data validation_rules = Ok validated ->
  validate_annotations validated validation_rules = Ok validated.
Proof.
  unfold validate_annotations.
  destruct (apply_rows annotated_data validation_rules) as [statuses|e] eqn:E;
    [|discriminate].
  cbn [bind]. intros [= <-].
  assert (H : apply_rows (set_column "validation_status" statuses annotated_data)
                validation_rules = Ok statuses
              /\ set_column "validation_status" statuses
                   (set_column "validation_status" statuses annotated_data)
                 = set_column "validation_status" statuses annotated_data).
  { revert statuses E. induction annotated_data as [|r df IH]; intros statuses E.
    - injection E as <-. split; reflexivity.
    - cbn [apply_rows] in E.
      destruct (_validate_row r validation_rules) as [v|e] eqn:Ev; [|discriminate].
      cbn [bind] in E.
      destruct (apply_rows df validation_rules) as [vs|e]; [|discriminate].
      cbn [bind] in E. injection E as <-.
      destruct (IH vs eq_refl) as (Ha & Hs).
      unfold set_column in *. cbn [combine map fst snd apply_rows].
      rewrite validate_row_ignores_status, Ev. cbn [bind]. rewrite Ha. cbn [bind].
      split; [reflexivity|]. now rewrite dict_set_twice, Hs. }
  destruct H as (Ha & Hs). rewrite Ha. cbn [bind]. now rewrite Hs.
Qed.

Lemma validation_is_idempotent_witness :
  validate_annotations [Demo.unmatched] Demo.sample_rules
  = Ok [dict_set "validation_status" (VStr "MISSING_REQUIRED_ANNOTATION")
          Demo.unmatched]
  /\ validate_annotations
       [dict_set "validation_status" (VStr "MISSING_REQUIRED_ANNOTATION")
          Demo.unmatched]
       Demo.sample_rules
     = Ok [dict_set "validation_status" (VStr "MISSING_REQUIRED_ANNOTATION")
             Demo.unmatched].
Proof.
  split; [reflexivity|].
  apply (validation_is_idempotent [Demo.unmatched]). reflexivity.
Defined.

(** *** A record that cannot be judged *)

(** Validation is all or nothing: the first record whose check raises
    makes [validate_annotations] raise that exception, and no frame is
    returned for the records before or after it. *)
Theorem one_bad_record_aborts_validation (pre : DataFrame) (r : row)
    (post : DataFrame) (validation_rules : rules) (e : exn) :
  Forall (fun r0 => is_ok (_validate_row r0 validation_rules) = true) pre ->
  _validate_row r validation_rules = Raise e ->
  validate_annotations (pre ++ r :: post) validation_rules = Raise e.
Proof.
  intros Hpre Hr. unfold validate_annotations.
  assert (H : apply_rows (pre ++ r :: post) validation_rules = Raise e).
  { induction Hpre as [|r0 pre H0 _ IH]; cbn [app apply_rows].
    - now rewrite Hr.
    - destruct (_validate_row r0 validation_rules); [|discriminate].
      cbn [bind]. now rewrite IH. }
  now rewrite H.
Qed.

Lemma one_bad_record_aborts_validation_witness :
  Forall (fun r0 => is_ok (_validate_row r0 Demo.sample_rules) = true) [Demo.unmatched]
  /\ _validate_row [("GO_annotation", VList ["T1"]); ("GO_confidence", VStr "high")]
       Demo.sample_rules
     = Raise (TypeError "'<' not supported")
  /\ validate_annotations
       ([Demo.unmatched]
        ++ [("GO_annotation", VList ["T1"]); ("GO_confidence", VStr "high")]
        :: [Demo.unmatched])
       Demo.sample_rules
     = Raise (TypeError "'<' not supported").
Proof.
  split; [repeat constructor|]. split; [reflexivity|].
  apply (one_bad_record_aborts_validation [Demo.unmatched]
           [("GO_annotation", VList ["T1"]); ("GO_confidence", VStr "high")]
           [Demo.unmatched] Demo.sample_rules);
    [repeat constructor | reflexivity].
Defined.

End ValidatorProps.

(** ** The command line *)

Module CliProps.

Import Cli Validator.

Section WithCollaborators.

Variable fs : files.
Variable json_loads : string -> result graph.
Variable json_dumps : graph -> string.
Variable insert_many : DataFrame -> result unit.
Variable to_csv : DataFrame -> string -> result unit.
Variable _setup_logger : result unit.
Variable MongoClient : string -> result unit.
Variable from_url : string -> result Redis.
Variable _load_config : result Config.
Variable path_join : string -> string -> string.
Variable read_csv : string -> result DataFrame.

Lemma all_missing_statuses (df : DataFrame) (required : list string)
    (o : string) (threshold : option Q) :
  (forall r, In r df -> missing r (o ++ "_annotation") = true) ->
  apply_rows df (mkRules (Some (o :: required)) threshold)
  = Ok (map (fun _ => VStr "MISSING_REQUIRED_ANNOTATION") df).
Proof.
  induction df as [|r df IH]; intros H; [reflexivity|].
  cbn [apply_rows map]. unfold _validate_row at 1.
  cbn [rules_required required_ontologies check_required].
  rewrite (H r (or_introl eq_refl)). cbn [bind].
  rewrite IH by (intros r0 Hr0; apply H; now right). reflexivity.
Qed.

(** A run of [main] never annotates: since the constructor registers no
    ontology, a non-empty input table goes to validation exactly as it
    was read.  When the table has no [GO_annotation] column, every record
    is marked [MISSING_REQUIRED_ANNOTATION]; a table that brings the
    column is judged on what it holds (a [NaN] there is not missing). *)
Theorem main_never_annotates (a : args) (schedule : list nat) (cfg : Config)
    (mongo : option unit) (redis : option Redis) (sequence_data : DataFrame) :
  _setup_logger = Ok tt ->
  connect MongoClient (mongodb_uri a) = Ok mongo ->
  connect from_url (redis_url a) = Ok redis ->
  _load_config = Ok cfg ->
  (0 < batch_size cfg)%Z ->
  (0 < max_workers cfg)%Z ->
  read_csv (input a) = Ok sequence_data ->
  sequence_data <> [] ->
  main fs json_loads json_dumps insert_many to_csv _setup_logger MongoClient
    from_url _load_config path_join read_csv a schedule
  = validate_annotations sequence_data
      (mkRules (Some ["GO"; "SO"]) (Some (8 # 10)%Q))
  /\ ((forall r, In r sequence_data -> dict_get "GO_annotation" r = None) ->
      main fs json_loads json_dumps insert_many to_csv _setup_logger MongoClient
        from_url _load_config path_join read_csv a schedule
      = Ok (map (dict_set "validation_status" (VStr "MISSING_REQUIRED_ANNOTATION"))
              sequence_data)).
Proof.
  intros Hlog Hmongo Hredis Hcfg Hsize Hw Hread Hne.
  assert (Hmain : main fs json_loads json_dumps insert_many to_csv _setup_logger
                    MongoClient from_url _load_config path_join read_csv a schedule
                  = validate_annotations sequence_data
                      (mkRules (Some ["GO"; "SO"]) (Some (8 # 10)%Q))).
  { unfold main, RNASeqAnnotator. rewrite Hlog, Hmongo, Hredis, Hcfg.
    cbn [bind fst]. rewrite Hread. cbn [bind].
    pose proof (LoaderFacts.constructor_registers_nothing fs json_loads json_dumps
                  [("GO", path_join (ontology_dir a) "gene_ontology.obo");
                   ("SO", path_join (ontology_dir a) "sequence_ontology.obo")]
                  None cfg) as Hnone.
    unfold Loader.__init__ in Hnone. cbn [Loader.ontologies] in Hnone.
    rewrite Hnone.
    rewrite (EngineProps.run_without_loaded_ontologies
               Engine._calculate_match_confidence insert_many to_csv);
      [reflexivity | | assumption | assumption | assumption].
    intros o _. reflexivity. }
  split; [exact Hmain|]. intros Hmiss. rewrite Hmain.
  unfold validate_annotations.
  rewrite (all_missing_statuses sequence_data ["SO"] "GO").
  2:{ intros r Hr. unfold missing. cbn [append]. now rewrite (Hmiss r Hr). }
  cbn [bind].
  now rewrite ValidatorProps.set_column_const.
Qed.

End WithCollaborators.

Lemma main_never_annotates_witness :
  Demo.records <> []
  /\ (forall r, In r Demo.records -> dict_get "GO_annotation" r = None)
  /\ main Demo.fs Demo.json_loads Demo.json_dumps Demo.insert_many Demo.to_csv
       (Ok tt) (fun _ => Ok tt) (fun _ => Ok Demo.cache_down) (Ok Demo.settings)
       (fun d f => (d ++ "/" ++ f)%string) (fun _ => Ok Demo.records)
       (mkArgs "in.csv" "out.csv" "ontologies" None (Some "redis://cache"))
       [1%nat; 0%nat]
     = Ok (map (dict_set "validation_status" (VStr "MISSING_REQUIRED_ANNOTATION"))
             Demo.records).
Proof.
  assert (H : forall r, In r Demo.records -> dict_get "GO_annotation" r = None).
  { intros r [<-|[<-|[<-|[]]]]; reflexivity. }
  split; [discriminate|]. split; [exact H|].
  apply (main_never_annotates Demo.fs Demo.json_loads Demo.json_dumps
           Demo.insert_many Demo.to_csv
           (Ok tt) (fun _ => Ok tt) (fun _ => Ok Demo.cache_down) (Ok Demo.settings)
           (fun d f => (d ++ "/" ++ f)%string) (fun _ => Ok Demo.records)
           (mkArgs "in.csv" "out.csv" "ontologies" None (Some "redis://cache"))
           [1%nat; 0%nat] Demo.settings None (Some Demo.cache_down) Demo.records);
    try reflexivity; [discriminate | exact H].
Defined.

End CliProps.

(** ** The matching step over doubles *)

Module DoublesFacts.

Import Doubles.

(** The fuel of [pairwise_sum] is never used up. *)
Lemma pairwise_sum_fuel (fuel fuel' : nat) (xs : list float) :
  (length xs <= fuel)%nat -> (length xs <= fuel')%nat ->
  pairwise_sum fuel xs = pairwise_sum fuel' xs.
Proof.
  revert fuel' xs. induction fuel as [|fuel IH]; intros fuel' xs H H'.
  - destruct xs; [|simpl in H; lia]. now destruct fuel'.
  - destruct fuel' as [|fuel'].
    + destruct xs; [reflexivity | simpl in H'; lia].
    + cbn [pairwise_sum].
      destruct (Nat.ltb_spec (length xs) 8) as [_|H8]; [reflexivity|].
      destruct (Nat.leb_spec (length xs) 128) as [_|H128]; [reflexivity|].
      set (n2 := (length xs / 2 - (length xs / 2) mod 8)%nat).
      assert (Hn2 : (1 <= n2 < length xs)%nat).
      { unfold n2.
        pose proof (Nat.div_mod_eq (length xs) 2) as E.
        pose proof (Nat.mod_upper_bound (length xs) 2) as U.
        pose proof (Nat.mod_upper_bound (length xs / 2) 8) as U8.
        lia. }
      rewrite (IH fuel' (firstn n2 xs)), (IH fuel' (skipn n2 xs));
        rewrite ?length_firstn, ?length_skipn; try lia.
      reflexivity.
Qed.

Section WithCollaborators.

Variable score : cell -> term -> result float.
Variable mean : list float -> float.

(** The loop keeps, in graph order, the terms that reach the threshold,
    and their scores. *)
Lemma match_terms_keeps_retained (sequence : cell) (min_conf : float) (sc : term -> float)
    (items : graph) (matches : list string) (scores : list float) :
  Forall (fun it => score sequence (snd it) = Ok (sc (snd it))) items ->
  match_terms score sequence min_conf items matches scores
  = Ok (matches ++ map fst (retained min_conf sc items),
        scores ++ map (fun it => sc (snd it)) (retained min_conf sc items)).
Proof.
  intros H. revert matches scores.
  induction H as [|[i t] items Hs _ IH]; intros matches scores.
  - simpl. now rewrite !app_nil_r.
  - cbn [match_terms]. simpl in Hs. rewrite Hs. cbn [bind].
    unfold retained, ge. cbn [filter snd].
    destruct (PrimFloat.leb min_conf (sc t)); fold (retained min_conf sc items).
    + rewrite IH. cbn [map fst snd]. now rewrite <- !app_assoc.
    + apply IH.
Qed.

(** C4 (as amended).  The matching step retains, in graph order, exactly
    the terms whose score is at least [min_confidence] as doubles compare
    (a score equal to it is retained, a lower one or NaN is not); with at
    least one term retained the confidence is [np.mean] of the retained
    scores, and with none the result is the empty list with confidence
    0.0. *)
Theorem matching_keeps_scores_at_threshold (ontologies : dict graph)
    (min_confidence : float) (r : row) (ontology_name : string)
    (ontology : graph) (sequence : cell) (sc : term -> float) :
  dict_get ontology_name ontologies = Some ontology ->
  dict_get "sequence" r = Some sequence ->
  Forall (fun it => score sequence (snd it) = Ok (sc (snd it))) ontology ->
  _find_matching_terms score mean ontologies min_confidence r ontology_name
  = Ok (map fst (retained min_confidence sc ontology),
        match retained min_confidence sc ontology with
        | [] => 0%float
        | kept => mean (map (fun it => sc (snd it)) kept)
        end)
  /\ (forall it,
        In it (retained min_confidence sc ontology)
        <-> In it ontology /\ PrimFloat.leb min_confidence (sc (snd it)) = true)
  /\ (PrimFloat.leb min_confidence min_confidence = true ->
      forall it, In it ontology -> sc (snd it) = min_confidence ->
                 In it (retained min_confidence sc ontology)).
Proof.
  intros Hont Hseq Hsc.
  assert (Hin : forall it,
             In it (retained min_confidence sc ontology)
             <-> In it ontology /\ PrimFloat.leb min_confidence (sc (snd it)) = true).
  { intros it. unfold retained. now rewrite filter_In. }
  split; [|split; [exact Hin|]].
  - unfold _find_matching_terms.
    rewrite Hont, Hseq, (match_terms_keeps_retained _ _ sc _ _ _ Hsc).
    cbn [bind fst snd app].
    now destruct (retained min_confidence sc ontology) as [|k kept].
  - intros Hrefl it Hit Heq. apply Hin. split; [exact Hit|]. now rewrite Heq.
Qed.

End WithCollaborators.

Lemma matching_keeps_scores_at_threshold_witness :
  dict_get "GO" [("GO", Demo.go)] = Some Demo.go
  /\ dict_get "sequence" (Demo.record "s1" "ACGU") = Some (VStr "ACGU")
  /\ _find_matching_terms DoublesDemo.score np_mean [("GO", Demo.go)]
       DoublesDemo.d08 (Demo.record "s1" "ACGU") "GO"
     = Ok (["T1"], np_mean [DoublesDemo.d09]).
Proof.
  split; [reflexivity|]. split; [reflexivity|].
  apply (matching_keeps_scores_at_threshold DoublesDemo.score np_mean
           [("GO", Demo.go)] DoublesDemo.d08 (Demo.record "s1" "ACGU") "GO" Demo.go
           (VStr "ACGU")
           (fun t => match term_name t with
                     | Some n =>
                         if String.eqb n "high" then DoublesDemo.d09
                         else if String.eqb n "low" then 0.5%float
                         else DoublesDemo.d07
                     | None => DoublesDemo.d07
                     end)).
  - reflexivity.
  - reflexivity.
  - repeat constructor.
Defined.

(** C4 fails as stated: three retained terms that each score 0.7, with
    [min_confidence] 0.7, get a confidence below 0.7, which is not their
    arithmetic mean. *)
Lemma mean_of_equal_scores_is_rounded :
  Forall (fun it => DoublesDemo.score (VStr "ACGU") (snd it) = Ok DoublesDemo.d07)
         DoublesDemo.three
  /\ _find_matching_terms DoublesDemo.score np_mean [("GO", DoublesDemo.three)]
       DoublesDemo.d07 (Demo.record "s1" "ACGU") "GO"
     = Ok (["T1"; "T2"; "T3"], 0x1.6666666666665p-1%float)
  /\ 0x1.6666666666665p-1%float <> DoublesDemo.d07
  /\ PrimFloat.ltb 0x1.6666666666665p-1%float DoublesDemo.d07 = true.
Proof.
  split; [repeat constructor|]. split; [reflexivity|].
  split; [discriminate | reflexivity].
Qed.

End DoublesFacts.
